(** * pm25-measurement-tool: station discovery and the rate-paced sampling loop

    A shallow embedding of [src/main.py].  Python floats are IEEE binary64
    numbers, modelled by Rocq's primitive floats; Python exceptions are the
    [Raise] results of an error monad; [print] and [time.sleep] are recorded
    as events; the network, the clock and the text-reading builtins are
    supplied by an explicit [world]. *)

From Stdlib Require Import String Ascii ZArith List Bool Lia Floats.
Import ListNotations.

Local Open Scope string_scope.
Local Open Scope list_scope.

(** * The program *)

(** ** Python values *)

(** The objects [response.json()] returns. *)
#[warnings="-register-all"] Inductive json : Type :=
| JNull
| JBool (b : bool)
| JInt (z : Z)
| JFloat (x : float)
| JStr (s : string)
| JList (l : list json)
| JDict (d : list (string * json)).

(** Exceptions the program raises or lets through. *)
Inductive exn : Type :=
| KeyError (key : string)
| TypeError
| ValueError
| ZeroDivisionError
| OverflowError
| PyException (arg : json)      (* raise Exception(arg) *)
| SystemExit (code : Z)         (* sys.exit(code) *)
| TransportError (what : string). (* raised by requests or by the JSON decoder *)

Inductive result (A : Type) : Type :=
| Ok (a : A)
| Raise (e : exn).
Arguments Ok {A} a.
Arguments Raise {A} e.

Definition rbind {A B} (r : result A) (k : A -> result B) : result B :=
  match r with
  | Ok a => k a
  | Raise e => Raise e
  end.

(** What the program writes and how long it sleeps, in program order. *)
Inductive event : Type :=
| PrintTooFewArguments
| PrintTooManyArguments
| PrintInvalidCoords
| PrintInvalidSamplingPeriod
| PrintInvalidSamplingRate
| PrintSamplingRateTooHigh
| PrintIgnoringStation (uid : Z)
| PrintValidStations (n : nat)
| PrintRateError (sampling_rate : float)
| PrintRateWarning (sampling_rate : float)
| PrintCollected (elapsed_during_request : float)
| PrintSample (uid : Z) (sample : json)
| PrintTooSlow (elapsed_during_request : float)
| PrintAverage (num_samples : nat) (sample_time_avg : float)
| Sleep (seconds : float).

(** Statements that print and may raise: the output so far and the result. *)
Definition M (A : Type) : Type := (list event * result A)%type.

Definition ret {A} (a : A) : M A := ([], Ok a).
Definition raise {A} (e : exn) : M A := ([], Raise e).
Definition emit (ev : event) : M unit := ([ev], Ok tt).
Definition lift {A} (r : result A) : M A := ([], r).

Definition bind {A B} (m : M A) (k : A -> M B) : M B :=
  match m with
  | (out, Ok a) => let (out', r) := k a in (out ++ out', r)
  | (out, Raise e) => (out, Raise e)
  end.

Declare Scope py_scope.
Delimit Scope py_scope with py.
Notation "x <- m ;; k" := (bind m (fun x => k))
  (at level 61, m at next level, right associativity) : py_scope.
Notation "m ;; k" := (bind m (fun _ => k))
  (at level 61, right associativity) : py_scope.
Notation "x <~ r ;; k" := (rbind r (fun x => k))
  (at level 61, r at next level, right associativity) : py_scope.

Local Open Scope py_scope.

(** ** Subscripts, [len], [in], [==] and iteration on JSON objects *)

Fixpoint dict_get (key : string) (d : list (string * json)) : option json :=
  match d with
  | [] => None
  | (k, v) :: d' => if String.eqb k key then Some v else dict_get key d'
  end.

Definition dict_keys (d : list (string * json)) : list string :=
  nodup string_dec (map fst d).

(** [obj[key]] with a text key. *)
Definition py_getitem (obj : json) (key : string) : result json :=
  match obj with
  | JDict d => match dict_get key d with
               | Some v => Ok v
               | None => Raise (KeyError key)
               end
  | _ => Raise TypeError
  end.

(** [obj == text]. *)
Definition py_eq_str (obj : json) (text : string) : bool :=
  match obj with
  | JStr s => String.eqb s text
  | _ => false
  end.

Fixpoint is_substring (p s : string) : bool :=
  if String.prefix p s then true
  else match s with
       | EmptyString => false
       | String _ s' => is_substring p s'
       end.

(** [text in obj]. *)
Definition py_contains (obj : json) (text : string) : result bool :=
  match obj with
  | JDict d => Ok (existsb (String.eqb text) (map fst d))
  | JList l => Ok (existsb (fun j => py_eq_str j text) l)
  | JStr s => Ok (is_substring text s)
  | _ => Raise TypeError
  end.

(** [len(obj)]. *)
Definition py_len (obj : json) : result nat :=
  match obj with
  | JList l => Ok (length l)
  | JDict d => Ok (length (dict_keys d))
  | JStr s => Ok (String.length s)
  | _ => Raise TypeError
  end.

Fixpoint chars (s : string) : list json :=
  match s with
  | EmptyString => []
  | String c s' => JStr (String c EmptyString) :: chars s'
  end.

(** The items a [for] loop over [obj] visits. *)
Definition py_iter (obj : json) : result (list json) :=
  match obj with
  | JList l => Ok l
  | JDict d => Ok (map JStr (dict_keys d))
  | JStr s => Ok (chars s)
  | _ => Raise TypeError
  end.

(** [text + obj]. *)
Definition py_str_add (text : string) (obj : json) : result json :=
  match obj with
  | JStr s => Ok (JStr (String.append text s))
  | _ => Raise TypeError
  end.

Fixpoint mapM {A B} (f : A -> result B) (l : list A) : result (list B) :=
  match l with
  | [] => Ok []
  | a :: l' => b <~ f a ;; bs <~ mapM f l' ;; Ok (b :: bs)
  end.

(** ** Numbers *)

Definition f0 : float := 0%float.
Definition f60 : float := 60%float.
Definition f500 : float := 500%float.
Definition f1000 : float := 1000%float.

(** [float(z)] for an integer: the nearest binary64, or OverflowError. *)
Definition float_of_Z (z : Z) : result float :=
  let x := SF2Prim (binary_normalize prec emax z 0 false) in
  if is_infinity x then Raise OverflowError else Ok x.

(** [int(x)] for a float: truncation towards zero. *)
Definition int_of_float (x : float) : result Z :=
  match Prim2SF x with
  | S754_zero _ => Ok 0%Z
  | S754_finite s m e =>
      let a := if (0 <=? e)%Z then (Zpos m * 2 ^ e)%Z else (Zpos m / 2 ^ (- e))%Z in
      Ok (if s then (- a)%Z else a)
  | S754_infinity _ => Raise OverflowError
  | S754_nan => Raise ValueError
  end.

(** [a / b] on two integers: the exact quotient rounded once. *)
Definition int_truediv (a b : Z) : result float :=
  if (b =? 0)%Z then Raise ZeroDivisionError
  else if (a =? 0)%Z then Ok (if (b <? 0)%Z then (- f0)%float else f0)
  else
    let s := xorb (a <? 0)%Z (b <? 0)%Z in
    let '(q, e, l) := SFdiv_core_binary prec emax (Z.abs a) 0 (Z.abs b) 0 in
    let x := SF2Prim (binary_round_aux prec emax s q e l) in
    if is_infinity x then Raise OverflowError else Ok x.

(** [x / y] on floats. *)
Definition float_truediv (x y : float) : result float :=
  if (y =? f0)%float then Raise ZeroDivisionError else Ok (x / y)%float.

(** An integer or a float, as Python's arithmetic distinguishes them. *)
Inductive number : Type :=
| NInt (z : Z)
| NFloat (x : float).

Definition py_number (obj : json) : result number :=
  match obj with
  | JInt z => Ok (NInt z)
  | JBool b => Ok (NInt (if b then 1 else 0)%Z)
  | JFloat x => Ok (NFloat x)
  | _ => Raise TypeError
  end.

Definition py_to_float (n : number) : result float :=
  match n with
  | NInt z => float_of_Z z
  | NFloat x => Ok x
  end.

(** [a + b]. *)
Definition py_add (a b : number) : result number :=
  match a, b with
  | NInt x, NInt y => Ok (NInt (x + y))
  | _, _ => x <~ py_to_float a ;; y <~ py_to_float b ;; Ok (NFloat (x + y)%float)
  end.

(** [a / b]: always a float. *)
Definition py_truediv (a b : number) : result float :=
  match a, b with
  | NInt x, NInt y => int_truediv x y
  | _, _ => x <~ py_to_float a ;; y <~ py_to_float b ;; float_truediv x y
  end.

(** [sum(items)]: left to right from the integer 0 (CPython 3.11). *)
Fixpoint sum_from (acc : number) (items : list json) : result number :=
  match items with
  | [] => Ok acc
  | j :: items' => n <~ py_number j ;; acc' <~ py_add acc n ;; sum_from acc' items'
  end.

Definition py_sum (items : list json) : result number := sum_from (NInt 0) items.

(** [sum(sample_list) / len(sample_list)], line 156. *)
Definition mean (sample_list : list json) : result float :=
  s <~ py_sum sample_list ;; py_truediv s (NInt (Z.of_nat (length sample_list))).

(** [int(obj)], with the reading of numerals in text supplied. *)
Definition py_int (int_of_str : string -> option Z) (obj : json) : result Z :=
  match obj with
  | JInt z => Ok z
  | JBool b => Ok (if b then 1 else 0)%Z
  | JFloat x => int_of_float x
  | JStr s => match int_of_str s with
              | Some z => Ok z
              | None => Raise ValueError
              end
  | _ => Raise TypeError
  end.

(** ["{:.2f}".format(obj)] succeeds on numbers only. *)
Definition py_format_2f (obj : json) : result unit :=
  match obj with
  | JInt z => _ <~ float_of_Z z ;; Ok tt
  | JBool _ | JFloat _ => Ok tt
  | JStr _ => Raise ValueError
  | _ => Raise TypeError
  end.

(** ** The network *)

(** Request URLs: [{root_ip}/map/bounds?token={}&latlng={}] and
    [{root_ip}/feed/@{uid}/?token={}], kept as the values they are built from. *)
Inductive url : Type :=
| MapBounds (api_token coords : string)
| Feed (uid : json) (api_token : string).

(** A [requests.Response]: what its [json()] method gives. *)
Record response : Type := { json_of : result json }.

(** [requests.get] at one moment: a response, or the exception it raises. *)
Definition transport : Type := url -> result response.

(** Lines 19-22.  [executor.map] yields the results in the order of
    [url_list]; an exception raised by one request is raised again when
    [list] reaches its place, and [get_responses_batch] lets it through. *)
Definition get_responses_batch (get : transport) (url_list : list url)
  : result (list response) :=
  mapM get url_list.

(** ** Sampling *)

(** What [get_station_requests] returns: [0.0] on line 37, a pair of lists on
    line 55. *)
Inductive station_requests : Type :=
| ReturnedFloat (x : float)
| ReturnedPair (filtered_station_urls : list url) (filtered_station_uids : list Z).

(** Line 49: [iaqi in response.json()["data"]["iaqi"]]. *)
Definition reports (iaqi : string) (response : response) : result bool :=
  response_dict <~ json_of response ;;
  data <~ py_getitem response_dict "data" ;;
  indexes <~ py_getitem data "iaqi" ;;
  py_contains indexes iaqi.

(** The loop of lines 47-53 over [zip(response_list, station_urls, station_uids)]. *)
Fixpoint filter_stations (iaqi : string)
  (response_list : list response) (station_urls : list url) (station_uids : list Z)
  (filtered_station_urls : list url) (filtered_station_uids : list Z)
  : M (list url * list Z) :=
  match response_list, station_urls, station_uids with
  | response :: response_list', url :: station_urls', uid :: station_uids' =>
      reported <- lift (reports iaqi response) ;;
      if (reported : bool) then
        filter_stations iaqi response_list' station_urls' station_uids'
          (filtered_station_urls ++ [url]) (filtered_station_uids ++ [uid])
      else
        emit (PrintIgnoringStation uid) ;;
        filter_stations iaqi response_list' station_urls' station_uids'
          filtered_station_urls filtered_station_uids
  | _, _, _ => ret (filtered_station_urls, filtered_station_uids)
  end.

(** Lines 27-55. *)
Definition get_station_requests (int_of_str : string -> option Z) (get : transport)
  (coords api_token iaqi : string) : M station_requests :=
  let map_query_request := MapBounds api_token coords in
  response <- lift (get map_query_request) ;;
  response_dict <- lift (json_of response) ;;
  status <- lift (py_getitem response_dict "status") ;;
  if py_eq_str status "error" then
    message <- lift (data <~ py_getitem response_dict "data" ;; py_str_add "API error: " data) ;;
    raise (PyException message)
  else
    data <- lift (py_getitem response_dict "data") ;;
    n <- lift (py_len data) ;;
    if Nat.eqb n 0 then ret (ReturnedFloat f0)
    else
      cities <- lift (py_iter data) ;;
      station_urls <- lift (mapM (fun city_dict =>
                        uid <~ py_getitem city_dict "uid" ;; Ok (Feed uid api_token)) cities) ;;
      station_uids <- lift (mapM (fun city_dict =>
                        uid <~ py_getitem city_dict "uid" ;; py_int int_of_str uid) cities) ;;
      response_list <- lift (get_responses_batch get station_urls) ;;
      filtered <- filter_stations iaqi response_list station_urls station_uids [] [] ;;
      ret (ReturnedPair (fst filtered) (snd filtered)).

(** The loop of lines 61-66. *)
Fixpoint measurements (iaqi : string) (response_list : list response)
  (measurement_list : list json) : result (list json) :=
  match response_list with
  | [] => Ok measurement_list
  | response :: response_list' =>
      response_dict <~ json_of response ;;
      status <~ py_getitem response_dict "status" ;;
      if py_eq_str status "error" then
        message <~ py_getitem response_dict "message" ;; Raise (PyException message)
      else
        data <~ py_getitem response_dict "data" ;;
        indexes <~ py_getitem data "iaqi" ;;
        index <~ py_getitem indexes iaqi ;;
        v <~ py_getitem index "v" ;;
        measurements iaqi response_list' (measurement_list ++ [v])
  end.

(** Lines 57-68. *)
Definition get_samples (get : transport) (station_urls : list url) (iaqi : string)
  : result (list json) :=
  response_list <~ get_responses_batch get station_urls ;;
  measurements iaqi response_list [].

(** ** Handling arguments *)

(** A command-line argument is text; the defaults of [get_input] are floats. *)
Inductive argument : Type :=
| Text (s : string)
| Number (x : float).

(** [float(a)]: the reading of text is supplied ([None] for ValueError). *)
Definition py_float (float_of_str : string -> option float) (a : argument) : option float :=
  match a with
  | Text s => float_of_str s
  | Number x => Some x
  end.

(** Lines 11-16. *)
Definition is_float (float_of_str : string -> option float) (a : argument) : bool :=
  match py_float float_of_str a with
  | Some _ => true
  | None => false
  end.

(** Lines 73-95; [argv] is [sys.argv], the program's name first. *)
Definition get_input (argv : list string) : M (string * string * argument * argument) :=
  match argv with
  | [] | [_] | [_; _] =>
      emit PrintTooFewArguments ;; raise (SystemExit 1)
  | [_; api_token; coords] =>
      ret (api_token, coords, Number 5, Number 1)
  | [_; api_token; coords; sampling_period] =>
      ret (api_token, coords, Text sampling_period, Number 1)
  | [_; api_token; coords; sampling_period; sampling_rate] =>
      ret (api_token, coords, Text sampling_period, Text sampling_rate)
  | _ =>
      emit PrintTooManyArguments ;; raise (SystemExit 1)
  end.

(** Lines 97-120. *)
Definition validate_input (float_of_str : string -> option float)
  (coords : string) (sampling_period sampling_rate : argument)
  : M (string * float * float) :=
  if negb (is_substring "," coords) then
    emit PrintInvalidCoords ;; raise (SystemExit 1)
  else
    match py_float float_of_str sampling_period with
    | None => emit PrintInvalidSamplingPeriod ;; raise (SystemExit 1)
    | Some sampling_period =>
        match py_float float_of_str sampling_rate with
        | None => emit PrintInvalidSamplingRate ;; raise (SystemExit 1)
        | Some sampling_rate =>
            if (f1000 <? sampling_rate / f60)%float then
              emit PrintSamplingRateTooHigh ;; raise (SystemExit 1)
            else ret (coords, sampling_period, sampling_rate)
        end
    end.

(** ** Body *)

(** The three outcomes of the check of lines 134-141. *)
Inductive verdict : Type :=
| Proceed    (* no message *)
| Warn       (* the warning of line 140; sampling goes on *)
| Reject.    (* the error of line 136 and [sys.exit(2)] *)

(** Line 134: [(sampling_rate / 60) * len(station_urls)]. *)
Definition estimate_requests_per_sec (sampling_rate : float) (stations : nat)
  : result float :=
  n <~ float_of_Z (Z.of_nat stations) ;; Ok (sampling_rate / f60 * n)%float.

(** Lines 135 and 139. *)
Definition classify (estimate : float) : verdict :=
  if (f1000 <? estimate)%float then Reject
  else if (f500 <? estimate)%float then Warn
  else Proceed.

(** Lines 134-141. *)
Definition rate_guard (sampling_rate : float) (station_urls : list url) : M unit :=
  estimate <- lift (estimate_requests_per_sec sampling_rate (length station_urls)) ;;
  match classify estimate with
  | Reject => emit (PrintRateError sampling_rate) ;; raise (SystemExit 2)
  | Warn => emit (PrintRateWarning sampling_rate)
  | Proceed => ret tt
  end.

(** The variables of lines 143-145. *)
Record session : Type := {
  sample_total : float;
  num_samples : nat;
  time_elapsed : float
}.

Definition session_start : session :=
  {| sample_total := f0; num_samples := 0; time_elapsed := f0 |}.

(** What one iteration meets: the clock before the requests, the network
    while they run, the clock after them. *)
Record tick : Type := {
  time_before : float;
  tick_get : transport;
  time_after : float
}.

(** Lines 153-154, over [zip(sample_list, station_uids)]. *)
Fixpoint print_samples (sample_list : list json) (station_uids : list Z) : M unit :=
  match sample_list, station_uids with
  | sample :: sample_list', uid :: station_uids' =>
      lift (py_format_2f sample) ;;
      emit (PrintSample uid sample) ;;
      print_samples sample_list' station_uids'
  | _, _ => ret tt
  end.

(** [time.sleep(seconds)], by the checks CPython makes on its argument before
    it waits: a NaN raises ValueError; the duration in nanoseconds,
    [seconds * 1e9], raises OverflowError outside [-2^63, 2^63]; a negative
    duration raises ValueError ("sleep length must be non-negative"), and so
    does one of exactly 2^63 nanoseconds, which the conversion to a 64-bit
    integer turns negative. *)
Definition sleep (seconds : float) : M unit :=
  if is_nan seconds then raise ValueError
  else
    let nanoseconds := (seconds * 1e9)%float in
    if (0x1p63 <? nanoseconds)%float || (nanoseconds <? - 0x1p63)%float
    then raise OverflowError
    else if (nanoseconds <? 0)%float || (nanoseconds =? 0x1p63)%float
    then raise ValueError
    else emit (Sleep seconds).

(** Lines 148-166: one iteration of the sampling loop. *)
Definition loop_body (sampling_rate : float)
  (station_urls : list url) (station_uids : list Z) (t : tick) (st : session)
  : M session :=
  let last_time := time_before t in
  sample_list <- lift (get_samples (tick_get t) station_urls "pm25") ;;
  let elapsed_during_request := (time_after t - last_time)%float in
  emit (PrintCollected elapsed_during_request) ;;
  print_samples sample_list station_uids ;;
  tick_mean <- lift (mean sample_list) ;;
  let sample_total' := (sample_total st + tick_mean)%float in
  let num_samples' := S (num_samples st) in
  interval <- lift (float_truediv f60 sampling_rate) ;;
  let sleep_time := (interval - elapsed_during_request)%float in
  if (sleep_time <? f0)%float then
    emit (PrintTooSlow elapsed_during_request) ;; raise (SystemExit 2)
  else
    sleep sleep_time ;;
    interval' <- lift (float_truediv f60 sampling_rate) ;;
    ret {| sample_total := sample_total';
           num_samples := num_samples';
           time_elapsed := (time_elapsed st + interval')%float |}.

(** Where the [while] of line 147 stands when the observations end. *)
Inductive loop_state : Type :=
| Exited (st : session)     (* the condition of line 147 was false *)
| Running (st : session).   (* the condition held and no tick is left to observe *)

(** Lines 147-166, one observed [tick] per iteration. *)
Fixpoint sampling_loop (sampling_period sampling_rate : float)
  (station_urls : list url) (station_uids : list Z) (ticks : list tick) (st : session)
  : M loop_state :=
  if (time_elapsed st <? sampling_period * f60)%float then
    match ticks with
    | [] => ret (Running st)
    | t :: ticks' =>
        st' <- loop_body sampling_rate station_urls station_uids t st ;;
        sampling_loop sampling_period sampling_rate station_urls station_uids ticks' st'
    end
  else ret (Exited st).

(** Lines 168-169. *)
Definition report (st : session) : M (nat * float) :=
  sample_time_avg <- lift (py_truediv (NFloat (sample_total st))
                                      (NInt (Z.of_nat (num_samples st)))) ;;
  emit (PrintAverage (num_samples st) sample_time_avg) ;;
  ret (num_samples st, sample_time_avg).

(** Lines 143-169: [Some (num_samples, sample_time_avg)] when the session is
    done, [None] while it is still sampling at the last observed tick. *)
Definition sampling (sampling_period sampling_rate : float)
  (station_urls : list url) (station_uids : list Z) (ticks : list tick)
  : M (option (nat * float)) :=
  state <- sampling_loop sampling_period sampling_rate station_urls station_uids
             ticks session_start ;;
  match state with
  | Exited st => final <- report st ;; ret (Some final)
  | Running _ => ret None
  end.

(** Everything one run of the program meets. *)
Record world : Type := {
  argv : list string;                       (* sys.argv *)
  float_of_str : string -> option float;    (* float(text) *)
  int_of_str : string -> option Z;          (* int(text) *)
  discovery_get : transport;                (* the network during discovery *)
  ticks_of : list tick                      (* the sampling iterations *)
}.

(** Line 130: [station_urls, station_uids = ...] needs a pair. *)
Definition unpack (requests : station_requests) : result (list url * list Z) :=
  match requests with
  | ReturnedPair station_urls station_uids => Ok (station_urls, station_uids)
  | ReturnedFloat _ => Raise TypeError
  end.

(** Lines 125-169. *)
Definition main (w : world) : M (option (nat * float)) :=
  input <- get_input (argv w) ;;
  let '(api_token, coords, sampling_period, sampling_rate) := input in
  valid <- validate_input (float_of_str w) coords sampling_period sampling_rate ;;
  let '(coords, sampling_period, sampling_rate) := valid in
  requests <- get_station_requests (int_of_str w) (discovery_get w) coords api_token "pm25" ;;
  stations <- lift (unpack requests) ;;
  let '(station_urls, station_uids) := stations in
  emit (PrintValidStations (length station_urls)) ;;
  rate_guard sampling_rate station_urls ;;
  sampling sampling_period sampling_rate station_urls station_uids (ticks_of w).

(** * Inputs used as examples *)

(** One request of two fails. *)
Definition one_outage : transport := fun u =>
  match u with
  | Feed (JInt 1) _ => Raise (TransportError "timed out")
  | _ => Ok {| json_of := Ok JNull |}
  end.

(** A bounding box with one station whose probe answers with an error
    payload: no index map, only a message. *)
Definition failed_probe_get : transport := fun u =>
  match u with
  | MapBounds _ _ =>
      Ok {| json_of := Ok (JDict [("status", JStr "ok");
                                  ("data", JList [JDict [("uid", JInt 7)]])]) |}
  | Feed _ _ =>
      Ok {| json_of := Ok (JDict [("status", JStr "error");
                                  ("data", JStr "Unknown station")]) |}
  end.

(** The run that meets this network during discovery. *)
Definition failed_probe_world : world := {|
  argv := ["main.py"; "token"; "1,2,3,4"];
  float_of_str := fun _ => None;
  int_of_str := fun _ => None;
  discovery_get := failed_probe_get;
  ticks_of := []
|}.

(** Two stations, the second without [pm25]: the first is kept, the second
    dropped with its notice. *)
Definition two_stations_get : transport := fun u =>
  match u with
  | MapBounds _ _ =>
      Ok {| json_of := Ok (JDict [("status", JStr "ok");
              ("data", JList [JDict [("uid", JInt 11)]; JDict [("uid", JInt 12)]])]) |}
  | Feed (JInt 11) _ =>
      Ok {| json_of := Ok (JDict [("status", JStr "ok");
              ("data", JDict [("iaqi", JDict [("pm25", JDict [("v", JFloat 8)])])])]) |}
  | Feed _ _ =>
      Ok {| json_of := Ok (JDict [("status", JStr "ok");
              ("data", JDict [("iaqi", JDict [("o3", JDict [("v", JFloat 3)])])])]) |}
  end.

(** The bounding-box query answers with status "ok" and no station. *)
Definition empty_box_get : transport := fun u =>
  match u with
  | MapBounds _ _ =>
      Ok {| json_of := Ok (JDict [("status", JStr "ok"); ("data", JList [])]) |}
  | Feed _ _ => Raise (TransportError "not requested")
  end.

Definition empty_box_world : world := {|
  argv := ["main.py"; "token"; "1,2,3,4"];
  float_of_str := fun _ => None;
  int_of_str := fun _ => None;
  discovery_get := empty_box_get;
  ticks_of := []
|}.

(** The bounding box lists one station, whose probe reports no [pm25]. *)
Definition no_pm25_get : transport := fun u =>
  match u with
  | MapBounds _ _ =>
      Ok {| json_of := Ok (JDict [("status", JStr "ok");
                                  ("data", JList [JDict [("uid", JInt 7)]])]) |}
  | Feed _ _ =>
      Ok {| json_of := Ok (JDict [("status", JStr "ok");
              ("data", JDict [("iaqi", JDict [("o3", JDict [("v", JFloat 3)])])])]) |}
  end.

Definition no_pm25_world : world := {|
  argv := ["main.py"; "token"; "1,2,3,4"];
  float_of_str := fun _ => None;
  int_of_str := fun _ => None;
  discovery_get := no_pm25_get;
  ticks_of := [ {| time_before := 100; tick_get := no_pm25_get; time_after := 101 |} ]
|}.

(** Three stations answering 10, 20 and 30 for [pm25]. *)
Definition three_stations_get : transport := fun u =>
  let feed v := Ok {| json_of := Ok (JDict [("status", JStr "ok");
                  ("data", JDict [("iaqi", JDict [("pm25", JDict [("v", JFloat v)])])])]) |} in
  match u with
  | MapBounds _ _ =>
      Ok {| json_of := Ok (JDict [("status", JStr "ok");
              ("data", JList [JDict [("uid", JInt 1)]; JDict [("uid", JInt 2)];
                              JDict [("uid", JInt 3)]])]) |}
  | Feed (JInt 1) _ => feed 10%float
  | Feed (JInt 2) _ => feed 20%float
  | Feed _ _ => feed 30%float
  end.

Definition three_station_urls : list url :=
  [Feed (JInt 1) "token"; Feed (JInt 2) "token"; Feed (JInt 3) "token"].

(** A tick whose requests take half a second. *)
Definition half_second_tick : tick :=
  {| time_before := 100; tick_get := three_stations_get; time_after := 100.5 |}.

(** One station answering 10 for [pm25], and a tick of ten milliseconds. *)
Definition one_station_get : transport := fun _ =>
  Ok {| json_of := Ok (JDict [("status", JStr "ok");
          ("data", JDict [("iaqi", JDict [("pm25", JDict [("v", JFloat 10)])])])]) |}.

Definition quick_tick : tick :=
  {| time_before := 100; tick_get := one_station_get; time_after := 100.0078125 |}.

(** The session after six such ticks at 600 samples per minute. *)
Definition after_six_ticks : session :=
  {| sample_total := 60; num_samples := 6; time_elapsed := 0x1.3333333333333p-1 |}.

(** A tick whose requests take exactly one minute. *)
Definition minute_tick : tick :=
  {| time_before := 100; tick_get := one_station_get; time_after := 160 |}.

(** The run of [main] that C10 describes: the rate "0" is accepted and the
    first iteration raises. *)
Definition zero_rate_world : world := {|
  argv := ["main.py"; "token"; "1,2,3,4"; "5"; "0"];
  float_of_str := fun s => if String.eqb s "5" then Some 5%float
                           else if String.eqb s "0" then Some 0%float else None;
  int_of_str := fun _ => None;
  discovery_get := three_stations_get;
  ticks_of := [half_second_tick]
|}.

(** One station, one minute at one sample per minute, one tick of ten
    milliseconds. *)
Definition one_minute_world : world := {|
  argv := ["main.py"; "token"; "1,2,3,4"; "1"];
  float_of_str := fun s => if String.eqb s "1" then Some 1%float else None;
  int_of_str := fun _ => None;
  discovery_get := fun u =>
    match u with
    | MapBounds _ _ =>
        Ok {| json_of := Ok (JDict [("status", JStr "ok");
                                    ("data", JList [JDict [("uid", JInt 1)]])]) |}
    | Feed _ _ => one_station_get u
    end;
  ticks_of := [quick_tick]
|}.

(** * Notions used in the statements *)

Definition zip3 {A B C} (la : list A) (lb : list B) (lc : list C) : list (A * B * C) :=
  combine (combine la lb) lc.

Definition kept (iaqi : string) (row : response * url * Z) : bool :=
  match reports iaqi (fst (fst row)) with
  | Ok true => true
  | _ => false
  end.

Definition dropped (iaqi : string) (row : response * url * Z) : bool :=
  match reports iaqi (fst (fst row)) with
  | Ok false => true
  | _ => false
  end.

(** The state line 166 leaves, for the tick mean and the interval computed. *)
Definition advance (st : session) (tick_mean interval : float) : session :=
  {| sample_total := (sample_total st + tick_mean)%float;
     num_samples := S (num_samples st);
     time_elapsed := (time_elapsed st + interval)%float |}.

Definition latency (t : tick) : float := (time_after t - time_before t)%float.

(** The iterations over [ticks] one after the other, without the test of
    line 147: the state after [length ticks] completed iterations. *)
Fixpoint iterations (sampling_rate : float)
  (station_urls : list url) (station_uids : list Z) (ticks : list tick) (st : session)
  : M session :=
  match ticks with
  | [] => ret st
  | t :: ticks' =>
      st' <- loop_body sampling_rate station_urls station_uids t st ;;
      iterations sampling_rate station_urls station_uids ticks' st'
  end.

(** [acc + x + ... + x], with [k] additions of binary64. *)
Fixpoint add_repeatedly (k : nat) (x acc : float) : float :=
  match k with
  | O => acc
  | S k' => add_repeatedly k' x (acc + x)%float
  end.

(** The test of line 147. *)
Definition keeps_sampling (sampling_period : float) (st : session) : bool :=
  (time_elapsed st <? sampling_period * f60)%float.

Definition verdict_rank (v : verdict) : nat :=
  match v with
  | Proceed => 0
  | Warn => 1
  | Reject => 2
  end.

(** ** Notions for the further properties *)

(** Lines 62-66 for one response: the value it adds to [measurement_list], or
    what it raises. *)
Definition reading (iaqi : string) (response : response) : result json :=
  response_dict <~ json_of response ;;
  status <~ py_getitem response_dict "status" ;;
  if py_eq_str status "error" then
    message <~ py_getitem response_dict "message" ;; Raise (PyException message)
  else
    data <~ py_getitem response_dict "data" ;;
    indexes <~ py_getitem data "iaqi" ;;
    index <~ py_getitem indexes iaqi ;;
    py_getitem index "v".

(** The lines of lines 153-154, one for each pair of the [zip]. *)
Definition sample_lines (sample_list : list json) (station_uids : list Z) : list event :=
  map (fun pair => PrintSample (snd pair) (fst pair)) (combine sample_list station_uids).

Definition is_sleep (ev : event) : bool :=
  match ev with
  | Sleep _ => true
  | _ => false
  end.

(** ** Binary64 values as integers *)

Local Open Scope Z_scope.

Definition locates (rec : shr_record) (N D : Z) : Prop :=
  shr_m rec = N / D /\
  shr_r rec = (D <=? 2 * (N mod D)) /\
  shr_s rec = negb ((N mod D =? 0) || (2 * (N mod D) =? D)).

Definition rne (N D : Z) : Z :=
  let q := N / D in
  let R := N mod D in
  if 2 * R <? D then q
  else if D <? 2 * R then q + 1
  else if Z.even q then q else q + 1.

(** Values are kept as fractions [A / D] of 2^-2200. *)
Definition K : Z := 2200.

Definition target (A D : Z) : Z := fexp prec emax (Zdigits2 (A / D) - K).

Definition round_fix (A D : Z) : Z :=
  rne A (D * 2 ^ (target A D + K)) * 2 ^ (target A D + K).

(** A float as a signed multiple of 2^-2200; the infinities stand just
    beyond the largest finite value. *)
Definition fixval (x : spec_float) : Z :=
  match x with
  | S754_finite s m e => cond_Zopp s (Zpos m * 2 ^ (e + K))
  | S754_infinity s => cond_Zopp s (2 ^ (1024 + K))
  | _ => 0
  end.

Definition INF : Z := 2 ^ (1024 + K).

Definition fv (x : float) : Z := fixval (Prim2SF x).

Definition not_nan (x : float) : Prop := Prim2SF x <> S754_nan.

Local Close Scope Z_scope.

(** * Binary64 arithmetic *)

Local Open Scope Z_scope.

(** ** Digits and shifts *)

Lemma Zdigits2_log2 (m : Z) : 0 < m -> Zdigits2 m = Z.log2 m + 1.
Proof.
  destruct m as [ | p | p]; try lia. intros _. cbn [Zdigits2].
  induction p as [p IH | p IH | ]; cbn [digits2_pos].
  - rewrite Pos2Z.inj_succ, IH. change (Zpos p~1) with (2 * Zpos p + 1).
    rewrite Z.log2_succ_double by lia. lia.
  - rewrite Pos2Z.inj_succ, IH. change (Zpos p~0) with (2 * Zpos p).
    rewrite Z.log2_double by lia. lia.
  - reflexivity.
Qed.

Lemma Zdigits2_bounds (m : Z) : 0 < m -> 2 ^ (Zdigits2 m - 1) <= m < 2 ^ Zdigits2 m.
Proof.
  intros H. rewrite Zdigits2_log2 by exact H.
  replace (Z.log2 m + 1 - 1) with (Z.log2 m) by lia.
  apply Z.log2_spec. exact H.
Qed.

Lemma Zdigits2_nonneg m : 0 <= Zdigits2 m.
Proof. destruct m; cbn; lia. Qed.

Lemma Zdigits2_pos m : 0 < m -> 0 < Zdigits2 m.
Proof. destruct m; cbn; lia. Qed.

Lemma Zdigits2_unique m d : 0 < d -> 2 ^ (d - 1) <= m < 2 ^ d -> Zdigits2 m = d.
Proof.
  intros Hd H. assert (0 < m) by (pose proof (Z.pow_pos_nonneg 2 (d - 1)); lia).
  rewrite Zdigits2_log2 by assumption.
  rewrite (Z.log2_unique m (d - 1)); try lia.
  replace (Z.succ (d - 1)) with d by lia. exact H.
Qed.

Lemma Zdigits2_le m n : 0 <= m <= n -> Zdigits2 m <= Zdigits2 n.
Proof.
  intros [H0 H]. destruct (Z.eq_dec m 0) as [-> | Hm].
  - apply Zdigits2_nonneg.
  - rewrite !Zdigits2_log2 by lia. pose proof (Z.log2_le_mono m n H). lia.
Qed.

Lemma Zdigits2_lt_pow m d : 0 <= m -> 0 <= d -> m < 2 ^ d <-> Zdigits2 m <= d.
Proof.
  intros Hm Hd. destruct (Z.eq_dec m 0) as [-> | Hm0].
  - cbn. pose proof (Z.pow_pos_nonneg 2 d). lia.
  - rewrite Zdigits2_log2 by lia. rewrite Z.log2_lt_pow2 by lia. lia.
Qed.

Lemma Zdigits2_ge_pow m k : 0 <= k -> 2 ^ k <= m -> k + 1 <= Zdigits2 m.
Proof.
  intros Hk H. assert (0 < 2 ^ k) by (apply Z.pow_pos_nonneg; lia).
  pose proof (Zdigits2_bounds m ltac:(lia)) as [_ Hu].
  assert (2 ^ k < 2 ^ Zdigits2 m) as Hlt by lia.
  apply Z.pow_lt_mono_r_iff in Hlt; [ lia | lia | apply Zdigits2_nonneg ].
Qed.

Lemma Zdigits2_mul_ge a b :
  0 < a -> 0 < b -> Zdigits2 a + Zdigits2 b - 1 <= Zdigits2 (a * b).
Proof.
  intros Ha Hb.
  pose proof (Zdigits2_bounds a Ha) as [La _]. pose proof (Zdigits2_bounds b Hb) as [Lb _].
  pose proof (Zdigits2_bounds (a * b) ltac:(nia)) as [_ Uab].
  pose proof (Zdigits2_pos a Ha). pose proof (Zdigits2_pos b Hb).
  assert (2 ^ (Zdigits2 a - 1 + (Zdigits2 b - 1)) < 2 ^ Zdigits2 (a * b)) as Hlt.
  { rewrite Z.pow_add_r by lia.
    assert (0 < 2 ^ (Zdigits2 a - 1)) by (apply Z.pow_pos_nonneg; lia).
    assert (0 < 2 ^ (Zdigits2 b - 1)) by (apply Z.pow_pos_nonneg; lia). nia. }
  apply Z.pow_lt_mono_r_iff in Hlt; [ lia | lia | apply Zdigits2_nonneg ].
Qed.

Ltac zbool :=
  repeat match goal with
    | |- context [?a =? ?b] => destruct (Z.eqb_spec a b)
    | |- context [?a <=? ?b] => destruct (Z.leb_spec a b)
    | |- context [?a <? ?b] => destruct (Z.ltb_spec a b)
    end;
  cbn [orb andb negb]; try reflexivity; try lia.

Lemma fexp_eq e : fexp prec emax e = Z.max (e - 53) (-1074).
Proof. reflexivity. Qed.

Lemma shr_m_of_loc m l : shr_m (shr_record_of_loc m l) = m.
Proof. destruct l as [ | []]; reflexivity. Qed.

Lemma locates_shr_1 rec N D :
  0 <= N -> 0 < D -> locates rec N D -> locates (shr_1 rec) N (D * 2).
Proof.
  intros HN HD (Hm & Hr & Hs).
  assert (N / (D * 2) = (N / D) / 2) as Hq by (rewrite Z.div_div; lia).
  assert (N mod (D * 2) = N mod D + D * ((N / D) mod 2)) as HR
    by (apply Z.rem_mul_r; lia).
  pose proof (Z.mod_pos_bound N D HD) as HRb.
  pose proof (Z.div_pos N D HN HD) as Hqpos.
  destruct rec as [m r s]. cbn [shr_m shr_r shr_s] in *. subst m.
  unfold locates. rewrite Hq, HR.
  assert (r || s = negb (N mod D =? 0)) as Hrs by (rewrite Hr, Hs; zbool).
  set (R := N mod D) in *. clearbody R.
  destruct (N / D) as [ | p | p] eqn:Eq; [ | | lia ].
  - cbn [shr_1 shr_m shr_r shr_s]. rewrite Hrs. change (0 / 2) with 0. change (0 mod 2) with 0.
    rewrite Z.mul_0_r, Z.add_0_r. repeat split; zbool.
  - destruct p as [p | p | ]; cbn [shr_1 shr_m shr_r shr_s]; rewrite Hrs.
    + change (Z.pos p~1) with (2 * Z.pos p + 1).
      replace ((2 * Z.pos p + 1) / 2) with (Z.pos p) by (apply Z.div_unique with 1; lia).
      replace ((2 * Z.pos p + 1) mod 2) with 1 by (apply Z.mod_unique with (Z.pos p); lia).
      repeat split; zbool.
    + change (Z.pos p~0) with (2 * Z.pos p).
      replace (2 * Z.pos p / 2) with (Z.pos p) by (apply Z.div_unique with 0; lia).
      replace ((2 * Z.pos p) mod 2) with 0 by (apply Z.mod_unique with (Z.pos p); lia).
      rewrite Z.mul_0_r, Z.add_0_r. repeat split; zbool.
    + change (1 / 2) with 0. change (1 mod 2) with 1. repeat split; zbool.
Qed.

Lemma locates_iter_pos p : forall rec N D,
  0 <= N -> 0 < D -> locates rec N D ->
  locates (iter_pos shr_1 p rec) N (D * 2 ^ Zpos p).
Proof.
  induction p as [p IH | p IH | ]; intros rec N D HN HD H; cbn [iter_pos].
  - replace (D * 2 ^ Zpos p~1) with (D * 2 * 2 ^ Zpos p * 2 ^ Zpos p).
    + apply IH; try lia. apply IH; try lia. now apply locates_shr_1.
    + rewrite Pos2Z.inj_xI, Z.pow_add_r, Z.pow_mul_r, Z.pow_2_r by lia.
      assert ((2 ^ Zpos p) ^ 2 = 2 ^ Zpos p * 2 ^ Zpos p) by (rewrite Z.pow_2_r; reflexivity).
      rewrite Z.pow_mul_l. lia.
  - replace (D * 2 ^ Zpos p~0) with (D * 2 ^ Zpos p * 2 ^ Zpos p).
    + apply IH; try lia. now apply IH.
    + rewrite Pos2Z.inj_xO. rewrite <- Z.mul_assoc, <- Z.pow_add_r by lia. f_equal. f_equal. lia.
  - change (2 ^ 1) with 2. now apply locates_shr_1.
Qed.

Lemma locates_exact m : 0 <= m -> locates (shr_record_of_loc m loc_Exact) m 1.
Proof.
  intros Hm. unfold locates. cbn [shr_record_of_loc shr_m shr_r shr_s].
  rewrite Z.div_1_r, Z.mod_1_r. repeat split.
Qed.

Lemma round_nearest_even_rne rec N D :
  0 < D -> locates rec N D ->
  round_nearest_even (shr_m rec) (loc_of_shr_record rec) = rne N D.
Proof.
  intros HD (Hm & Hr & Hs). pose proof (Z.mod_pos_bound N D HD) as HR.
  destruct rec as [m r s]. cbn [shr_m shr_r shr_s] in *. subst m.
  unfold rne. set (R := N mod D) in *. clearbody R.
  destruct r, s; cbn [loc_of_shr_record round_nearest_even];
    revert Hr Hs; zbool; intros; try discriminate; try lia.
Qed.

Lemma locates_shr rec N D e n :
  0 <= N -> 0 < D -> locates rec N D ->
  locates (fst (shr rec e n)) N (D * 2 ^ Z.max n 0) /\
  snd (shr rec e n) = e + Z.max n 0.
Proof.
  intros HN HD H. destruct n as [ | p | p]; cbn [shr fst snd].
  - change (Z.max 0 0) with 0. rewrite Z.mul_1_r, Z.add_0_r. auto.
  - rewrite Z.max_l by lia. split; [ now apply locates_iter_pos | reflexivity ].
  - rewrite Z.max_r by lia. change (2 ^ 0) with 1. rewrite Z.mul_1_r, Z.add_0_r. auto.
Qed.

Lemma iter_xO_pow m d : Zpos (Pos.iter xO m d) = Zpos m * 2 ^ Zpos d.
Proof.
  rewrite (Pos.iter_swap_gen _ _ Zpos xO (Z.mul 2)) by reflexivity.
  change (Pos.iter (Z.mul 2) (Zpos m) d) with (Z.shiftl (Zpos m) (Zpos d)).
  apply Z.shiftl_mul_pow2. lia.
Qed.

Lemma shl_align_spec mx ex ex' :
  snd (shl_align mx ex ex') = Z.min ex ex' /\
  Zpos (fst (shl_align mx ex ex')) = Zpos mx * 2 ^ (ex - Z.min ex ex').
Proof.
  unfold shl_align. destruct (ex' - ex) as [ | d | d] eqn:E; cbn [fst snd].
  - rewrite Z.min_l by lia. now rewrite Z.sub_diag, Z.mul_1_r.
  - rewrite Z.min_l by lia. now rewrite Z.sub_diag, Z.mul_1_r.
  - rewrite Z.min_r by lia. split; [ reflexivity | ].
    rewrite iter_xO_pow. do 2 f_equal. lia.
Qed.

Lemma new_location_locates N D :
  0 <= N -> 0 < D ->
  locates (shr_record_of_loc (N / D) (new_location D (N mod D))) N D.
Proof.
  intros HN HD. pose proof (Z.mod_pos_bound N D HD) as HR.
  set (R := N mod D) in *. unfold locates. rewrite shr_m_of_loc.
  split; [ reflexivity | ]. fold R. unfold new_location.
  destruct (Z.even D) eqn:Ev.
  - unfold new_location_even. destruct (Z.eqb_spec R 0) as [E0 | E0].
    + cbn [shr_record_of_loc shr_r shr_s]. split; zbool.
    + destruct (Z.compare_spec (2 * R) D); cbn [shr_record_of_loc shr_r shr_s]; split; zbool.
  - assert (2 * R <> D) as Hodd.
    { intros E. rewrite <- E, Z.even_mul in Ev. discriminate Ev. }
    unfold new_location_odd. destruct (Z.eqb_spec R 0) as [E0 | E0].
    + cbn [shr_record_of_loc shr_r shr_s]. split; zbool.
    + destruct (Z.compare_spec (2 * R + 1) D); cbn [shr_record_of_loc shr_r shr_s]; split; zbool.
Qed.

(** ** Rounding to nearest, ties to even *)

(** [binary_round_aux] in terms of [rne]. *)
Lemma binary_round_aux_rne sx mx ex lx N D :
  0 <= N -> 0 < D -> locates (shr_record_of_loc mx lx) N D ->
  let k1 := Z.max (fexp prec emax (Zdigits2 mx + ex) - ex) 0 in
  let m2 := rne N (D * 2 ^ k1) in
  let e1 := ex + k1 in
  let k2 := Z.max (fexp prec emax (Zdigits2 m2 + e1) - e1) 0 in
  let e2 := e1 + k2 in
  binary_round_aux prec emax sx mx ex lx =
    match m2 / 2 ^ k2 with
    | 0 => S754_zero sx
    | Zpos m => if e2 <=? emax - prec then S754_finite sx m e2 else S754_infinity sx
    | Zneg _ => S754_nan
    end.
Proof.
  intros HN HD H k1 m2 e1 k2 e2. unfold binary_round_aux, shr_fexp.
  pose proof (locates_shr _ _ _ ex (fexp prec emax (Zdigits2 mx + ex) - ex) HN HD H)
    as [H1 He1].
  destruct (shr (shr_record_of_loc mx lx) ex _) as [rec1 e1'] eqn:E1.
  cbn [fst snd] in H1, He1. fold k1 in H1, He1. fold e1 in He1. subst e1'.
  assert (0 < D * 2 ^ k1) as HD1.
  { apply Z.mul_pos_pos; [ exact HD | apply Z.pow_pos_nonneg; lia ]. }
  rewrite (round_nearest_even_rne _ _ _ HD1 H1). fold m2.
  assert (0 <= m2) as Hm2.
  { unfold m2, rne. pose proof (Z.div_pos N (D * 2 ^ k1) HN HD1).
    repeat match goal with |- context [if ?b then _ else _] => destruct b end; lia. }
  pose proof (locates_shr _ _ _ e1 (fexp prec emax (Zdigits2 m2 + e1) - e1)
                Hm2 Z.lt_0_1 (locates_exact m2 Hm2)) as [H2 He2].
  destruct (shr (shr_record_of_loc m2 loc_Exact) e1 _) as [rec2 e2'] eqn:E2.
  cbn [fst snd] in H2, He2. fold k2 in H2, He2. fold e2 in He2. subst e2'.
  destruct H2 as (Hm & _). rewrite Hm, Z.mul_1_l. reflexivity.
Qed.

Lemma rne_bounds N D : 0 < D -> N / D <= rne N D <= N / D + 1.
Proof.
  intros HD. unfold rne.
  repeat match goal with |- context [if ?b then _ else _] => destruct b end; lia.
Qed.

Lemma canonical_mantissa_eq m e :
  canonical_mantissa prec emax m e = (Z.max (Zdigits2 (Zpos m) + e - 53) (-1074) =? e).
Proof. reflexivity. Qed.

Lemma binary_round_aux_correct sx mx ex lx N D :
  0 <= N -> 0 < D -> locates (shr_record_of_loc mx lx) N D ->
  ex <= fexp prec emax (Zdigits2 mx + ex) ->
  let t := fexp prec emax (Zdigits2 mx + ex) in
  let R := rne N (D * 2 ^ (t - ex)) in
  (R = 0 /\ binary_round_aux prec emax sx mx ex lx = S754_zero sx) \/
  (exists m e,
      0 < R /\ t <= e /\ Zpos m * 2 ^ (e - t) = R /\
      canonical_mantissa prec emax m e = true /\
      binary_round_aux prec emax sx mx ex lx =
        if e <=? 971 then S754_finite sx m e else S754_infinity sx).
Proof.
  intros HN HD Hloc Hex t R.
  rewrite (binary_round_aux_rne sx mx ex lx N D HN HD Hloc). cbv zeta.
  fold t. rewrite (Z.max_l (t - ex) 0) by lia. fold R.
  replace (ex + (t - ex)) with t by lia.
  assert (mx = N / D) as Hmx by (destruct Hloc as (Hm & _); now rewrite shr_m_of_loc in Hm).
  pose proof (Z.div_pos N D HN HD) as Hmx0. rewrite <- Hmx in Hmx0.
  assert (0 < 2 ^ (t - ex)) as Hpow by (apply Z.pow_pos_nonneg; lia).
  assert (0 < D * 2 ^ (t - ex)) as HD1 by (apply Z.mul_pos_pos; assumption).
  pose proof (rne_bounds N (D * 2 ^ (t - ex)) HD1) as HRb. fold R in HRb.
  rewrite <- Z.div_div, <- Hmx in HRb by lia. clearbody R.
  assert (-1074 <= t) as Htmin by (unfold t; rewrite fexp_eq; lia).
  assert (Zdigits2 mx + ex - 53 <= t) as Htdig by (unfold t; rewrite fexp_eq; lia).
  (* the shifted mantissa has at most 53 digits *)
  assert (mx / 2 ^ (t - ex) < 2 ^ 53) as Hm1.
  { apply Z.div_lt_upper_bound; [ exact Hpow | ].
    rewrite <- Z.pow_add_r by lia.
    destruct (Z.eq_dec mx 0) as [-> | Hmx1].
    - apply Z.pow_pos_nonneg; lia.
    - pose proof (Zdigits2_bounds mx ltac:(lia)) as [_ Hub].
      eapply Z.lt_le_trans; [ exact Hub | ].
      apply Z.pow_le_mono_r; lia. }
  (* and exactly 53 above the smallest exponent *)
  assert (-1074 < t -> 2 ^ 52 <= mx / 2 ^ (t - ex)) as Hm1'.
  { intros Hnormal.
    assert (t = Zdigits2 mx + ex - 53) as Ht by (unfold t in *; rewrite fexp_eq in *; lia).
    assert (0 < mx).
    { destruct (Z.eq_dec mx 0) as [-> | ]; [ | lia ]. cbn in Ht. lia. }
    apply Z.div_le_lower_bound; [ exact Hpow | ].
    rewrite <- Z.pow_add_r by lia.
    pose proof (Zdigits2_bounds mx ltac:(lia)) as [Hlb _].
    replace (t - ex + 52) with (Zdigits2 mx - 1) by lia. exact Hlb. }
  assert (0 <= mx / 2 ^ (t - ex)) as Hm10 by (apply Z.div_pos; lia).
  destruct (Z.eq_dec R 0) as [HR0 | HR0].
  { left. split; [ exact HR0 | ]. rewrite HR0. now rewrite Z.div_0_l by (apply Z.pow_nonzero; lia). }
  right.
  destruct (Z.eq_dec R (2 ^ 53)) as [HR53 | HR53].
  - (* the rounding carried into a 54th digit *)
    assert (Zdigits2 R = 54) as Hdig by (rewrite HR53; reflexivity).
    rewrite Hdig, fexp_eq.
    replace (Z.max (Z.max (54 + t - 53) (-1074) - t) 0) with 1 by lia.
    rewrite HR53. change (2 ^ 53 / 2 ^ 1) with (Zpos (2 ^ 52)).
    exists (2 ^ 52)%positive, (t + 1). repeat split; try lia.
    + replace (t + 1 - t) with 1 by lia. reflexivity.
    + rewrite canonical_mantissa_eq. change (Zdigits2 (Zpos (2 ^ 52))) with 53. zbool.
  - assert (0 < R < 2 ^ 53) as HRr by lia.
    assert (Zdigits2 R <= 53) as Hdig by (apply Zdigits2_lt_pow; lia).
    pose proof (Zdigits2_nonneg R) as Hdig0.
    rewrite fexp_eq.
    replace (Z.max (Z.max (Zdigits2 R + t - 53) (-1074) - t) 0) with 0 by lia.
    rewrite Z.pow_0_r, Z.div_1_r, Z.add_0_r.
    destruct R as [ | m | m] eqn:ER; try lia.
    exists m, t. repeat split; try lia.
    + now rewrite Z.sub_diag, Z.mul_1_r.
    + rewrite canonical_mantissa_eq.
      destruct (Z.eq_dec t (-1074)) as [Ht | Ht].
      * zbool.
      * assert (Zdigits2 (Zpos m) = 53) as ->; [ | zbool ].
        apply Zdigits2_unique; [ lia | ]. change (53 - 1) with 52. lia.
Qed.

Lemma div_le_cross A1 D1 A2 D2 :
  0 < D1 -> 0 < D2 -> A1 * D2 <= A2 * D1 -> A1 / D1 <= A2 / D2.
Proof.
  intros H1 H2 H. apply Z.div_le_lower_bound; [ exact H2 | ].
  pose proof (Z.mul_div_le A1 D1 H1).
  assert (D2 * (A1 / D1) * D1 <= A2 * D1) by nia.
  nia.
Qed.

Lemma rne_ge_int A D b : 0 < D -> b * D <= A -> b <= rne A D.
Proof.
  intros HD H. pose proof (rne_bounds A D HD).
  assert (b <= A / D) by (apply Z.div_le_lower_bound; lia). lia.
Qed.

Lemma rne_exact b D : 0 < D -> rne (b * D) D = b.
Proof.
  intros HD. unfold rne. rewrite Z.div_mul, Z.mod_mul by lia. zbool.
Qed.

Lemma rne_le_int A D b : 0 < D -> A <= b * D -> rne A D <= b.
Proof.
  intros HD H. destruct (Z.eq_dec A (b * D)) as [-> | Hne].
  - rewrite rne_exact by exact HD. lia.
  - pose proof (rne_bounds A D HD).
    assert (A / D < b) by (apply Z.div_lt_upper_bound; lia). lia.
Qed.

Lemma rne_mono A1 D1 A2 D2 :
  0 < D1 -> 0 < D2 -> A1 * D2 <= A2 * D1 -> rne A1 D1 <= rne A2 D2.
Proof.
  intros H1 H2 H. pose proof (div_le_cross _ _ _ _ H1 H2 H) as Hq.
  pose proof (rne_bounds A1 D1 H1). pose proof (rne_bounds A2 D2 H2).
  destruct (Z.eq_dec (A1 / D1) (A2 / D2)) as [Heq | Hne]; [ | lia ].
  pose proof (Z.div_mod A1 D1 ltac:(lia)) as E1.
  pose proof (Z.div_mod A2 D2 ltac:(lia)) as E2.
  pose proof (Z.mod_pos_bound A1 D1 H1). pose proof (Z.mod_pos_bound A2 D2 H2).
  unfold rne. rewrite <- Heq.
  set (q := A1 / D1) in *. set (R1 := A1 mod D1) in *. set (R2 := A2 mod D2) in *.
  rewrite <- Heq in E2.
  assert (R1 * D2 <= R2 * D1) by nia.
  destruct (Z.ltb_spec (2 * R1) D1), (Z.ltb_spec D1 (2 * R1)),
           (Z.ltb_spec (2 * R2) D2), (Z.ltb_spec D2 (2 * R2));
    destruct (Z.even q); try lia; nia.
Qed.

Lemma rne_scale A D c : 0 < D -> 0 < c -> rne (A * c) (D * c) = rne A D.
Proof.
  intros HD Hc. unfold rne.
  rewrite Z.div_mul_cancel_r, Z.mul_mod_distr_r by lia.
  pose proof (Z.mod_pos_bound A D HD).
  set (R := A mod D) in *. set (q := A / D).
  destruct (Z.ltb_spec (2 * R) D), (Z.ltb_spec (2 * (R * c)) (D * c)); try nia;
  destruct (Z.ltb_spec D (2 * R)), (Z.ltb_spec (D * c) (2 * (R * c))); try nia; reflexivity.
Qed.

Lemma target_mono A1 D1 A2 D2 :
  0 <= A1 -> 0 < D1 -> 0 < D2 -> A1 * D2 <= A2 * D1 -> target A1 D1 <= target A2 D2.
Proof.
  intros HA H1 H2 H. unfold target. rewrite !fexp_eq.
  pose proof (div_le_cross _ _ _ _ H1 H2 H).
  pose proof (Z.div_pos A1 D1 HA H1).
  pose proof (Zdigits2_le (A1 / D1) (A2 / D2) ltac:(lia)). lia.
Qed.

Lemma round_fix_mono A1 D1 A2 D2 :
  0 <= A1 -> 0 < D1 -> 0 < D2 -> A1 * D2 <= A2 * D1 ->
  round_fix A1 D1 <= round_fix A2 D2.
Proof.
  intros HA H1 H2 H.
  pose proof (div_le_cross _ _ _ _ H1 H2 H) as Hq.
  pose proof (Z.div_pos A1 D1 HA H1) as Hq1.
  pose proof (Z.div_mod A1 D1 ltac:(lia)) as E1.
  pose proof (Z.mod_pos_bound A1 D1 H1) as R1.
  pose proof (Z.div_mod A2 D2 ltac:(lia)) as E2.
  pose proof (Z.mod_pos_bound A2 D2 H2) as R2.
  unfold round_fix, target. rewrite !fexp_eq.
  set (q1 := A1 / D1) in *. set (q2 := A2 / D2) in *.
  pose proof (Zdigits2_le q1 q2 ltac:(lia)) as Hdig.
  pose proof (Zdigits2_nonneg q1) as Hd1.
  set (g1 := Z.max (Zdigits2 q1 - K - 53) (-1074) + K).
  set (g2 := Z.max (Zdigits2 q2 - K - 53) (-1074) + K).
  assert (0 < g1) by (unfold g1, K; lia). assert (g1 <= g2) by (unfold g1, g2; lia).
  assert (0 < 2 ^ g1) by (apply Z.pow_pos_nonneg; lia).
  assert (0 < 2 ^ g2) by (apply Z.pow_pos_nonneg; lia).
  destruct (Z.eq_dec g1 g2) as [Heq | Hne].
  - rewrite <- Heq. apply Z.mul_le_mono_nonneg_r; [ lia | ].
    apply rne_mono; nia.
  - (* a power of two lies between the two values *)
    assert (g2 = Zdigits2 q2 - 53) as Hg2 by (unfold g1, g2, K in *; lia).
    assert (Zdigits2 q1 < Zdigits2 q2) as Hlt by (unfold g1, g2, K in *; lia).
    assert (0 < q2) as Hq2pos.
    { destruct (Z.eq_dec q2 0) as [E | ]; [ rewrite E in Hlt; cbn in Hlt | ]; lia. }
    pose proof (Zdigits2_bounds q2 Hq2pos) as [HB _].
    assert (q1 < 2 ^ (Zdigits2 q2 - 1)) as Hq1B.
    { apply Z.lt_le_trans with (2 ^ Zdigits2 q1).
      - apply Zdigits2_lt_pow; lia.
      - apply Z.pow_le_mono_r; lia. }
    set (B := 2 ^ (Zdigits2 q2 - 1)) in *.
    assert (B = 2 ^ (g2 + 52 - g1) * 2 ^ g1) as HB1.
    { unfold B. rewrite <- Z.pow_add_r by lia. f_equal. lia. }
    assert (B = 2 ^ 52 * 2 ^ g2) as HB2.
    { unfold B. rewrite <- Z.pow_add_r by lia. f_equal. lia. }
    assert (A1 < B * D1) as HA1 by nia.
    assert (B * D2 <= A2) as HA2 by nia.
    apply Z.le_trans with B.
    + rewrite HB1 at 1. apply Z.mul_le_mono_nonneg_r; [ lia | ].
      apply rne_le_int; [ nia | ]. rewrite HB1 in HA1. nia.
    + rewrite HB2 at 1. apply Z.mul_le_mono_nonneg_r; [ lia | ].
      apply rne_ge_int; [ nia | ]. rewrite HB2 in HA2. nia.
Qed.

Lemma round_fix_scale A D c :
  0 < D -> 0 < c -> round_fix (A * c) (D * c) = round_fix A D.
Proof.
  intros HD Hc. unfold round_fix, target.
  rewrite Z.div_mul_cancel_r by lia.
  set (g := fexp prec emax (Zdigits2 (A / D) - K) + K).
  f_equal. replace (D * c * 2 ^ g) with (D * 2 ^ g * c) by lia.
  apply rne_scale; [ | exact Hc ].
  apply Z.mul_pos_pos; [ exact HD | ].
  apply Z.pow_pos_nonneg; [ lia | ]. unfold g. rewrite fexp_eq. unfold K. lia.
Qed.

Lemma round_fix_nonneg A D : 0 <= A -> 0 < D -> 0 <= round_fix A D.
Proof.
  intros HA HD. unfold round_fix.
  set (g := target A D + K).
  assert (0 < g) by (unfold g, target; rewrite fexp_eq; unfold K; lia).
  assert (0 < 2 ^ g) by (apply Z.pow_pos_nonneg; lia).
  pose proof (rne_bounds A (D * 2 ^ g) ltac:(nia)).
  assert (0 <= A / (D * 2 ^ g)) by (apply Z.div_pos; nia). nia.
Qed.

(** The least positive binary64, 2^-1074, is kept by the rounding. *)
Lemma round_fix_least : round_fix (2 ^ (K - 1074)) 1 = 2 ^ (K - 1074).
Proof. vm_compute. reflexivity. Qed.

Lemma round_fix_pos A D :
  0 < D -> 2 ^ (K - 1074) * D <= A -> 0 < round_fix A D.
Proof.
  intros HD H.
  assert (0 < 2 ^ (K - 1074)) by (apply Z.pow_pos_nonneg; unfold K; lia).
  pose proof (round_fix_mono (2 ^ (K - 1074)) 1 A D ltac:(lia) ltac:(lia) HD ltac:(lia)) as Hm.
  rewrite round_fix_least in Hm. lia.
Qed.

Lemma Zdigits2_scale N D j :
  0 < D -> 1 <= N / D -> 0 <= j -> Zdigits2 (N * 2 ^ j / D) = Zdigits2 (N / D) + j.
Proof.
  intros HD Hq Hj.
  pose proof (Zdigits2_bounds (N / D) ltac:(lia)) as [Hlo Hhi].
  pose proof (Z.div_mod N D ltac:(lia)) as E. pose proof (Z.mod_pos_bound N D HD) as HR.
  pose proof (Zdigits2_nonneg (N / D)) as Hd.
  assert (0 < Zdigits2 (N / D)) as Hd1.
  { destruct (N / D) eqn:Eq; cbn; lia. }
  set (q := N / D) in *. set (d := Zdigits2 q) in *.
  assert (0 < 2 ^ j) by (apply Z.pow_pos_nonneg; lia).
  assert (D * 2 ^ (d - 1) <= N) as Hlo' by nia.
  assert (N < D * 2 ^ d) as Hhi' by nia.
  apply Zdigits2_unique; [ lia | ]. split.
  - apply Z.div_le_lower_bound; [ exact HD | ].
    replace (d + j - 1) with (d - 1 + j) by lia. rewrite Z.pow_add_r by lia.
    rewrite Z.mul_assoc. apply Z.mul_le_mono_nonneg_r; lia.
  - apply Z.div_lt_upper_bound; [ exact HD | ].
    rewrite Z.pow_add_r by lia. rewrite Z.mul_assoc. apply Z.mul_lt_mono_pos_r; lia.
Qed.

Lemma canonical_mantissa_digits m e :
  canonical_mantissa prec emax m e = true ->
  Zdigits2 (Zpos m) <= 53 /\ -1074 <= e /\ (-1074 < e -> Zdigits2 (Zpos m) = 53).
Proof. rewrite canonical_mantissa_eq. intros H. apply Z.eqb_eq in H. lia. Qed.

Lemma bounded_digits m e :
  bounded prec emax m e = true ->
  0 < Zdigits2 (Zpos m) <= 53 /\ -1074 <= e <= 971 /\ (-1074 < e -> Zdigits2 (Zpos m) = 53).
Proof.
  unfold bounded. intros H. apply andb_prop in H as [Hcan He]. apply Z.leb_le in He.
  change (emax - prec) with 971 in He.
  apply canonical_mantissa_digits in Hcan as (Hd & Hmin & Hnorm).
  pose proof (Zdigits2_pos (Zpos m) ltac:(lia)). auto with zarith.
Qed.

Lemma bounded_value m e :
  bounded prec emax m e = true ->
  -1074 <= e <= 971 /\ 0 < Zpos m * 2 ^ (e + K) < 2 ^ (1024 + K) /\
  (-1074 < e -> 2 ^ (52 + e + K) <= Zpos m * 2 ^ (e + K)) /\
  Zpos m * 2 ^ (e + K) < 2 ^ (53 + e + K).
Proof.
  unfold bounded. intros H. apply andb_prop in H as [Hcan He]. apply Z.leb_le in He.
  change (emax - prec) with 971 in He.
  apply canonical_mantissa_digits in Hcan as (Hd & Hmin & Hnorm).
  assert (0 < 2 ^ (e + K)) as Hp by (apply Z.pow_pos_nonneg; unfold K; lia).
  assert (Zpos m < 2 ^ 53) as Hm by (apply Zdigits2_lt_pow; lia).
  assert (Zpos m * 2 ^ (e + K) < 2 ^ (53 + e + K)) as Hup.
  { replace (53 + e + K) with (53 + (e + K)) by lia.
    rewrite (Z.pow_add_r 2 53 (e + K)) by (unfold K; lia).
    apply Z.mul_lt_mono_pos_r; assumption. }
  repeat split; try lia.
  - eapply Z.lt_le_trans; [ exact Hup | ]. apply Z.pow_le_mono_r; unfold K; lia.
  - intros Hn. pose proof (Zdigits2_bounds (Zpos m) ltac:(lia)) as [Hlo _].
    rewrite Hnorm in Hlo by exact Hn. change (53 - 1) with 52 in Hlo.
    replace (52 + e + K) with (52 + (e + K)) by lia.
    rewrite (Z.pow_add_r 2 52 (e + K)) by (unfold K; lia).
    apply Z.mul_le_mono_nonneg_r; lia.
Qed.

Lemma binary_round_aux_fix sx mx ex lx N D :
  0 <= N -> 0 < D -> locates (shr_record_of_loc mx lx) N D ->
  ex <= fexp prec emax (Zdigits2 mx + ex) -> - K <= ex ->
  let V := round_fix (N * 2 ^ (ex + K)) D in
  let out := binary_round_aux prec emax sx mx ex lx in
  (out = S754_zero sx /\ V = 0) \/
  (exists m e, out = S754_finite sx m e /\ bounded prec emax m e = true /\
               Zpos m * 2 ^ (e + K) = V /\ 0 < V < 2 ^ (1024 + K)) \/
  (out = S754_infinity sx /\ 2 ^ (1024 + K) <= V).
Proof.
  intros HN HD Hloc Hex HK V out.
  assert (mx = N / D) as Hmx by (destruct Hloc as (Hm & _); now rewrite shr_m_of_loc in Hm).
  pose proof (Z.div_pos N D HN HD) as Hmx0. rewrite <- Hmx in Hmx0.
  pose proof (binary_round_aux_correct sx mx ex lx N D HN HD Hloc Hex) as Hc.
  cbv zeta in Hc. fold out in Hc.
  set (t := fexp prec emax (Zdigits2 mx + ex)) in *.
  assert (-1074 <= t) as Htmin by (unfold t; rewrite fexp_eq; lia).
  assert (0 < 2 ^ (ex + K)) as Hc0 by (apply Z.pow_pos_nonneg; lia).
  assert (target (N * 2 ^ (ex + K)) D = t) as Htarget.
  { unfold target, t. rewrite !fexp_eq. destruct (Z.eq_dec mx 0) as [Hz | Hnz].
    - assert (Zdigits2 mx = 0) as Hdz by (rewrite Hz; reflexivity).
      unfold t in Hex. rewrite fexp_eq in Hex. rewrite Hz in Hmx.
      assert (N * 2 ^ (ex + K) / D < 2 ^ (ex + K)) as Hlt.
      { apply Z.div_lt_upper_bound; [ exact HD | ].
        pose proof (Z.div_mod N D ltac:(lia)). pose proof (Z.mod_pos_bound N D HD). nia. }
      assert (0 <= N * 2 ^ (ex + K) / D) by (apply Z.div_pos; nia).
      apply Zdigits2_lt_pow in Hlt; lia.
    - rewrite Zdigits2_scale by lia. rewrite <- Hmx. lia. }
  assert (V = rne N (D * 2 ^ (t - ex)) * 2 ^ (t + K)) as HV.
  { unfold V, round_fix. rewrite Htarget. f_equal.
    replace (D * 2 ^ (t + K)) with (D * 2 ^ (t - ex) * 2 ^ (ex + K)).
    - apply rne_scale; [ | exact Hc0 ].
      apply Z.mul_pos_pos; [ exact HD | apply Z.pow_pos_nonneg; lia ].
    - rewrite <- Z.mul_assoc, <- Z.pow_add_r by lia. do 2 f_equal. lia. }
  assert (0 < 2 ^ (t + K)) as Hp by (apply Z.pow_pos_nonneg; unfold K; lia).
  clearbody V out.
  destruct Hc as [[HR0 Hout] | (m & e & HR & Hte & Hme & Hcan & Hout)].
  - left. split; [ exact Hout | ]. rewrite HV, HR0. reflexivity.
  - right. pose proof (canonical_mantissa_digits m e Hcan) as (Hd53 & Hemin & Hnorm).
    assert (Zpos m * 2 ^ (e + K) = V) as HmV.
    { rewrite HV, <- Hme, <- Z.mul_assoc, <- Z.pow_add_r by lia. do 2 f_equal. lia. }
    assert (0 < 2 ^ (e + K)) as Hpe by (apply Z.pow_pos_nonneg; unfold K; lia).
    destruct (Z.leb_spec e 971) as [He | He].
    + left. exists m, e. repeat split; try assumption.
      * unfold bounded. rewrite Hcan. apply Z.leb_le. exact He.
      * nia.
      * rewrite <- HmV.
        assert (Zpos m < 2 ^ 53) by (apply Zdigits2_lt_pow; lia).
        apply Z.lt_le_trans with (2 ^ 53 * 2 ^ (e + K)); [ nia | ].
        rewrite <- Z.pow_add_r by (unfold K; lia). apply Z.pow_le_mono_r; unfold K; lia.
    + right. split; [ exact Hout | ]. rewrite <- HmV.
      pose proof (Zdigits2_bounds (Zpos m) ltac:(lia)) as [Hlo _].
      rewrite Hnorm in Hlo by lia. change (53 - 1) with 52 in Hlo.
      apply Z.le_trans with (2 ^ 52 * 2 ^ (e + K)); [ | nia ].
      rewrite <- Z.pow_add_r by (unfold K; lia). apply Z.pow_le_mono_r; unfold K; lia.
Qed.

Lemma INF_pos : 0 < INF.
Proof. apply Z.pow_pos_nonneg; unfold K; lia. Qed.

(** [binary_round_aux] through [fixval]. *)
Lemma binary_round_aux_fixval sx mx ex lx N D :
  0 <= N -> 0 < D -> locates (shr_record_of_loc mx lx) N D ->
  ex <= fexp prec emax (Zdigits2 mx + ex) -> - K <= ex ->
  let out := binary_round_aux prec emax sx mx ex lx in
  valid_binary out = true /\ out <> S754_nan /\
  fixval out = cond_Zopp sx (Z.min (round_fix (N * 2 ^ (ex + K)) D) INF).
Proof.
  intros HN HD Hloc Hex HK out.
  pose proof (binary_round_aux_fix sx mx ex lx N D HN HD Hloc Hex HK) as H.
  cbv zeta in H. fold out in H. clearbody out.
  assert (0 < INF) by (apply Z.pow_pos_nonneg; unfold K; lia).
  fold INF in H.
  destruct H as [[-> HV] | [(m & e & -> & Hb & Hm & HV) | [-> HV]]].
  - rewrite HV. repeat split; [ discriminate | ].
    rewrite Z.min_l by lia. now destruct sx.
  - repeat split; [ exact Hb | discriminate | ].
    cbn [fixval]. rewrite Hm, Z.min_l by lia. reflexivity.
  - repeat split; [ discriminate | ].
    cbn [fixval]. fold INF. now rewrite Z.min_r by lia.
Qed.

(** ** Comparison and the operations *)

Lemma SFcompare_fixval x y :
  valid_binary x = true -> valid_binary y = true ->
  x <> S754_nan -> y <> S754_nan ->
  SFcompare x y = Some (fixval x ?= fixval y).
Proof.
  intros Vx Vy Nx Ny.
  assert (0 < 2 ^ (1024 + K)) as Hinf by (apply Z.pow_pos_nonneg; unfold K; lia).
  destruct x as [sx | sx | | sx mx ex], y as [sy | sy | | sy my ey];
    try congruence; cbn [valid_binary] in Vx, Vy;
    try (apply bounded_value in Vx as (Hex & Hx & Hxn & Hxu));
    try (apply bounded_value in Vy as (Hey & Hy & Hyn & Hyu));
    cbn [SFcompare fixval]; f_equal; symmetry.
  1-8: try (repeat match goal with b : bool |- _ => destruct b end; cbn [cond_Zopp];
    first [ apply Z.compare_eq_iff; lia | apply Z.compare_lt_iff; lia
          | apply Z.compare_gt_iff; lia ]).
  assert (ex < ey -> Zpos mx * 2 ^ (ex + K) < Zpos my * 2 ^ (ey + K)) as Hlt.
  { intros H. eapply Z.lt_le_trans; [ exact Hxu | ].
    eapply Z.le_trans; [ | apply Hyn; lia ]. apply Z.pow_le_mono_r; unfold K; lia. }
  assert (ey < ex -> Zpos my * 2 ^ (ey + K) < Zpos mx * 2 ^ (ex + K)) as Hgt.
  { intros H. eapply Z.lt_le_trans; [ exact Hyu | ].
    eapply Z.le_trans; [ | apply Hxn; lia ]. apply Z.pow_le_mono_r; unfold K; lia. }
  assert (0 < 2 ^ (ex + K)) as Hp by (apply Z.pow_pos_nonneg; unfold K; lia).
  destruct sx, sy; cbn [cond_Zopp].
  + destruct (Z.compare_spec ex ey) as [-> | H | H].
    * rewrite Pos.compare_cont_spec. cbn [Pos.switch_Eq].
      change (Pos.compare mx my) with (Zpos mx ?= Zpos my).
      destruct (Z.compare_spec (Zpos mx) (Zpos my)) as [E | E | E]; cbn [CompOpp];
        [ apply Z.compare_eq_iff | apply Z.compare_gt_iff | apply Z.compare_lt_iff ]; nia.
    * apply Z.compare_gt_iff. specialize (Hlt H). lia.
    * apply Z.compare_lt_iff. specialize (Hgt H). lia.
  + apply Z.compare_lt_iff. lia.
  + apply Z.compare_gt_iff. lia.
  + destruct (Z.compare_spec ex ey) as [-> | H | H].
    * rewrite Pos.compare_cont_spec. cbn [Pos.switch_Eq].
      change (Pos.compare mx my) with (Zpos mx ?= Zpos my).
      destruct (Z.compare_spec (Zpos mx) (Zpos my)) as [E | E | E];
        [ apply Z.compare_eq_iff | apply Z.compare_lt_iff | apply Z.compare_gt_iff ]; nia.
    * apply Z.compare_lt_iff. apply Hlt, H.
    * apply Z.compare_gt_iff. apply Hgt, H.
Qed.

Lemma SFmul_fixval sx mx ex sy my ey :
  bounded prec emax mx ex = true -> bounded prec emax my ey = true ->
  let out := SFmul prec emax (S754_finite sx mx ex) (S754_finite sy my ey) in
  valid_binary out = true /\ out <> S754_nan /\
  fixval out =
    cond_Zopp (xorb sx sy)
      (Z.min (round_fix (Zpos mx * 2 ^ (ex + K) * (Zpos my * 2 ^ (ey + K))) (2 ^ K)) INF).
Proof.
  intros Bx By out. unfold out. cbn [SFmul].
  apply bounded_digits in Bx as (Dx & Ex & Nx). apply bounded_digits in By as (Dy & Ey & Ny).
  pose proof (Zdigits2_mul_ge (Zpos mx) (Zpos my) ltac:(lia) ltac:(lia)) as Hd.
  assert (0 < 2 ^ K) as HK by (apply Z.pow_pos_nonneg; unfold K; lia).
  pose proof (binary_round_aux_fixval (xorb sx sy) (Zpos (mx * my)) (ex + ey) loc_Exact
                (Zpos (mx * my)) 1 ltac:(lia) ltac:(lia)
                (locates_exact (Zpos (mx * my)) ltac:(lia))) as H.
  rewrite Pos2Z.inj_mul in H.
  specialize (H ltac:(rewrite fexp_eq; lia) ltac:(unfold K; lia)).
  cbv zeta in H. rewrite Pos2Z.inj_mul.
  destruct H as (Hv & Hn & Hf). repeat split; [ exact Hv | exact Hn | ].
  rewrite Hf. do 2 f_equal.
  rewrite <- (round_fix_scale _ 1 (2 ^ K)) by lia. rewrite Z.mul_1_l. f_equal.
  replace (ex + ey + K) with (ex + K + (ey + K) - K) by lia.
  assert (2 ^ (ex + K + (ey + K) - K) * 2 ^ K = 2 ^ (ex + K) * 2 ^ (ey + K)) as E.
  { rewrite <- !Z.pow_add_r by (unfold K; lia). f_equal. lia. }
  rewrite <- Z.mul_assoc, E. ring.
Qed.

Lemma SFdiv_fixval sx mx ex sy my ey :
  bounded prec emax mx ex = true -> bounded prec emax my ey = true ->
  let out := SFdiv prec emax (S754_finite sx mx ex) (S754_finite sy my ey) in
  valid_binary out = true /\ out <> S754_nan /\
  fixval out =
    cond_Zopp (xorb sx sy)
      (Z.min (round_fix (Zpos mx * 2 ^ (ex + K) * 2 ^ K) (Zpos my * 2 ^ (ey + K))) INF).
Proof.
  intros Bx By out. unfold out. cbn [SFdiv]. unfold SFdiv_core_binary.
  apply bounded_digits in Bx as (Dx & Ex & Nx). apply bounded_digits in By as (Dy & Ey & Ny).
  set (d1 := Zdigits2 (Zpos mx)) in *. set (d2 := Zdigits2 (Zpos my)) in *.
  set (e' := Z.min (fexp prec emax (d1 + ex - (d2 + ey))) (ex - ey)).
  remember (ex - ey - e') as s eqn:Hsdef.
  assert (0 <= s) as Hs by (unfold e' in Hsdef; lia).
  set (m' := match s with Z.pos _ => Z.shiftl (Zpos mx) s | 0 => Zpos mx | Z.neg _ => 0 end).
  assert (m' = Zpos mx * 2 ^ s) as Hm'.
  { unfold m'. destruct s as [ | p | p] eqn:Es; try lia.
    apply Z.shiftl_mul_pow2. lia. }
  assert (0 < 2 ^ s) as Hps by (apply Z.pow_pos_nonneg; lia).
  assert (0 < m') as Hm'pos by (rewrite Hm'; nia).
  pose proof (Z.div_eucl_eq m' (Zpos my) ltac:(lia)) as Heucl.
  assert (Z.div_eucl m' (Zpos my) = (m' / Zpos my, m' mod Zpos my)) as Hde.
  { unfold Z.div, Z.modulo. now destruct (Z.div_eucl m' (Zpos my)). }
  rewrite Hde. clear Heucl Hde.
  pose proof (binary_round_aux_fixval (xorb sx sy) (m' / Zpos my) e'
                (new_location (Zpos my) (m' mod Zpos my)) m' (Zpos my)
                ltac:(lia) ltac:(lia) (new_location_locates m' (Zpos my) ltac:(lia) ltac:(lia)))
    as H.
  assert (e' <= fexp prec emax (Zdigits2 (m' / Zpos my) + e')) as Hex.
  { rewrite fexp_eq. pose proof (Zdigits2_nonneg (m' / Zpos my)) as Hq0.
    destruct (Z.le_gt_cases 0 (d1 - 1 + s - d2)) as [Hge | Hlt].
    - assert (2 ^ (d1 - 1 + s - d2) <= m' / Zpos my) as Hq.
      { apply Z.div_le_lower_bound; [ lia | ].
        pose proof (Zdigits2_bounds (Zpos mx) ltac:(lia)) as [Lx _].
        pose proof (Zdigits2_bounds (Zpos my) ltac:(lia)) as [_ Uy].
        fold d1 in Lx. fold d2 in Uy. rewrite Hm'.
        assert (0 < 2 ^ (d1 - 1 + s - d2)) by (apply Z.pow_pos_nonneg; lia).
        apply Z.le_trans with (2 ^ d2 * 2 ^ (d1 - 1 + s - d2)); [ nia | ].
        rewrite <- Z.pow_add_r by lia.
        replace (d2 + (d1 - 1 + s - d2)) with (d1 - 1 + s) by lia.
        rewrite Z.pow_add_r by lia. nia. }
      apply Zdigits2_ge_pow in Hq; [ | lia ].
      unfold e' in *. rewrite fexp_eq in *. lia.
    - unfold e' in *. rewrite fexp_eq in *. lia. }
  specialize (H Hex ltac:(unfold e', K; rewrite fexp_eq; lia)).
  cbv zeta in H. destruct H as (Hv & Hn & Hf).
  repeat split; [ exact Hv | exact Hn | ].
  rewrite Hf. do 2 f_equal.
  assert (0 < 2 ^ (ey + K)) as Hc by (apply Z.pow_pos_nonneg; unfold K; lia).
  rewrite <- (round_fix_scale (m' * 2 ^ (e' + K)) (Zpos my) (2 ^ (ey + K))) by lia.
  f_equal. rewrite Hm'.
  rewrite <- !Z.mul_assoc. f_equal.
  rewrite <- !Z.pow_add_r by (unfold e', K in *; rewrite ?fexp_eq; lia).
  f_equal. lia.
Qed.

Lemma binary_round_fixval sx mx ex :
  - K <= ex ->
  let out := binary_round prec emax sx mx ex in
  valid_binary out = true /\ out <> S754_nan /\
  fixval out = cond_Zopp sx (Z.min (round_fix (Zpos mx * 2 ^ (ex + K)) 1) INF).
Proof.
  intros HK out. unfold out, binary_round.
  pose proof (shl_align_spec mx ex (fexp prec emax (Zpos (digits2_pos mx) + ex))) as [He Hm].
  destruct (shl_align mx ex _) as [mz ez]. cbn [fst snd] in He, Hm.
  change (Zpos (digits2_pos mx)) with (Zdigits2 (Zpos mx)) in He, Hm.
  rewrite <- He in Hm.
  set (t := fexp prec emax (Zdigits2 (Zpos mx) + ex)) in *.
  assert (-1074 <= t) as Ht by (unfold t; rewrite fexp_eq; lia).
  assert (0 <= ex - ez) as Hd by lia.
  assert (0 < 2 ^ (ex - ez)) as Hp by (apply Z.pow_pos_nonneg; lia).
  assert (Zdigits2 (Zpos mz) = Zdigits2 (Zpos mx) + (ex - ez)) as Hdig.
  { rewrite Hm. pose proof (Zdigits2_scale (Zpos mx) 1 (ex - ez) ltac:(lia)) as Hs.
    rewrite !Z.div_1_r in Hs. apply Hs; lia. }
  pose proof (binary_round_aux_fixval sx (Zpos mz) ez loc_Exact (Zpos mz) 1
                ltac:(lia) ltac:(lia) (locates_exact (Zpos mz) ltac:(lia))) as H.
  specialize (H ltac:(rewrite Hdig; replace (Zdigits2 (Zpos mx) + (ex - ez) + ez)
                        with (Zdigits2 (Zpos mx) + ex) by lia; fold t; lia)
                ltac:(unfold K in *; lia)).
  cbv zeta in H. destruct H as (Hv & Hn & Hf).
  repeat split; [ exact Hv | exact Hn | ].
  rewrite Hf, Hm. do 3 f_equal.
  rewrite <- Z.mul_assoc, <- Z.pow_add_r by (unfold K in *; lia). do 2 f_equal. lia.
Qed.

Lemma binary_normalize_fixval z :
  0 <= z ->
  let out := binary_normalize prec emax z 0 false in
  valid_binary out = true /\ out <> S754_nan /\
  fixval out = Z.min (round_fix (z * 2 ^ K) 1) INF.
Proof.
  intros Hz out. unfold out. destruct z as [ | p | p]; try lia; cbn [binary_normalize].
  - repeat split; discriminate.
  - pose proof (binary_round_fixval false p 0 ltac:(unfold K; lia)) as H.
    cbv zeta in H. exact H.
Qed.

Lemma fixval_pos_cases x :
  valid_binary x = true -> 0 < fixval x ->
  (exists m e, x = S754_finite false m e /\ bounded prec emax m e = true) \/
  x = S754_infinity false.
Proof.
  pose proof INF_pos. unfold INF in *.
  destruct x as [s | s | | s m e]; cbn [valid_binary fixval]; intros V Hp; try lia.
  - right. destruct s; cbn [cond_Zopp] in Hp; [ lia | reflexivity ].
  - left. apply bounded_value in V as V'. destruct s; cbn [cond_Zopp] in Hp; [ lia | eauto ].
Qed.

Lemma fixval_le_INF x : valid_binary x = true -> fixval x <= INF.
Proof.
  pose proof INF_pos. unfold INF in *.
  destruct x as [s | s | | s m e]; cbn [valid_binary fixval]; intros V; try lia.
  - destruct s; cbn [cond_Zopp]; lia.
  - apply bounded_value in V. destruct s; cbn [cond_Zopp]; lia.
Qed.

Lemma fixval_finite_lt_INF m e :
  bounded prec emax m e = true -> 0 < Zpos m * 2 ^ (e + K) < INF.
Proof. intros V. apply bounded_value in V. unfold INF. lia. Qed.

Lemma fixval_finite_ge_least m e :
  bounded prec emax m e = true -> 2 ^ (K - 1074) <= Zpos m * 2 ^ (e + K).
Proof.
  intros B. apply bounded_digits in B as (_ & He & _).
  assert (2 ^ (K - 1074) <= 2 ^ (e + K)) by (apply Z.pow_le_mono_r; unfold K; lia).
  assert (0 < 2 ^ (e + K)) by (apply Z.pow_pos_nonneg; unfold K; lia). nia.
Qed.

(** Multiplication keeps the order of positive operands. *)
Lemma SFmul_mono_r a c1 c2 :
  valid_binary a = true -> valid_binary c1 = true -> valid_binary c2 = true ->
  0 < fixval a -> 0 < fixval c1 -> fixval c1 <= fixval c2 ->
  SFmul prec emax a c1 <> S754_nan /\ SFmul prec emax a c2 <> S754_nan /\
  fixval (SFmul prec emax a c1) <= fixval (SFmul prec emax a c2).
Proof.
  intros Va V1 V2 Pa P1 H12. pose proof INF_pos as HI.
  assert (0 < 2 ^ K) as HK by (apply Z.pow_pos_nonneg; unfold K; lia).
  destruct (fixval_pos_cases a Va Pa) as [(ma & ea & -> & Ba) | ->];
  destruct (fixval_pos_cases c1 V1 P1) as [(m1 & e1 & -> & B1) | ->];
  destruct (fixval_pos_cases c2 V2 ltac:(lia)) as [(m2 & e2 & -> & B2) | ->].
  - pose proof (SFmul_fixval false ma ea false m1 e1 Ba B1) as (_ & N1 & F1).
    pose proof (SFmul_fixval false ma ea false m2 e2 Ba B2) as (_ & N2 & F2).
    repeat split; [ exact N1 | exact N2 | ].
    rewrite F1, F2. cbn [xorb cond_Zopp]. cbn [fixval cond_Zopp] in H12.
    pose proof (fixval_finite_lt_INF ma ea Ba).
    pose proof (fixval_finite_lt_INF m1 e1 B1).
    apply Z.min_le_compat_r. apply round_fix_mono; nia.
  - pose proof (SFmul_fixval false ma ea false m1 e1 Ba B1) as (V & N1 & F1).
    repeat split; [ exact N1 | discriminate | ].
    cbn [SFmul xorb]. apply fixval_le_INF. exact V.
  - pose proof (fixval_finite_lt_INF m2 e2 B2).
    cbn [fixval cond_Zopp] in H12. fold INF in H12. lia.
  - cbn [SFmul xorb]. repeat split; try discriminate; try lia.
  - cbn [SFmul xorb]. repeat split; try discriminate; try lia.
  - cbn [SFmul xorb]. repeat split; try discriminate; try lia.
  - cbn [SFmul xorb]. repeat split; try discriminate; try lia.
  - cbn [SFmul xorb]. repeat split; try discriminate; try lia.
Qed.

Lemma SFmul_mono_l a1 a2 c :
  valid_binary a1 = true -> valid_binary a2 = true -> valid_binary c = true ->
  0 < fixval c -> 0 < fixval a1 -> fixval a1 <= fixval a2 ->
  SFmul prec emax a1 c <> S754_nan /\ SFmul prec emax a2 c <> S754_nan /\
  fixval (SFmul prec emax a1 c) <= fixval (SFmul prec emax a2 c).
Proof.
  intros V1 V2 Vc Pc P1 H12. pose proof INF_pos as HI.
  assert (0 < 2 ^ K) as HK by (apply Z.pow_pos_nonneg; unfold K; lia).
  destruct (fixval_pos_cases c Vc Pc) as [(mc & ec & -> & Bc) | ->];
  destruct (fixval_pos_cases a1 V1 P1) as [(m1 & e1 & -> & B1) | ->];
  destruct (fixval_pos_cases a2 V2 ltac:(lia)) as [(m2 & e2 & -> & B2) | ->].
  - pose proof (SFmul_fixval false m1 e1 false mc ec B1 Bc) as (_ & N1 & F1).
    pose proof (SFmul_fixval false m2 e2 false mc ec B2 Bc) as (_ & N2 & F2).
    repeat split; [ exact N1 | exact N2 | ].
    rewrite F1, F2. cbn [xorb cond_Zopp]. cbn [fixval cond_Zopp] in H12.
    pose proof (fixval_finite_lt_INF mc ec Bc).
    pose proof (fixval_finite_lt_INF m1 e1 B1).
    apply Z.min_le_compat_r. apply round_fix_mono; nia.
  - pose proof (SFmul_fixval false m1 e1 false mc ec B1 Bc) as (V & N1 & F1).
    repeat split; [ exact N1 | discriminate | ].
    cbn [SFmul xorb]. apply fixval_le_INF. exact V.
  - pose proof (fixval_finite_lt_INF m2 e2 B2).
    cbn [fixval cond_Zopp] in H12. fold INF in H12. lia.
  - cbn [SFmul xorb]. repeat split; try discriminate; try lia.
  - cbn [SFmul xorb]. repeat split; try discriminate; try lia.
  - cbn [SFmul xorb]. repeat split; try discriminate; try lia.
  - cbn [SFmul xorb]. repeat split; try discriminate; try lia.
  - cbn [SFmul xorb]. repeat split; try discriminate; try lia.
Qed.

Lemma SFmul_pos_inv a c :
  valid_binary a = true -> valid_binary c = true ->
  0 <= fixval c -> 0 < fixval (SFmul prec emax a c) ->
  0 < fixval a /\ 0 < fixval c.
Proof.
  intros Va Vc Pc H. pose proof INF_pos as HI. pose proof INF_pos as HI'. unfold INF in HI'.
  destruct c as [sc | sc | | sc mc ec]; cbn [valid_binary fixval] in Vc, Pc.
  - destruct a; cbn in H; lia.
  - destruct sc; cbn [cond_Zopp] in Pc; [ lia | ].
    destruct a as [sa | sa | | sa ma ea]; cbn [SFmul fixval] in H |- *; try lia.
    + destruct sa; cbn [xorb cond_Zopp] in *; lia.
    + apply bounded_value in Va. destruct sa; cbn [xorb cond_Zopp] in *; lia.
  - destruct a; cbn in H; lia.
  - pose proof (bounded_value _ _ Vc) as (_ & Hc & _).
    destruct sc; cbn [cond_Zopp] in Pc; [ lia | ].
    destruct a as [sa | sa | | sa ma ea]; cbn [valid_binary] in Va.
    + cbn in H. lia.
    + cbn [SFmul fixval] in H |- *. destruct sa; cbn [xorb cond_Zopp] in *; lia.
    + cbn in H. lia.
    + pose proof (SFmul_fixval sa ma ea false mc ec Va Vc) as (_ & _ & F).
      rewrite F in H. pose proof (bounded_value _ _ Va) as (_ & Ha & _).
      assert (0 < 2 ^ K) by (apply Z.pow_pos_nonneg; unfold K; lia).
      pose proof (round_fix_nonneg (Zpos ma * 2 ^ (ea + K) * (Zpos mc * 2 ^ (ec + K))) (2 ^ K)
                    ltac:(nia) ltac:(lia)).
      cbn [fixval]. destruct sa; cbn [xorb cond_Zopp] in *; lia.
Qed.

(** A positive number times a number that is at least 1 is positive. *)
Lemma SFmul_pos a c :
  valid_binary a = true -> valid_binary c = true ->
  0 < fixval a -> 2 ^ K <= fixval c ->
  SFmul prec emax a c <> S754_nan /\ 0 < fixval (SFmul prec emax a c).
Proof.
  intros Va Vc Pa Pc. pose proof INF_pos as HI.
  assert (0 < 2 ^ K) as HK by (apply Z.pow_pos_nonneg; unfold K; lia).
  destruct (fixval_pos_cases a Va Pa) as [(ma & ea & -> & Ba) | ->];
  destruct (fixval_pos_cases c Vc ltac:(lia)) as [(mc & ec & -> & Bc) | ->];
    try (cbn [SFmul xorb fixval cond_Zopp]; fold INF; split; [ discriminate | lia ]).
  pose proof (SFmul_fixval false ma ea false mc ec Ba Bc) as (_ & N & F).
  split; [ exact N | ]. rewrite F. cbn [xorb cond_Zopp]. cbn [fixval cond_Zopp] in Pc.
  pose proof (fixval_finite_ge_least ma ea Ba).
  apply Z.min_glb_lt; [ | exact HI ].
  apply round_fix_pos; [ exact HK | ].
  apply Z.mul_le_mono_nonneg; lia.
Qed.

(** Division by a positive finite number. *)
Lemma SFdiv_mono_l a1 a2 my ey :
  valid_binary a1 = true -> valid_binary a2 = true -> bounded prec emax my ey = true ->
  0 < fixval a1 -> fixval a1 <= fixval a2 ->
  SFdiv prec emax a1 (S754_finite false my ey) <> S754_nan /\
  SFdiv prec emax a2 (S754_finite false my ey) <> S754_nan /\
  valid_binary (SFdiv prec emax a1 (S754_finite false my ey)) = true /\
  valid_binary (SFdiv prec emax a2 (S754_finite false my ey)) = true /\
  fixval (SFdiv prec emax a1 (S754_finite false my ey))
    <= fixval (SFdiv prec emax a2 (S754_finite false my ey)).
Proof.
  intros V1 V2 By P1 H12. pose proof INF_pos as HI.
  assert (0 < 2 ^ K) as HK by (apply Z.pow_pos_nonneg; unfold K; lia).
  pose proof (fixval_finite_lt_INF my ey By) as Hy.
  destruct (fixval_pos_cases a1 V1 P1) as [(m1 & e1 & -> & B1) | ->];
  destruct (fixval_pos_cases a2 V2 ltac:(lia)) as [(m2 & e2 & -> & B2) | ->].
  - pose proof (SFdiv_fixval false m1 e1 false my ey B1 By) as (W1 & N1 & F1).
    pose proof (SFdiv_fixval false m2 e2 false my ey B2 By) as (W2 & N2 & F2).
    repeat split; try assumption.
    rewrite F1, F2. cbn [xorb cond_Zopp]. cbn [fixval cond_Zopp] in H12.
    pose proof (fixval_finite_lt_INF m1 e1 B1).
    apply Z.min_le_compat_r. apply round_fix_mono; nia.
  - pose proof (SFdiv_fixval false m1 e1 false my ey B1 By) as (W1 & N1 & F1).
    cbn [SFdiv xorb] in *. repeat split; try assumption; try discriminate.
    apply (fixval_le_INF _ W1).
  - pose proof (fixval_finite_lt_INF m2 e2 B2).
    cbn [fixval cond_Zopp] in H12. fold INF in H12. lia.
  - cbn [SFdiv xorb]. repeat split; try discriminate; try lia.
Qed.

Lemma SFdiv_sign a my ey :
  valid_binary a = true -> a <> S754_nan -> bounded prec emax my ey = true ->
  SFdiv prec emax a (S754_finite false my ey) <> S754_nan /\
  valid_binary (SFdiv prec emax a (S754_finite false my ey)) = true /\
  (fixval a <= 0 -> fixval (SFdiv prec emax a (S754_finite false my ey)) <= 0) /\
  (0 < fixval (SFdiv prec emax a (S754_finite false my ey)) -> 0 < fixval a).
Proof.
  intros Va Na By. pose proof INF_pos as HI. pose proof INF_pos as HI'. unfold INF in HI'.
  assert (0 < 2 ^ K) as HK by (apply Z.pow_pos_nonneg; unfold K; lia).
  pose proof (bounded_value _ _ By) as (_ & Hy & _).
  destruct a as [sa | sa | | sa ma ea]; try congruence; cbn [valid_binary] in Va.
  - cbn. repeat split; try discriminate; lia.
  - cbn [SFdiv fixval xorb]. rewrite xorb_false_r.
    repeat split; try discriminate; destruct sa; cbn [cond_Zopp]; lia.
  - pose proof (SFdiv_fixval sa ma ea false my ey Va By) as (W & N & F).
    pose proof (bounded_value _ _ Va) as (_ & Ha & _).
    pose proof (round_fix_nonneg (Zpos ma * 2 ^ (ea + K) * 2 ^ K) (Zpos my * 2 ^ (ey + K))
                  ltac:(nia) ltac:(lia)).
    repeat split; try assumption; rewrite F, xorb_false_r; cbn [fixval];
      destruct sa; cbn [cond_Zopp]; lia.
Qed.

(** Subtraction: the sign of the difference. *)
Lemma SFsub_negative x y :
  valid_binary x = true -> valid_binary y = true ->
  SFltb (SFsub prec emax x y) (S754_zero false) = SFltb x y.
Proof.
  intros Vx Vy.
  destruct x as [sx | sx | | sx mx ex], y as [sy | sy | | sy my ey];
    try (repeat match goal with b : bool |- _ => destruct b end; reflexivity).
  cbn [SFsub]. cbn [valid_binary] in Vx, Vy.
  pose proof (bounded_digits _ _ Vx) as (_ & Ex & _).
  pose proof (bounded_digits _ _ Vy) as (_ & Ey & _).
  pose proof (shl_align_spec mx ex (Z.min ex ey)) as [_ Hx].
  pose proof (shl_align_spec my ey (Z.min ex ey)) as [_ Hy].
  replace (Z.min ex (Z.min ex ey)) with (Z.min ex ey) in Hx by lia.
  replace (Z.min ey (Z.min ex ey)) with (Z.min ex ey) in Hy by lia.
  set (ez := Z.min ex ey) in *.
  set (Zx := cond_Zopp sx (Zpos (fst (shl_align mx ex ez)))).
  set (Zy := cond_Zopp sy (Zpos (fst (shl_align my ey ez)))).
  assert (0 < 2 ^ (ez + K)) as Hp by (apply Z.pow_pos_nonneg; unfold ez, K; lia).
  assert (fixval (S754_finite sx mx ex) = Zx * 2 ^ (ez + K)) as Fx.
  { cbn [fixval]. unfold Zx. rewrite Hx.
    replace (ex + K) with (ex - ez + (ez + K)) by lia.
    rewrite Z.pow_add_r by (unfold ez, K; lia). destruct sx; cbn [cond_Zopp]; ring. }
  assert (fixval (S754_finite sy my ey) = Zy * 2 ^ (ez + K)) as Fy.
  { cbn [fixval]. unfold Zy. rewrite Hy.
    replace (ey + K) with (ey - ez + (ez + K)) by lia.
    rewrite Z.pow_add_r by (unfold ez, K; lia). destruct sy; cbn [cond_Zopp]; ring. }
  unfold SFltb at 2.
  rewrite (SFcompare_fixval (S754_finite sx mx ex) (S754_finite sy my ey))
    by (assumption || discriminate).
  rewrite Fx, Fy. clearbody Zx Zy.
  destruct (Zx - Zy) as [ | p | p] eqn:E; cbn [binary_normalize].
  - assert (Zx = Zy) as -> by lia. rewrite Z.compare_refl. reflexivity.
  - assert (Zy * 2 ^ (ez + K) < Zx * 2 ^ (ez + K)) as Hgt by nia.
    apply Z.compare_gt_iff in Hgt. rewrite Hgt.
    pose proof (binary_round_fixval false p ez ltac:(unfold ez, K; lia)) as (V & N & F).
    cbv zeta in V, N, F. unfold SFltb.
    rewrite (SFcompare_fixval _ (S754_zero false))
      by first [ assumption | reflexivity | discriminate ].
    rewrite F. cbn [cond_Zopp fixval].
    pose proof (round_fix_nonneg (Zpos p * 2 ^ (ez + K)) 1 ltac:(nia) ltac:(lia)).
    pose proof INF_pos.
    destruct (Z.compare_spec (Z.min (round_fix (Zpos p * 2 ^ (ez + K)) 1) INF) 0);
      try reflexivity; lia.
  - assert (Zx * 2 ^ (ez + K) < Zy * 2 ^ (ez + K)) as Hlt by nia.
    apply Z.compare_lt_iff in Hlt. rewrite Hlt.
    pose proof (binary_round_fixval true p ez ltac:(unfold ez, K; lia)) as (V & N & F).
    cbv zeta in V, N, F. unfold SFltb.
    rewrite (SFcompare_fixval _ (S754_zero false))
      by first [ assumption | reflexivity | discriminate ].
    rewrite F. cbn [cond_Zopp fixval].
    assert (0 < round_fix (Zpos p * 2 ^ (ez + K)) 1) as Hpos.
    { apply round_fix_pos; [ lia | ].
      assert (2 ^ (K - 1074) <= 2 ^ (ez + K)) by (apply Z.pow_le_mono_r; unfold ez, K; lia).
      nia. }
    pose proof INF_pos.
    destruct (Z.compare_spec (- Z.min (round_fix (Zpos p * 2 ^ (ez + K)) 1) INF) 0);
      try reflexivity; lia.
Qed.

(** ** Primitive floats through their specification *)

Lemma compare_fv x y :
  not_nan x -> not_nan y -> SFcompare (Prim2SF x) (Prim2SF y) = Some (fv x ?= fv y).
Proof. intros Hx Hy. apply SFcompare_fixval; auto using Prim2SF_valid. Qed.

Lemma SFcompare_nan_l y : SFcompare S754_nan y = None.
Proof. reflexivity. Qed.

Lemma SFcompare_nan_r x : SFcompare x S754_nan = None.
Proof. now destruct x. Qed.

Lemma SFcompare_some x y c :
  SFcompare (Prim2SF x) (Prim2SF y) = Some c -> not_nan x /\ not_nan y.
Proof.
  unfold not_nan. intros H. split; intros E; rewrite E in H.
  - discriminate H.
  - rewrite SFcompare_nan_r in H. discriminate H.
Qed.

Lemma ltb_fv x y : (x <? y)%float = true <-> not_nan x /\ not_nan y /\ fv x < fv y.
Proof.
  rewrite ltb_spec. unfold SFltb. split.
  - destruct (SFcompare _ _) as [c | ] eqn:E; [ | discriminate ].
    destruct (SFcompare_some _ _ _ E) as [Hx Hy].
    rewrite (compare_fv x y Hx Hy) in E. injection E as <-.
    destruct (Z.compare_spec (fv x) (fv y)); try discriminate. auto.
  - intros (Hx & Hy & H). rewrite (compare_fv x y Hx Hy).
    apply Z.compare_lt_iff in H. now rewrite H.
Qed.

Lemma leb_fv x y : (x <=? y)%float = true <-> not_nan x /\ not_nan y /\ fv x <= fv y.
Proof.
  rewrite leb_spec. unfold SFleb. split.
  - destruct (SFcompare _ _) as [c | ] eqn:E; [ | discriminate ].
    destruct (SFcompare_some _ _ _ E) as [Hx Hy].
    rewrite (compare_fv x y Hx Hy) in E. injection E as <-.
    destruct (Z.compare_spec (fv x) (fv y)); try discriminate; intros _; repeat split; auto; lia.
  - intros (Hx & Hy & H). rewrite (compare_fv x y Hx Hy).
    destruct (Z.compare_spec (fv x) (fv y)); try reflexivity. lia.
Qed.

Lemma eqb_fv x y : (x =? y)%float = true <-> not_nan x /\ not_nan y /\ fv x = fv y.
Proof.
  rewrite eqb_spec. unfold SFeqb. split.
  - destruct (SFcompare _ _) as [c | ] eqn:E; [ | discriminate ].
    destruct (SFcompare_some _ _ _ E) as [Hx Hy].
    rewrite (compare_fv x y Hx Hy) in E. injection E as <-.
    destruct (Z.compare_spec (fv x) (fv y)); try discriminate; auto.
  - intros (Hx & Hy & H). rewrite (compare_fv x y Hx Hy), H, Z.compare_refl. reflexivity.
Qed.

Lemma is_nan_spec x : is_nan x = true <-> ~ not_nan x.
Proof.
  unfold is_nan. rewrite negb_true_iff. split.
  - intros H Hn. assert ((x =? x)%float = true) as E by (apply eqb_fv; auto). congruence.
  - intros H. destruct (x =? x)%float eqn:E; [ | reflexivity ].
    apply eqb_fv in E as (Hn & _). contradiction.
Qed.

Lemma not_nan_dec x : not_nan x \/ ~ not_nan x.
Proof. unfold not_nan. destruct (Prim2SF x); (left; discriminate) || (right; tauto). Qed.

(** [x < y] fails exactly when [y <= x] or one of the two is not a number. *)
Lemma ltb_false_iff x y :
  (x <? y)%float = false <->
  (y <=? x)%float = true \/ is_nan x = true \/ is_nan y = true.
Proof.
  rewrite !is_nan_spec. split.
  - intros H. destruct (not_nan_dec x) as [Hx | Hx]; [ | auto ].
    destruct (not_nan_dec y) as [Hy | Hy]; [ | auto ].
    left. apply leb_fv. repeat split; auto.
    destruct (Z.le_gt_cases (fv y) (fv x)) as [ | Hlt]; [ assumption | ].
    assert ((x <? y)%float = true) by (apply ltb_fv; auto). congruence.
  - intros H. destruct (x <? y)%float eqn:E; [ | reflexivity ].
    apply ltb_fv in E as (Hx & Hy & Hlt).
    destruct H as [H | [H | H]]; try contradiction.
    apply leb_fv in H as (_ & _ & H). lia.
Qed.

(** [x - y < 0] exactly when [x < y]. *)
Lemma sub_negative_iff x y : (x - y <? 0)%float = (x <? y)%float.
Proof.
  rewrite !ltb_spec, sub_spec. change (Prim2SF 0) with (S754_zero false).
  apply SFsub_negative; apply Prim2SF_valid.
Qed.

Lemma Prim2SF_60 : Prim2SF 60 = S754_finite false 8444249301319680 (-47).
Proof. reflexivity. Qed.

Lemma bounded_60 : bounded prec emax 8444249301319680 (-47) = true.
Proof. reflexivity. Qed.

(** A positive period times 60 is positive. *)
Lemma mul_60_positive p : (0 <? p)%float = true -> (0 <? p * 60)%float = true.
Proof.
  intros H. apply ltb_fv in H as (_ & Hp & H). change (fv 0) with 0 in H.
  pose proof (SFmul_pos (Prim2SF p) (Prim2SF 60) (Prim2SF_valid p) (Prim2SF_valid 60) H)
    as Hm.
  rewrite <- mul_spec in Hm. destruct Hm as [Hn Hpos]; [ vm_compute; discriminate | ].
  apply ltb_fv. repeat split; try assumption. intros E. vm_compute in E. discriminate E.
Qed.

Local Close Scope Z_scope.

Lemma Prim2SF_div x y : Prim2SF (x / y) = SFdiv prec emax (Prim2SF x) (Prim2SF y).
Proof. apply div_spec. Qed.

Lemma Prim2SF_mul x y : Prim2SF (x * y) = SFmul prec emax (Prim2SF x) (Prim2SF y).
Proof. apply mul_spec. Qed.

Lemma Prim2SF_f60 : Prim2SF f60 = S754_finite false 8444249301319680 (-47).
Proof. reflexivity. Qed.

(** A rate that is zero or negative, divided by 60, is not above 1000. *)
Lemma nonpositive_rate_passes r : (r <=? f0)%float = true -> (f1000 <? r / f60)%float = false.
Proof.
  intros H. apply leb_fv in H as (Hr & _ & H). change (fv f0) with 0%Z in H.
  pose proof (SFdiv_sign (Prim2SF r) _ _ (Prim2SF_valid r) Hr bounded_60) as (_ & _ & Hs & _).
  rewrite <- Prim2SF_f60, <- Prim2SF_div in Hs. specialize (Hs H).
  destruct (f1000 <? r / f60)%float eqn:E; [ | reflexivity ].
  apply ltb_fv in E as (_ & _ & E). unfold fv in E.
  assert (0 < fixval (Prim2SF f1000))%Z by (vm_compute; reflexivity). lia.
Qed.

(** ** Integers as floats *)

Lemma float_of_Z_spec z x :
  (0 <= z)%Z -> float_of_Z z = Ok x ->
  not_nan x /\ fv x = Z.min (round_fix (z * 2 ^ K) 1) INF.
Proof.
  intros Hz. unfold float_of_Z.
  destruct (is_infinity _); [ discriminate | ]. intros H. injection H as <-.
  pose proof (binary_normalize_fixval z Hz) as (V & N & F). cbv zeta in V, N, F.
  unfold not_nan, fv. rewrite (Prim2SF_SF2Prim _ V). auto.
Qed.

Lemma float_of_Z_nonneg z x : (0 <= z)%Z -> float_of_Z z = Ok x -> (0 <= fv x)%Z.
Proof.
  intros Hz H. apply float_of_Z_spec in H as (_ & ->); [ | exact Hz ].
  pose proof INF_pos. pose proof (round_fix_nonneg (z * 2 ^ K) 1).
  assert (0 < 2 ^ K)%Z by (apply Z.pow_pos_nonneg; unfold K; lia). nia.
Qed.

Lemma float_of_Z_mono z1 z2 x1 x2 :
  (0 <= z1 <= z2)%Z -> float_of_Z z1 = Ok x1 -> float_of_Z z2 = Ok x2 ->
  (fv x1 <= fv x2)%Z.
Proof.
  intros Hz H1 H2.
  apply float_of_Z_spec in H1 as (_ & ->); [ | lia ].
  apply float_of_Z_spec in H2 as (_ & ->); [ | lia ].
  assert (0 < 2 ^ K)%Z by (apply Z.pow_pos_nonneg; unfold K; lia).
  apply Z.min_le_compat_r. apply round_fix_mono; nia.
Qed.

(** The float of a positive integer is not zero. *)
Lemma float_of_Z_nonzero z x :
  (0 < z)%Z -> float_of_Z z = Ok x -> (x =? f0)%float = false.
Proof.
  intros Hz H. apply float_of_Z_spec in H as (_ & Hx); [ | lia ].
  destruct (x =? f0)%float eqn:E; [ | reflexivity ].
  apply eqb_fv in E as (_ & _ & E). change (fv f0) with 0%Z in E.
  assert (0 < 2 ^ K)%Z by (apply Z.pow_pos_nonneg; unfold K; lia).
  assert (2 ^ (K - 1074) <= 2 ^ K)%Z by (apply Z.pow_le_mono_r; unfold K; lia).
  pose proof (round_fix_pos (z * 2 ^ K) 1 ltac:(lia) ltac:(nia)).
  pose proof INF_pos. lia.
Qed.

(** * Properties *)

(** ** The statement monad *)

Lemma bind_ok {A B} (m : M A) (k : A -> M B) out b :
  bind m k = (out, Ok b) ->
  exists o1 a o2, m = (o1, Ok a) /\ k a = (o2, Ok b) /\ out = o1 ++ o2.
Proof.
  unfold bind. destruct m as [o1 [a | e]]; [ | discriminate ].
  destruct (k a) as [o2 r] eqn:Hk. intros H. injection H as <- ->.
  exists o1, a, o2. auto.
Qed.

Lemma bind_raise {A B} (m : M A) (k : A -> M B) out e :
  bind m k = (out, Raise e) ->
  m = (out, Raise e) \/
  exists o1 a o2, m = (o1, Ok a) /\ k a = (o2, Raise e) /\ out = o1 ++ o2.
Proof.
  unfold bind. destruct m as [o1 [a | e']].
  - destruct (k a) as [o2 r] eqn:Hk. intros H. injection H as <- ->.
    right. exists o1, a, o2. auto.
  - intros H. injection H as <- <-. now left.
Qed.

Lemma lift_ok {A} (r : result A) out a : lift r = (out, Ok a) -> r = Ok a /\ out = [].
Proof. unfold lift. intros H. injection H as <- ->. auto. Qed.

Lemma rbind_ok {A B} (r : result A) (k : A -> result B) b :
  rbind r k = Ok b -> exists a, r = Ok a /\ k a = Ok b.
Proof. destruct r as [a | e]; simpl; [ eauto | discriminate ]. Qed.

(** Inverting [x <- m ;; k] and [x <- lift r ;; k] when the whole returns. *)
Tactic Notation "bind_inv" hyp(H) "as" ident(x) ident(Hx) :=
  apply bind_ok in H as (? & x & ? & Hx & H & ->).

Tactic Notation "lift_inv" hyp(H) "as" ident(x) ident(Hx) :=
  apply bind_ok in H as (? & x & ? & Hx & H & ->);
  apply lift_ok in Hx as [Hx ->]; cbn [app] in *.

Lemma mapM_ok {A B} (f : A -> result B) l bs :
  mapM f l = Ok bs <-> Forall2 (fun a b => f a = Ok b) l bs.
Proof.
  revert bs. induction l as [ | a l IH]; intros bs; simpl.
  - split; intros H; [ injection H as <-; constructor | inversion H; reflexivity ].
  - split.
    + intros H. apply rbind_ok in H as (b & Hb & H).
      apply rbind_ok in H as (bs' & Hbs & H). injection H as <-.
      constructor; [ exact Hb | now apply IH ].
    + intros H. inversion H as [ | a' b l' bs' Hb Hbs ]; subst.
      rewrite Hb. simpl. apply IH in Hbs. rewrite Hbs. reflexivity.
Qed.

(** The first request that raises decides what the whole [mapM] raises. *)
Lemma mapM_raise {A B} (f : A -> result B) l e :
  mapM f l = Raise e <->
  exists before a after bs,
    l = before ++ a :: after /\
    Forall2 (fun a b => f a = Ok b) before bs /\ f a = Raise e.
Proof.
  split.
  - revert e. induction l as [ | a l IH]; intros e H; simpl in H; [ discriminate | ].
    destruct (f a) as [b | e'] eqn:Hfa; simpl in H.
    + destruct (mapM f l) as [bs | e''] eqn:Hl; simpl in H; [ discriminate | ].
      injection H as ->.
      destruct (IH _ eq_refl) as (before & a' & after & bs & -> & Hb & Ha').
      exists (a :: before), a', after, (b :: bs).
      repeat split; [ now constructor | exact Ha' ].
    + injection H as ->. exists [], a, l, [].
      repeat split; [ constructor | exact Hfa ].
  - intros (before & a & after & bs & -> & Hb & Ha).
    induction Hb as [ | x y before bs Hxy Hb IH]; simpl.
    + now rewrite Ha.
    + rewrite Hxy. simpl. now rewrite IH.
Qed.

Lemma Forall2_length_eq {A B} (R : A -> B -> Prop) l l' :
  Forall2 R l l' -> length l = length l'.
Proof. induction 1; simpl; congruence. Qed.

Lemma Forall2_nth_error {A B} (R : A -> B -> Prop) l l' :
  Forall2 R l l' ->
  forall i a, nth_error l i = Some a -> exists b, nth_error l' i = Some b /\ R a b.
Proof.
  induction 1 as [ | a0 b0 l l' Hab H IH]; intros i a Hi.
  - now destruct i.
  - destruct i as [ | i]; simpl in *.
    + injection Hi as <-. eauto.
    + eauto.
Qed.

(** ** The sampling loop *)

Lemma float_truediv_ok x y q : float_truediv x y = Ok q -> q = (x / y)%float.
Proof.
  unfold float_truediv. destruct (y =? f0)%float; [ discriminate | ].
  intros H. now injection H.
Qed.

Lemma sleep_ok seconds out : sleep seconds = (out, Ok tt) -> out = [Sleep seconds].
Proof.
  unfold sleep. destruct (is_nan seconds); [ discriminate | ]. cbv zeta.
  destruct (_ || _); [ discriminate | ].
  destruct (_ || _); [ discriminate | ].
  intros H. now injection H.
Qed.

(** Lines 159-166, once the samples of lines 149-157 are in. *)
Lemma loop_body_after_collection
  (sampling_rate : float) (station_urls : list url) (station_uids : list Z)
  (t : tick) (st : session)
  (sample_list : list json) (prints : list event) (tick_mean interval : float) :
  get_samples (tick_get t) station_urls "pm25" = Ok sample_list ->
  print_samples sample_list station_uids = (prints, Ok tt) ->
  mean sample_list = Ok tick_mean ->
  float_truediv f60 sampling_rate = Ok interval ->
  loop_body sampling_rate station_urls station_uids t st =
    if (interval - latency t <? f0)%float then
      (PrintCollected (latency t) :: prints ++ [PrintTooSlow (latency t)],
       Raise (SystemExit 2))
    else
      match sleep (interval - latency t) with
      | (slept, Ok _) =>
          (PrintCollected (latency t) :: prints ++ slept, Ok (advance st tick_mean interval))
      | (slept, Raise e) => (PrintCollected (latency t) :: prints ++ slept, Raise e)
      end.
Proof.
  intros Hsamples Hprints Hmean Hinterval. unfold loop_body, latency.
  rewrite Hsamples. cbn [lift bind emit app]. rewrite Hprints. cbn [bind].
  rewrite Hmean. cbn [lift bind app]. rewrite Hinterval. cbn [lift bind app].
  destruct (_ <? f0)%float.
  - reflexivity.
  - destruct (sleep _) as [slept [[] | e]]; cbn; rewrite ?app_nil_r; reflexivity.
Qed.

(** What an iteration that returns has done. *)
Lemma loop_body_ok
  (sampling_rate : float) (station_urls : list url) (station_uids : list Z)
  (t : tick) (st : session) (out : list event) (st' : session) :
  loop_body sampling_rate station_urls station_uids t st = (out, Ok st') ->
  exists sample_list prints tick_mean,
    get_samples (tick_get t) station_urls "pm25" = Ok sample_list /\
    print_samples sample_list station_uids = (prints, Ok tt) /\
    mean sample_list = Ok tick_mean /\
    float_truediv f60 sampling_rate = Ok (f60 / sampling_rate)%float /\
    ((f60 / sampling_rate - latency t) <? f0)%float = false /\
    out = PrintCollected (latency t) :: prints
            ++ [Sleep (f60 / sampling_rate - latency t)%float] /\
    st' = advance st tick_mean (f60 / sampling_rate)%float.
Proof.
  intros H. pose proof H as Hbody. unfold loop_body in H.
  lift_inv H as sample_list Hsamples.
  bind_inv H as u Hcollected. injection Hcollected as <-.
  apply bind_ok in H as (prints & u' & ? & Hprints & H & ->). destruct u'.
  lift_inv H as tick_mean Hmean.
  lift_inv H as interval Hinterval.
  pose proof (float_truediv_ok _ _ _ Hinterval) as ->.
  exists sample_list, prints, tick_mean.
  rewrite (loop_body_after_collection _ _ _ _ _ _ _ _ _ Hsamples Hprints Hmean Hinterval)
    in Hbody.
  destruct (_ <? f0)%float eqn:Hslow; [ discriminate Hbody | ].
  destruct (sleep _) as [slept [[] | e]] eqn:Hsleep; [ | discriminate Hbody ].
  apply sleep_ok in Hsleep as ->.
  injection Hbody as <- <-. repeat split; assumption || reflexivity.
Qed.

Lemma loop_body_prints (sampling_rate : float) (station_urls : list url)
  (station_uids : list Z) (t : tick) (st : session) (out : list event) (st' : session) :
  loop_body sampling_rate station_urls station_uids t st = (out, Ok st') -> out <> [].
Proof.
  intros H. apply loop_body_ok in H as (? & ? & ? & _ & _ & _ & _ & _ & -> & _).
  discriminate.
Qed.

(** With no station to ask, an iteration of the loop collects nothing and
    raises at the division of line 156. *)
Lemma loop_body_without_stations
  (sampling_rate : float) (station_uids : list Z) (t : tick) (st : session) :
  loop_body sampling_rate [] station_uids t st
    = ([PrintCollected (time_after t - time_before t)%float], Raise ZeroDivisionError).
Proof. reflexivity. Qed.

Lemma iterations_ok (sampling_rate : float) (station_urls : list url) (station_uids : list Z) :
  forall ticks st out st',
    iterations sampling_rate station_urls station_uids ticks st = (out, Ok st') ->
    exists sample_lists tick_means,
      Forall2 (fun t l => get_samples (tick_get t) station_urls "pm25" = Ok l)
              ticks sample_lists /\
      Forall2 (fun l m => mean l = Ok m) sample_lists tick_means /\
      sample_total st' = fold_left PrimFloat.add tick_means (sample_total st) /\
      num_samples st' = num_samples st + length ticks /\
      time_elapsed st' =
        add_repeatedly (length ticks) (f60 / sampling_rate)%float (time_elapsed st).
Proof.
  induction ticks as [ | t ticks IH]; intros st out st' H.
  - injection H as <- <-. exists [], []. simpl.
    repeat split; try constructor. lia.
  - cbn [iterations] in H. bind_inv H as st1 Hbody.
    apply loop_body_ok in Hbody
      as (sample_list & prints & tick_mean & Hsamples & _ & Hmean & _ & _ & _ & ->).
    apply IH in H as (sample_lists & tick_means & Hs & Hm & Htotal & Hnum & Htime).
    exists (sample_list :: sample_lists), (tick_mean :: tick_means).
    repeat split; try (constructor; assumption).
    + exact Htotal.
    + rewrite Hnum. simpl. lia.
    + exact Htime.
Qed.

(** Leaving the loop: some prefix of the observed ticks was run, and the test
    of line 147 then failed. *)
Lemma sampling_loop_exited (sampling_period sampling_rate : float)
  (station_urls : list url) (station_uids : list Z) :
  forall ticks st out st',
    sampling_loop sampling_period sampling_rate station_urls station_uids ticks st
      = (out, Ok (Exited st')) ->
    exists k,
      k <= length ticks /\
      iterations sampling_rate station_urls station_uids (firstn k ticks) st
        = (out, Ok st') /\
      keeps_sampling sampling_period st' = false /\
      (keeps_sampling sampling_period st = true -> 1 <= k).
Proof.
  induction ticks as [ | t ticks IH]; intros st out st' H; cbn [sampling_loop] in H;
    fold (keeps_sampling sampling_period st) in H;
    destruct (keeps_sampling sampling_period st) eqn:Hguard.
  - discriminate H.
  - injection H as <- <-. exists 0. repeat split; [ simpl; lia | assumption | discriminate ].
  - bind_inv H as st1 Hbody.
    apply IH in H as (k & Hk & Hiter & Hexit & _).
    exists (S k). cbn [firstn iterations]. rewrite Hbody. cbn [bind]. rewrite Hiter.
    repeat split; [ simpl; lia | assumption | lia ].
  - injection H as <- <-. exists 0. repeat split; [ simpl; lia | assumption | discriminate ].
Qed.

Lemma py_truediv_float_int x n q :
  py_truediv (NFloat x) (NInt n) = Ok q ->
  exists count, float_of_Z n = Ok count /\ q = (x / count)%float.
Proof.
  unfold py_truediv, py_to_float. intros H.
  apply rbind_ok in H as (x' & Hx & H). injection Hx as <-.
  apply rbind_ok in H as (count & Hcount & H).
  apply float_truediv_ok in H. eauto.
Qed.

(** ** C1: the final average *)

(** C1: when the session is done, the average it reports is the sum of the
    per-tick means, added up tick after tick from 0.0, divided by the number
    of ticks; each tick's mean is the sum of the values that tick extracted
    divided by how many there are. *)
Theorem final_average_is_mean_of_tick_means
  (sampling_period sampling_rate : float) (station_urls : list url) (station_uids : list Z)
  (ticks : list tick) (out : list event) (n : nat) (avg : float) :
  sampling sampling_period sampling_rate station_urls station_uids ticks
    = (out, Ok (Some (n, avg))) ->
  exists sample_lists tick_means count,
    Forall2 (fun t l => get_samples (tick_get t) station_urls "pm25" = Ok l)
            (firstn n ticks) sample_lists /\
    Forall2 (fun l m => exists total,
                 py_sum l = Ok total /\
                 py_truediv total (NInt (Z.of_nat (length l))) = Ok m)
            sample_lists tick_means /\
    length tick_means = n /\
    float_of_Z (Z.of_nat n) = Ok count /\
    avg = (fold_left PrimFloat.add tick_means f0 / count)%float /\
    exists before, out = before ++ [PrintAverage n avg].
Proof.
  unfold sampling. intros H. bind_inv H as state Hloop.
  destruct state as [st | st]; [ | discriminate H ].
  bind_inv H as final Hreport. injection H as <- ->. rewrite app_nil_r.
  unfold report in Hreport. lift_inv Hreport as q Hq.
  bind_inv Hreport as u Hprint. injection Hprint as <-.
  injection Hreport as <- Hn <-.
  apply sampling_loop_exited in Hloop as (k & Hk & Hiter & _ & _).
  apply iterations_ok in Hiter as (sample_lists & tick_means & Hs & Hm & Htotal & Hnum & _).
  apply py_truediv_float_int in Hq as (count & Hcount & ->).
  rewrite length_firstn, Nat.min_l in Hnum by exact Hk. cbn in Hnum.
  rewrite Hn in Hnum, Hcount. subst k.
  exists sample_lists, tick_means, count.
  repeat split.
  - exact Hs.
  - clear - Hm. induction Hm as [ | l m ls ms Hl Hm IH]; constructor; [ | exact IH ].
    unfold mean in Hl. apply rbind_ok in Hl as (total & Htotal & Hl). eauto.
  - rewrite <- (Forall2_length_eq _ _ _ Hm), <- (Forall2_length_eq _ _ _ Hs).
    now rewrite length_firstn, Nat.min_l.
  - exact Hcount.
  - now rewrite Htotal.
  - rewrite Hn. eexists. cbn [app]. reflexivity.
Qed.

Lemma final_average_is_mean_of_tick_means_witness :
  exists sample_lists tick_means count,
    Forall2 (fun t l => get_samples (tick_get t) three_station_urls "pm25" = Ok l)
            (firstn 1 [half_second_tick]) sample_lists /\
    Forall2 (fun l m => exists total,
                 py_sum l = Ok total /\
                 py_truediv total (NInt (Z.of_nat (length l))) = Ok m)
            sample_lists tick_means /\
    length tick_means = 1 /\
    float_of_Z (Z.of_nat 1) = Ok count /\
    20%float = (fold_left PrimFloat.add tick_means f0 / count)%float /\
    exists before,
      [PrintCollected 0.5; PrintSample 1 (JFloat 10); PrintSample 2 (JFloat 20);
       PrintSample 3 (JFloat 30); Sleep 59.5; PrintAverage 1 20]
      = before ++ [PrintAverage 1 20].
Proof.
  apply (final_average_is_mean_of_tick_means
           0.125 1 three_station_urls [1; 2; 3]%Z [half_second_tick]).
  vm_compute. reflexivity.
Defined.

(** ** C2: tick count and elapsed time *)

(** C2 as stated fails: at 600 samples per minute the interval is the
    binary64 nearest to 0.1; after six completed iterations [num_samples] is
    6, and [time_elapsed] is 0.59999999999999998, not six times the interval,
    0.60000000000000009. *)
Lemma six_ticks_do_not_take_six_intervals :
  exists out st,
    iterations 600 [Feed (JInt 1) "token"] [1%Z] (repeat quick_tick 6) session_start
      = (out, Ok st) /\
    num_samples st = 6 /\
    (time_elapsed st =? 6 * (f60 / 600))%float = false /\
    time_elapsed st <> (6 * (f60 / 600))%float.
Proof.
  eexists. eexists. split; [ vm_compute; reflexivity | ].
  cbn [num_samples time_elapsed]. repeat split.
  intros H. apply (f_equal Prim2SF) in H. vm_compute in H. discriminate H.
Qed.

(** C2, amended: after [k] completed iterations [num_samples] is [k] and
    [time_elapsed] is 0.0 with the interval [60.0 / sampling_rate] added [k]
    times, one binary64 addition per iteration (the measured latency does
    not enter), and the loop is left at a state exactly when
    [time_elapsed < sampling_period * 60.0] is false there, that is when
    [time_elapsed >= sampling_period * 60.0] or one of the two is not a
    number. *)
Theorem tick_count_and_elapsed_time
  (sampling_period sampling_rate : float) (station_urls : list url) (station_uids : list Z)
  (ticks : list tick) (out : list event) (st : session) :
  iterations sampling_rate station_urls station_uids ticks session_start = (out, Ok st) ->
  num_samples st = length ticks /\
  time_elapsed st = add_repeatedly (length ticks) (f60 / sampling_rate)%float f0 /\
  (forall more,
      sampling_loop sampling_period sampling_rate station_urls station_uids more st
        = ([], Ok (Exited st)) <->
      (time_elapsed st <? sampling_period * f60)%float = false) /\
  ((time_elapsed st <? sampling_period * f60)%float = false <->
   (sampling_period * f60 <=? time_elapsed st)%float = true \/
   is_nan (time_elapsed st) = true \/ is_nan (sampling_period * f60) = true).
Proof.
  intros H. apply iterations_ok in H as (_ & _ & _ & _ & _ & Hnum & Htime).
  split; [ exact Hnum | ]. split; [ exact Htime | ]. split.
  - intros more. split.
    + destruct more as [ | t more]; cbn [sampling_loop];
        destruct (_ <? _)%float; try reflexivity; try discriminate.
      intros H. apply bind_ok in H as (o1 & st1 & o2 & Hbody & _ & Hout).
      apply loop_body_prints in Hbody. destruct o1; [ congruence | discriminate Hout ].
    + intros Hexit. destruct more; cbn [sampling_loop]; now rewrite Hexit.
  - apply ltb_false_iff.
Qed.

Lemma tick_count_and_elapsed_time_witness :
  num_samples after_six_ticks = length (repeat quick_tick 6) /\
  time_elapsed after_six_ticks
    = add_repeatedly (length (repeat quick_tick 6)) (f60 / 600)%float f0 /\
  (forall more,
      sampling_loop 0.0078125 600 [Feed (JInt 1) "token"] [1%Z] more after_six_ticks
        = ([], Ok (Exited after_six_ticks)) <->
      (time_elapsed after_six_ticks <? 0.0078125 * f60)%float = false) /\
  ((time_elapsed after_six_ticks <? 0.0078125 * f60)%float = false <->
   (0.0078125 * f60 <=? time_elapsed after_six_ticks)%float = true \/
   is_nan (time_elapsed after_six_ticks) = true \/ is_nan (0.0078125 * f60) = true).
Proof.
  eapply (tick_count_and_elapsed_time 0.0078125 600 [Feed (JInt 1) "token"] [1%Z]
            (repeat quick_tick 6) _ after_six_ticks).
  vm_compute. reflexivity.
Defined.

(** ** C3: no eligible station *)

(** C3 on the code: when every station of the box is filtered out, the run
    is not stopped at its start: it reports 0 valid stations, enters the
    loop, runs the first batch and raises ZeroDivisionError at the tick mean. *)
Theorem no_eligible_station_reaches_the_tick_mean :
  get_station_requests (int_of_str no_pm25_world) (discovery_get no_pm25_world)
    "1,2,3,4" "token" "pm25" = ([PrintIgnoringStation 7], Ok (ReturnedPair [] [])) /\
  mean [] = Raise ZeroDivisionError /\
  main no_pm25_world
    = ([PrintIgnoringStation 7; PrintValidStations 0; PrintCollected 1],
       Raise ZeroDivisionError).
Proof. repeat split. Qed.

(** ** C4: an empty bounding box *)

(** On a successful reply that lists nothing, line 37 returns the float 0.0. *)
Lemma get_station_requests_empty_reply
  (int_of_str : string -> option Z) (get : transport) (coords api_token iaqi : string)
  (response : response) (response_dict status data : json) :
  get (MapBounds api_token coords) = Ok response ->
  json_of response = Ok response_dict ->
  py_getitem response_dict "status" = Ok status ->
  py_eq_str status "error" = false ->
  py_getitem response_dict "data" = Ok data ->
  py_len data = Ok 0 ->
  get_station_requests int_of_str get coords api_token iaqi = ([], Ok (ReturnedFloat f0)).
Proof.
  intros Hget Hjson Hstatus Herr Hdata Hlen. unfold get_station_requests.
  rewrite Hget. cbn. rewrite Hjson. cbn. rewrite Hstatus. cbn. rewrite Herr.
  rewrite Hdata. cbn. rewrite Hlen. reflexivity.
Qed.

(** C4 on the code: for the reply [{"status": "ok", "data": []}] discovery
    returns the float 0.0, which the caller cannot unpack into the two lists:
    the run ends in TypeError before anything is printed. *)
Theorem empty_bounding_box_ends_in_type_error :
  get_station_requests (int_of_str empty_box_world) (discovery_get empty_box_world)
    "1,2,3,4" "token" "pm25" = ([], Ok (ReturnedFloat f0)) /\
  unpack (ReturnedFloat f0) = Raise TypeError /\
  main empty_box_world = ([], Raise TypeError).
Proof. repeat split. Qed.

(** ** C5: the cadence check *)

(** C5 as stated fails: at one sample per minute the interval is 60 s; with
    a measured latency of exactly 60 s the latency is not below the interval,
    yet the iteration does not fail: it sleeps 0 s and returns. *)
Lemma latency_equal_to_interval_is_no_overrun :
  (f60 / 1 <=? latency minute_tick)%float = true /\
  loop_body 1 [Feed (JInt 1) "token"] [1%Z] minute_tick session_start
    = ([PrintCollected 60; PrintSample 1 (JFloat 10); Sleep 0],
       Ok {| sample_total := 10; num_samples := 1; time_elapsed := 60 |}).
Proof. split; reflexivity. Qed.

(** C5, amended: in a tick whose samples are in, the session fails with the
    cadence error and [sys.exit(2)] if and only if the measured latency is
    strictly above [60 / sampling_rate] (that is, [sleep_time < 0]); when it
    is not, the loop sleeps the difference (0 s when they are equal) and goes
    on, provided [time.sleep] accepts that duration. *)
Theorem cadence_overrun_iff_latency_above_interval
  (sampling_rate : float) (station_urls : list url) (station_uids : list Z)
  (t : tick) (st : session)
  (sample_list : list json) (prints : list event) (tick_mean interval : float) :
  get_samples (tick_get t) station_urls "pm25" = Ok sample_list ->
  print_samples sample_list station_uids = (prints, Ok tt) ->
  mean sample_list = Ok tick_mean ->
  float_truediv f60 sampling_rate = Ok interval ->
  ((exists out, loop_body sampling_rate station_urls station_uids t st
                  = (out, Raise (SystemExit 2))) <->
   (interval <? latency t)%float = true) /\
  ((interval <? latency t)%float = true ->
   (interval - latency t <? f0)%float = true /\
   loop_body sampling_rate station_urls station_uids t st
     = (PrintCollected (latency t) :: prints ++ [PrintTooSlow (latency t)],
        Raise (SystemExit 2))) /\
  ((interval <? latency t)%float = false ->
   sleep (interval - latency t) = ([Sleep (interval - latency t)%float], Ok tt) ->
   loop_body sampling_rate station_urls station_uids t st
     = (PrintCollected (latency t) :: prints ++ [Sleep (interval - latency t)%float],
        Ok (advance st tick_mean interval))).
Proof.
  intros Hsamples Hprints Hmean Hinterval.
  pose proof (loop_body_after_collection sampling_rate station_urls station_uids t st
                sample_list prints tick_mean interval Hsamples Hprints Hmean Hinterval)
    as Hbody.
  pose proof (sub_negative_iff interval (latency t)) as Hsign. fold f0 in Hsign.
  rewrite Hsign in Hbody.
  split; [ split | split ].
  - intros [out Hout]. rewrite Hbody in Hout.
    destruct (interval <? latency t)%float; [ reflexivity | ].
    unfold sleep, raise, emit in Hout. cbv zeta in Hout.
    destruct (is_nan (interval - latency t)); [ discriminate Hout | ].
    destruct (_ || _); [ discriminate Hout | ].
    destruct (_ || _); discriminate Hout.
  - intros Habove. rewrite Habove in Hbody. eauto.
  - intros Habove. split; [ now rewrite Hsign | ].
    rewrite Hbody, Habove. reflexivity.
  - intros Hbelow Hsleep. rewrite Hbody, Hbelow, Hsleep. reflexivity.
Qed.

Lemma cadence_overrun_iff_latency_above_interval_witness :
  ((exists out, loop_body 1 [Feed (JInt 1) "token"] [1%Z] minute_tick session_start
                  = (out, Raise (SystemExit 2))) <->
   (60 <? latency minute_tick)%float = true) /\
  ((60 <? latency minute_tick)%float = true ->
   (60 - latency minute_tick <? f0)%float = true /\
   loop_body 1 [Feed (JInt 1) "token"] [1%Z] minute_tick session_start
     = (PrintCollected (latency minute_tick)
          :: [PrintSample 1 (JFloat 10)] ++ [PrintTooSlow (latency minute_tick)],
        Raise (SystemExit 2))) /\
  ((60 <? latency minute_tick)%float = false ->
   sleep (60 - latency minute_tick) = ([Sleep (60 - latency minute_tick)%float], Ok tt) ->
   loop_body 1 [Feed (JInt 1) "token"] [1%Z] minute_tick session_start
     = (PrintCollected (latency minute_tick)
          :: [PrintSample 1 (JFloat 10)] ++ [Sleep (60 - latency minute_tick)%float],
        Ok (advance session_start 10 60))).
Proof.
  apply (cadence_overrun_iff_latency_above_interval 1 [Feed (JInt 1) "token"] [1%Z]
           minute_tick session_start [JFloat 10] [PrintSample 1 (JFloat 10)] 10 60);
    reflexivity.
Defined.

(** ** C6: the tiers of the rate guard *)

(** An estimate above a threshold [T >= 0] stays above it when the rate grows. *)
Lemma above_threshold_mono_rate (T r1 r2 : float) (n : nat) (e1 e2 : float) :
  (0 <= fv T)%Z -> (r1 <=? r2)%float = true ->
  estimate_requests_per_sec r1 n = Ok e1 ->
  estimate_requests_per_sec r2 n = Ok e2 ->
  (T <? e1)%float = true -> (T <? e2)%float = true.
Proof.
  intros HT Hr H1 H2 Habove. unfold estimate_requests_per_sec in *.
  destruct (float_of_Z (Z.of_nat n)) as [c | ] eqn:Hc; [ | discriminate ].
  cbn [rbind] in H1, H2. injection H1 as <-. injection H2 as <-.
  pose proof (float_of_Z_nonneg _ _ (Nat2Z.is_nonneg n) Hc) as Hc0.
  apply ltb_fv in Habove as (NT & N1 & Habove).
  apply leb_fv in Hr as (Nr1 & Nr2 & Hr).
  assert (0 < fv (r1 / f60 * c))%Z as Hpos by lia.
  unfold fv in Hpos. rewrite Prim2SF_mul in Hpos.
  apply SFmul_pos_inv in Hpos as [Ha1 Hcpos]; try apply Prim2SF_valid; [ | exact Hc0 ].
  rewrite Prim2SF_div, Prim2SF_f60 in Ha1.
  pose proof (SFdiv_sign (Prim2SF r1) _ _ (Prim2SF_valid r1) Nr1 bounded_60)
    as (_ & _ & _ & Hr1pos).
  specialize (Hr1pos Ha1).
  pose proof (SFdiv_mono_l (Prim2SF r1) (Prim2SF r2) _ _ (Prim2SF_valid r1) (Prim2SF_valid r2)
                bounded_60 Hr1pos Hr) as (_ & _ & _ & _ & Hdiv).
  rewrite <- Prim2SF_f60 in Hdiv, Ha1.
  rewrite <- (Prim2SF_div r1 f60) in Hdiv, Ha1. rewrite <- (Prim2SF_div r2 f60) in Hdiv.
  pose proof (SFmul_mono_l (Prim2SF (r1 / f60)) (Prim2SF (r2 / f60)) (Prim2SF c)
                (Prim2SF_valid _) (Prim2SF_valid _) (Prim2SF_valid _) Hcpos Ha1 Hdiv)
    as (_ & N2 & Hmul).
  rewrite <- (Prim2SF_mul (r1 / f60) c) in Hmul.
  rewrite <- (Prim2SF_mul (r2 / f60) c) in Hmul, N2.
  apply ltb_fv. repeat split; try assumption. unfold fv in *. lia.
Qed.

(** And when the number of stations grows. *)
Lemma above_threshold_mono_stations (T r : float) (n1 n2 : nat) (e1 e2 : float) :
  (0 <= fv T)%Z -> n1 <= n2 ->
  estimate_requests_per_sec r n1 = Ok e1 ->
  estimate_requests_per_sec r n2 = Ok e2 ->
  (T <? e1)%float = true -> (T <? e2)%float = true.
Proof.
  intros HT Hn H1 H2 Habove. unfold estimate_requests_per_sec in *.
  destruct (float_of_Z (Z.of_nat n1)) as [c1 | ] eqn:Hc1; [ | discriminate ].
  destruct (float_of_Z (Z.of_nat n2)) as [c2 | ] eqn:Hc2; [ | discriminate ].
  cbn [rbind] in H1, H2. injection H1 as <-. injection H2 as <-.
  pose proof (float_of_Z_nonneg _ _ (Nat2Z.is_nonneg n1) Hc1) as Hc0.
  pose proof (float_of_Z_mono (Z.of_nat n1) (Z.of_nat n2) c1 c2 ltac:(lia) Hc1 Hc2) as Hc12.
  apply ltb_fv in Habove as (NT & N1 & Habove).
  assert (0 < fv (r / f60 * c1))%Z as Hpos by lia.
  unfold fv in Hpos. rewrite Prim2SF_mul in Hpos.
  apply SFmul_pos_inv in Hpos as [Ha Hc1pos]; try apply Prim2SF_valid; [ | exact Hc0 ].
  pose proof (SFmul_mono_r (Prim2SF (r / f60)) (Prim2SF c1) (Prim2SF c2)
                (Prim2SF_valid _) (Prim2SF_valid _) (Prim2SF_valid _) Ha Hc1pos Hc12)
    as (_ & N2 & Hmul).
  rewrite <- (Prim2SF_mul (r / f60) c1) in Hmul.
  rewrite <- (Prim2SF_mul (r / f60) c2) in Hmul, N2.
  apply ltb_fv. repeat split; try assumption. unfold fv in *. lia.
Qed.

Lemma classify_rank_mono (e1 e2 : float) :
  ((f1000 <? e1)%float = true -> (f1000 <? e2)%float = true) ->
  ((f500 <? e1)%float = true -> (f500 <? e2)%float = true) ->
  verdict_rank (classify e1) <= verdict_rank (classify e2).
Proof.
  intros H1000 H500. unfold classify.
  destruct (f1000 <? e1)%float.
  - now rewrite H1000.
  - destruct (f500 <? e1)%float.
    + rewrite H500 by reflexivity. destruct (f1000 <? e2)%float; cbn; lia.
    + cbn. lia.
Qed.

Lemma above_1000_above_500 e : (f1000 <? e)%float = true -> (f500 <? e)%float = true.
Proof.
  intros H. apply ltb_fv in H as (_ & Ne & H). apply ltb_fv.
  repeat split; [ intros E; vm_compute in E; discriminate E | exact Ne | ].
  assert (fv f500 < fv f1000)%Z by (vm_compute; reflexivity). lia.
Qed.

(** C6 as stated fails: 30000 samples per minute on one station give an
    estimate of exactly 500.0 requests per second, and the guard proceeds
    without the warning. *)
Lemma estimate_of_500_proceeds_silently :
  estimate_requests_per_sec 30000 1 = Ok f500 /\
  classify f500 <> Warn /\
  rate_guard 30000 [Feed (JInt 1) "token"] = ([], Ok tt).
Proof. repeat split. discriminate. Qed.

(** C6, amended: an estimate above 1000 is rejected, with [sys.exit(2)]
    before any sampling; an estimate above 500 and not above 1000 gets the
    warning and sampling goes on; any other estimate, exactly 500.0 included,
    proceeds silently; and the tier never goes down when the number of
    stations or the sampling rate goes up. *)
Theorem rate_guard_tiers_and_monotonicity :
  (forall e, classify e = Reject <-> (f1000 <? e)%float = true) /\
  (forall e, classify e = Warn <->
             (f500 <? e)%float = true /\ (f1000 <? e)%float = false) /\
  (forall e, classify e = Proceed <-> (f500 <? e)%float = false) /\
  classify f500 = Proceed /\
  classify f1000 = Warn /\
  (forall sampling_rate station_urls estimate,
      estimate_requests_per_sec sampling_rate (length station_urls) = Ok estimate ->
      rate_guard sampling_rate station_urls =
        match classify estimate with
        | Reject => ([PrintRateError sampling_rate], Raise (SystemExit 2))
        | Warn => ([PrintRateWarning sampling_rate], Ok tt)
        | Proceed => ([], Ok tt)
        end) /\
  (forall sampling_period sampling_rate station_urls station_uids ticks estimate,
      estimate_requests_per_sec sampling_rate (length station_urls) = Ok estimate ->
      classify estimate = Reject ->
      (rate_guard sampling_rate station_urls ;;
       sampling sampling_period sampling_rate station_urls station_uids ticks)
        = ([PrintRateError sampling_rate], Raise (SystemExit 2))) /\
  (forall sampling_rate n1 n2 e1 e2,
      n1 <= n2 ->
      estimate_requests_per_sec sampling_rate n1 = Ok e1 ->
      estimate_requests_per_sec sampling_rate n2 = Ok e2 ->
      verdict_rank (classify e1) <= verdict_rank (classify e2)) /\
  (forall rate1 rate2 n e1 e2,
      (rate1 <=? rate2)%float = true ->
      estimate_requests_per_sec rate1 n = Ok e1 ->
      estimate_requests_per_sec rate2 n = Ok e2 ->
      verdict_rank (classify e1) <= verdict_rank (classify e2)).
Proof.
  assert (forall e, (f500 <? e)%float = false -> (f1000 <? e)%float = false) as Hbelow.
  { intros e H. destruct (f1000 <? e)%float eqn:E; [ | reflexivity ].
    apply above_1000_above_500 in E. congruence. }
  assert (forall sampling_rate station_urls estimate,
      estimate_requests_per_sec sampling_rate (length station_urls) = Ok estimate ->
      rate_guard sampling_rate station_urls =
        match classify estimate with
        | Reject => ([PrintRateError sampling_rate], Raise (SystemExit 2))
        | Warn => ([PrintRateWarning sampling_rate], Ok tt)
        | Proceed => ([], Ok tt)
        end) as Hguard.
  { intros rate urls e He. unfold rate_guard. rewrite He. cbn [lift bind].
    destruct (classify e); reflexivity. }
  assert (0 <= fv f500)%Z as H500 by (vm_compute; discriminate).
  assert (0 <= fv f1000)%Z as H1000 by (vm_compute; discriminate).
  repeat split.
  - unfold classify. destruct (f1000 <? e)%float; [ reflexivity | ].
    destruct (f500 <? e)%float; discriminate.
  - intros H. unfold classify. now rewrite H.
  - unfold classify in H. destruct (f1000 <? e)%float eqn:E; [ discriminate | ].
    destruct (f500 <? e)%float; [ reflexivity | discriminate ].
  - unfold classify in H. destruct (f1000 <? e)%float; [ discriminate | reflexivity ].
  - intros [H5 H10]. unfold classify. now rewrite H10, H5.
  - unfold classify. destruct (f1000 <? e)%float; [ discriminate | ].
    destruct (f500 <? e)%float; [ discriminate | reflexivity ].
  - intros H. unfold classify. now rewrite (Hbelow e H), H.
  - exact Hguard.
  - intros period rate urls uids ticks e He Hreject.
    rewrite (Hguard _ _ _ He), Hreject. reflexivity.
  - intros rate n1 n2 e1 e2 Hn H1 H2. apply classify_rank_mono.
    + apply (above_threshold_mono_stations f1000 rate n1 n2 e1 e2); assumption.
    + apply (above_threshold_mono_stations f500 rate n1 n2 e1 e2); assumption.
  - intros rate1 rate2 n e1 e2 Hr H1 H2. apply classify_rank_mono.
    + apply (above_threshold_mono_rate f1000 rate1 rate2 n e1 e2); assumption.
    + apply (above_threshold_mono_rate f500 rate1 rate2 n e1 e2); assumption.
Qed.

(** At 30000 samples per minute one station gives an estimate of 500.0 and
    three stations one of 1500.0: the tier goes from silent to rejected. *)
Lemma rate_guard_tiers_and_monotonicity_witness :
  estimate_requests_per_sec 30000 1 = Ok f500 /\
  estimate_requests_per_sec 30000 3 = Ok 1500%float /\
  classify f500 = Proceed /\
  classify 1500 = Reject /\
  verdict_rank (classify f500) <= verdict_rank (classify 1500).
Proof.
  destruct rate_guard_tiers_and_monotonicity
    as (_ & _ & _ & _ & _ & _ & _ & Hstations & _).
  split; [ reflexivity | ].
  split; [ reflexivity | ].
  split; [ reflexivity | ].
  split; [ reflexivity | ].
  apply (Hstations 30000%float 1 3); [ lia | reflexivity | reflexivity ].
Defined.

(** ** C7: station discovery *)

Lemma filter_stations_ok iaqi :
  forall response_list station_urls station_uids acc_urls acc_uids out urls uids,
    filter_stations iaqi response_list station_urls station_uids acc_urls acc_uids
      = (out, Ok (urls, uids)) ->
    let rows := zip3 response_list station_urls station_uids in
    Forall (fun row => exists b, reports iaqi (fst (fst row)) = Ok b) rows /\
    urls = acc_urls ++ map (fun row => snd (fst row)) (filter (kept iaqi) rows) /\
    uids = acc_uids ++ map snd (filter (kept iaqi) rows) /\
    out = map (fun row => PrintIgnoringStation (snd row)) (filter (dropped iaqi) rows).
Proof.
  induction response_list as [ | response response_list IH];
    intros station_urls station_uids acc_urls acc_uids out urls uids H.
  - simpl in H. injection H as <- <- <-. simpl.
    repeat split; [ constructor | now rewrite app_nil_r | now rewrite app_nil_r ].
  - destruct station_urls as [ | url station_urls].
    { simpl in H. injection H as <- <- <-. simpl.
      repeat split; [ constructor | now rewrite app_nil_r | now rewrite app_nil_r ]. }
    destruct station_uids as [ | uid station_uids].
    { simpl in H. injection H as <- <- <-. simpl.
      repeat split; [ constructor | now rewrite app_nil_r | now rewrite app_nil_r ]. }
    cbn [filter_stations] in H.
    apply bind_ok in H as (o1 & reported & o2 & Hrep & H & ->).
    apply lift_ok in Hrep as [Hrep ->].
    assert (kept iaqi (response, url, uid) = reported) as Hk.
    { unfold kept. cbn [fst]. rewrite Hrep. now destruct reported. }
    assert (dropped iaqi (response, url, uid) = negb reported) as Hd.
    { unfold dropped. cbn [fst]. rewrite Hrep. now destruct reported. }
    unfold zip3 in *. cbn [combine filter]. rewrite Hk, Hd.
    assert (exists b, reports iaqi (fst (fst (response, url, uid))) = Ok b) as Hrow
      by (cbn [fst]; eauto).
    destruct reported; cbn [negb map fst snd app].
    + apply IH in H as (Hall & -> & -> & ->).
      repeat split; [ now constructor | now rewrite <- app_assoc | now rewrite <- app_assoc ].
    + apply bind_ok in H as (o1 & [] & o3 & Hemit & H & ->).
      injection Hemit as <-.
      apply IH in H as (Hall & -> & -> & ->).
      repeat split. now constructor.
Qed.

Lemma length_chars s : length (chars s) = String.length s.
Proof. induction s as [ | c s IH]; simpl; congruence. Qed.

Lemma py_len_iter data n cities :
  py_len data = Ok n -> py_iter data = Ok cities -> n = length cities.
Proof.
  destruct data; simpl; try discriminate; intros Hn Hc;
    injection Hn as <-; injection Hc as <-.
  - now rewrite length_chars.
  - reflexivity.
  - now rewrite length_map.
Qed.

(** C7 on the code: the bounding-box query succeeds and lists station 7,
    whose probe is answered with an error payload, [status] "error" and a
    text for [data].  Line 49 subscripts that text without a test of the
    status (the test [get_samples] makes on line 63) and raises TypeError:
    discovery returns no lists and prints no notice for station 7, and the
    run ends there, where the claim has the station dropped with a notice
    and the session going on. *)
Theorem failed_probe_is_not_dropped :
  get_station_requests (fun _ => None) failed_probe_get "1,2,3,4" "token" "pm25"
    = ([], Raise TypeError) /\
  (~ exists out urls uids,
       get_station_requests (fun _ => None) failed_probe_get "1,2,3,4" "token" "pm25"
         = (out, Ok (ReturnedPair urls uids)) /\
       In (PrintIgnoringStation 7) out) /\
  main failed_probe_world = ([], Raise TypeError).
Proof.
  split; [ reflexivity | ]. split; [ | reflexivity ].
  intros (out & urls & uids & H & _). discriminate H.
Qed.

(** ** C8: the batch fetcher *)

(** C8 as stated fails: with the first of two requests raising, the second
    one answered, [get_responses_batch] returns no list at all. *)
Lemma batch_with_one_outage_returns_nothing :
  one_outage (Feed (JInt 2) "token") = Ok {| json_of := Ok JNull |} /\
  ~ exists response_list,
      get_responses_batch one_outage [Feed (JInt 1) "token"; Feed (JInt 2) "token"]
        = Ok response_list /\
      length response_list = 2.
Proof.
  split; [ reflexivity | ].
  intros (response_list & H & _). discriminate H.
Qed.

(** C8, amended: [get_responses_batch] returns a list exactly when every
    request returns; the list then has the length of [url_list] and its i-th
    element is the response to the i-th URL.  When some request raises, the
    call raises the exception of the first such URL and returns no list. *)
Theorem get_responses_batch_all_or_nothing (get : transport) (url_list : list url) :
  (forall response_list,
      get_responses_batch get url_list = Ok response_list <->
      Forall2 (fun u r => get u = Ok r) url_list response_list) /\
  (forall response_list,
      get_responses_batch get url_list = Ok response_list ->
      length response_list = length url_list /\
      forall i u, nth_error url_list i = Some u ->
                  exists r, nth_error response_list i = Some r /\ get u = Ok r) /\
  (forall e,
      get_responses_batch get url_list = Raise e <->
      exists before u after answered,
        url_list = before ++ u :: after /\
        Forall2 (fun u' r => get u' = Ok r) before answered /\
        get u = Raise e).
Proof.
  unfold get_responses_batch. repeat split.
  - apply mapM_ok.
  - apply mapM_ok.
  - apply mapM_ok in H. symmetry. eapply Forall2_length_eq; eassumption.
  - apply mapM_ok in H. intros i u Hi.
    eapply Forall2_nth_error in H as (r & Hr & Hu); eauto.
  - apply mapM_raise.
  - apply mapM_raise.
Qed.

(** Three requests that all return give three responses. *)
Lemma get_responses_batch_all_or_nothing_witness :
  exists response_list,
    get_responses_batch three_stations_get three_station_urls = Ok response_list /\
    length response_list = 3.
Proof.
  destruct (get_responses_batch_all_or_nothing three_stations_get three_station_urls)
    as (_ & Hlength & _).
  eexists. split; [ reflexivity | ].
  exact (proj1 (Hlength _ eq_refl)).
Defined.

(** ** C9: the final division *)

(** C9: when the sampling period is above 0 and the loop is left normally,
    at least one tick has completed: [num_samples] is at least 1 and the
    division of line 168 does not raise ZeroDivisionError. *)
Theorem normal_exit_has_completed_a_tick
  (sampling_period sampling_rate : float) (station_urls : list url) (station_uids : list Z)
  (ticks : list tick) (out : list event) (st : session) :
  (f0 <? sampling_period)%float = true ->
  sampling_loop sampling_period sampling_rate station_urls station_uids ticks session_start
    = (out, Ok (Exited st)) ->
  1 <= num_samples st /\
  snd (report st) <> Raise ZeroDivisionError.
Proof.
  intros Hperiod Hloop.
  apply sampling_loop_exited in Hloop as (k & Hk & Hiter & _ & Hentered).
  assert (1 <= k) as Hk1.
  { apply Hentered. unfold keeps_sampling. cbn [time_elapsed session_start].
    apply mul_60_positive. exact Hperiod. }
  apply iterations_ok in Hiter as (_ & _ & _ & _ & _ & Hnum & _).
  cbn [num_samples session_start] in Hnum. rewrite length_firstn, Nat.min_l in Hnum by exact Hk.
  split; [ lia | ].
  unfold report, py_truediv, py_to_float. cbn [rbind].
  destruct (float_of_Z (Z.of_nat (num_samples st))) as [count | e] eqn:Hcount.
  - cbn [rbind]. unfold float_truediv.
    rewrite (float_of_Z_nonzero (Z.of_nat (num_samples st)) count ltac:(lia) Hcount).
    cbn. discriminate.
  - cbn. unfold float_of_Z in Hcount.
    destruct (is_infinity _); [ | discriminate Hcount ].
    injection Hcount as <-. discriminate.
Qed.

Lemma normal_exit_has_completed_a_tick_witness :
  1 <= num_samples {| sample_total := 20; num_samples := 1; time_elapsed := 60 |} /\
  snd (report {| sample_total := 20; num_samples := 1; time_elapsed := 60 |})
    <> Raise ZeroDivisionError.
Proof.
  apply (normal_exit_has_completed_a_tick 0.125 1 three_station_urls [1; 2; 3]%Z
           [half_second_tick]
           [PrintCollected 0.5; PrintSample 1 (JFloat 10); PrintSample 2 (JFloat 20);
            PrintSample 3 (JFloat 30); Sleep 59.5]).
  - reflexivity.
  - vm_compute. reflexivity.
Defined.

(** ** C10: what [validate_input] lets through *)

(** C10: with coordinates that hold a comma and a period and a rate that
    read as floats, [validate_input] rejects exactly the rates whose sixtieth
    is above 1000; rates equal to zero and negative rates are accepted; and
    with a rate equal to zero an iteration whose samples are in raises
    ZeroDivisionError at [60.0 / sampling_rate]. *)
Theorem validation_accepts_zero_and_negative_rates :
  (forall float_of_str coords sampling_period sampling_rate period rate,
      is_substring "," coords = true ->
      py_float float_of_str sampling_period = Some period ->
      py_float float_of_str sampling_rate = Some rate ->
      validate_input float_of_str coords sampling_period sampling_rate =
        if (f1000 <? rate / f60)%float
        then ([PrintSamplingRateTooHigh], Raise (SystemExit 1))
        else ([], Ok (coords, period, rate))) /\
  (forall rate, (rate <=? f0)%float = true -> (f1000 <? rate / f60)%float = false) /\
  (forall float_of_str coords sampling_period sampling_rate period rate,
      is_substring "," coords = true ->
      py_float float_of_str sampling_period = Some period ->
      py_float float_of_str sampling_rate = Some rate ->
      (rate <=? f0)%float = true ->
      validate_input float_of_str coords sampling_period sampling_rate
        = ([], Ok (coords, period, rate))) /\
  (forall rate station_urls station_uids t st sample_list prints tick_mean,
      (rate =? f0)%float = true ->
      get_samples (tick_get t) station_urls "pm25" = Ok sample_list ->
      print_samples sample_list station_uids = (prints, Ok tt) ->
      mean sample_list = Ok tick_mean ->
      float_truediv f60 rate = Raise ZeroDivisionError /\
      loop_body rate station_urls station_uids t st
        = (PrintCollected (latency t) :: prints, Raise ZeroDivisionError)).
Proof.
  assert (forall float_of_str coords sampling_period sampling_rate period rate,
      is_substring "," coords = true ->
      py_float float_of_str sampling_period = Some period ->
      py_float float_of_str sampling_rate = Some rate ->
      validate_input float_of_str coords sampling_period sampling_rate =
        if (f1000 <? rate / f60)%float
        then ([PrintSamplingRateTooHigh], Raise (SystemExit 1))
        else ([], Ok (coords, period, rate))) as Hvalid.
  { intros float_of_str coords sp sr period rate Hcomma Hperiod Hrate.
    unfold validate_input. rewrite Hcomma, Hperiod, Hrate. cbn [negb].
    destruct (f1000 <? rate / f60)%float; reflexivity. }
  split; [ exact Hvalid | ].
  split; [ exact nonpositive_rate_passes | ].
  split.
  - intros float_of_str coords sp sr period rate Hcomma Hperiod Hrate Hle.
    rewrite (Hvalid _ _ _ _ _ _ Hcomma Hperiod Hrate).
    now rewrite (nonpositive_rate_passes rate Hle).
  - intros rate urls uids t st sample_list prints tick_mean Hzero Hsamples Hprints Hmean.
    assert (float_truediv f60 rate = Raise ZeroDivisionError) as Hdiv
      by (unfold float_truediv; now rewrite Hzero).
    split; [ exact Hdiv | ].
    unfold loop_body, latency. rewrite Hsamples. cbn [lift bind emit app].
    rewrite Hprints. cbn [bind]. rewrite Hmean. cbn [lift bind app].
    rewrite Hdiv. cbn. now rewrite app_nil_r.
Qed.

(** The rate "0" with the period "5" goes through [validate_input]. *)
Lemma validation_accepts_zero_and_negative_rates_witness :
  validate_input (float_of_str zero_rate_world) "1,2,3,4" (Text "5") (Text "0")
    = ([], Ok ("1,2,3,4", 5%float, 0%float)).
Proof.
  destruct validation_accepts_zero_and_negative_rates as (_ & _ & Haccepted & _).
  apply Haccepted; reflexivity.
Defined.

Lemma zero_rate_run_divides_by_zero :
  main zero_rate_world
    = ([PrintValidStations 3; PrintCollected 0.5; PrintSample 1 (JFloat 10);
        PrintSample 2 (JFloat 20); PrintSample 3 (JFloat 30)],
       Raise ZeroDivisionError).
Proof. vm_compute. reflexivity. Qed.

(** * Further properties *)

(** ** Handling arguments *)

(** X1: [get_input] goes by the number of arguments: fewer than three items
    in [sys.argv] end with the "too few" message and [sys.exit(1)], more than
    five with the "too many" message and [sys.exit(1)]; with three to five it
    prints nothing and returns [argv[1]] and [argv[2]], the period [argv[3]]
    as text or 5.0 when absent, the rate [argv[4]] as text or 1.0 when
    absent. *)
Theorem get_input_by_argument_count (argv : list string) :
  (length argv < 3 ->
   get_input argv = ([PrintTooFewArguments], Raise (SystemExit 1))) /\
  (5 < length argv ->
   get_input argv = ([PrintTooManyArguments], Raise (SystemExit 1))) /\
  (3 <= length argv <= 5 ->
   get_input argv =
     ([], Ok (nth 1 argv "", nth 2 argv "",
              match nth_error argv 3 with Some text => Text text | None => Number 5 end,
              match nth_error argv 4 with Some text => Text text | None => Number 1 end))).
Proof.
  destruct argv as [ | a0 [ | a1 [ | a2 [ | a3 [ | a4 [ | a5 rest]]]]]]; cbn [length];
    (split; [ | split ]); intros H; try lia; reflexivity.
Qed.

Lemma get_input_by_argument_count_witness :
  get_input ["main.py"; "token"; "1,2,3,4"; "10"]
    = ([], Ok ("token", "1,2,3,4", Text "10", Number 1)).
Proof.
  destruct (get_input_by_argument_count ["main.py"; "token"; "1,2,3,4"; "10"])
    as (_ & _ & Hinput).
  apply Hinput. simpl. lia.
Defined.

(** X2: [validate_input] has five outcomes and no other.  It refuses, each
    time with one message and [sys.exit(1)]: coordinates without a comma;
    else a period that [float] cannot read; else a rate that [float] cannot
    read; else a rate whose sixtieth is above 1000.  Otherwise it returns the
    coordinates as given with the two floats, and prints nothing. *)
Theorem validate_input_outcomes
  (float_of_str : string -> option float) (coords : string)
  (sampling_period sampling_rate : argument) :
  let outcome := validate_input float_of_str coords sampling_period sampling_rate in
  (outcome = ([PrintInvalidCoords], Raise (SystemExit 1)) <->
     is_substring "," coords = false) /\
  (outcome = ([PrintInvalidSamplingPeriod], Raise (SystemExit 1)) <->
     is_substring "," coords = true /\
     is_float float_of_str sampling_period = false) /\
  (outcome = ([PrintInvalidSamplingRate], Raise (SystemExit 1)) <->
     is_substring "," coords = true /\
     is_float float_of_str sampling_period = true /\
     is_float float_of_str sampling_rate = false) /\
  (outcome = ([PrintSamplingRateTooHigh], Raise (SystemExit 1)) <->
     is_substring "," coords = true /\
     is_float float_of_str sampling_period = true /\
     exists rate, py_float float_of_str sampling_rate = Some rate /\
                  (f1000 <? rate / f60)%float = true) /\
  (forall period rate,
     outcome = ([], Ok (coords, period, rate)) <->
     is_substring "," coords = true /\
     py_float float_of_str sampling_period = Some period /\
     py_float float_of_str sampling_rate = Some rate /\
     (f1000 <? rate / f60)%float = false) /\
  ((exists message, outcome = ([message], Raise (SystemExit 1))) \/
   (exists period rate, outcome = ([], Ok (coords, period, rate)))).
Proof.
  cbv zeta. unfold validate_input, is_float.
  destruct (is_substring "," coords); cbn [negb];
    [ destruct (py_float float_of_str sampling_period) as [period | ];
      [ destruct (py_float float_of_str sampling_rate) as [rate | ];
        [ destruct (f1000 <? rate / f60)%float eqn:Hhigh | ] | ] | ];
    repeat match goal with
           | |- _ /\ _ => split
           | |- _ <-> _ => split
           | |- forall _, _ => intro
           end;
    repeat match goal with
           | H : _ /\ _ |- _ => destruct H
           | H : exists _, _ |- _ => destruct H
           end;
    unfold ret in *; try discriminate; try congruence; eauto;
    first [ left; eexists; reflexivity | right; eexists; eexists; reflexivity ].
Qed.

(** X3: the defaults of [get_input] are floats already: with two or three
    arguments and a comma in the coordinates, nothing of the defaults is read
    as text and the rate 1.0 passes the check of line 115. *)
Theorem default_arguments_pass_validation
  (float_of_str : string -> option float) (program api_token coords : string) :
  is_substring "," coords = true ->
  (input <- get_input [program; api_token; coords] ;;
   let '(_, coords, sampling_period, sampling_rate) := input in
   validate_input float_of_str coords sampling_period sampling_rate)
    = ([], Ok (coords, 5%float, 1%float)) /\
  forall text period,
    float_of_str text = Some period ->
    (input <- get_input [program; api_token; coords; text] ;;
     let '(_, coords, sampling_period, sampling_rate) := input in
     validate_input float_of_str coords sampling_period sampling_rate)
      = ([], Ok (coords, period, 1%float)).
Proof.
  intros Hcomma. split.
  - cbn [get_input ret bind]. unfold validate_input. rewrite Hcomma. reflexivity.
  - intros text period Htext. cbn [get_input ret bind]. unfold validate_input.
    rewrite Hcomma. cbn [negb py_float]. rewrite Htext. reflexivity.
Qed.

Lemma default_arguments_pass_validation_witness :
  (input <- get_input ["main.py"; "token"; "1,2,3,4"] ;;
   let '(_, coords, sampling_period, sampling_rate) := input in
   validate_input (fun _ => None) coords sampling_period sampling_rate)
    = ([], Ok ("1,2,3,4", 5%float, 1%float)).
Proof.
  apply (default_arguments_pass_validation (fun _ => None) "main.py" "token" "1,2,3,4").
  reflexivity.
Defined.

Lemma get_input_raises argv out e :
  get_input argv = (out, Raise e) -> e = SystemExit 1 /\ length out = 1.
Proof.
  destruct argv as [ | a0 [ | a1 [ | a2 [ | a3 [ | a4 [ | a5 rest]]]]]]; cbn;
    intros H; try discriminate H; injection H as <- <-; auto.
Qed.

Lemma validate_input_raises float_of_str coords sampling_period sampling_rate out e :
  validate_input float_of_str coords sampling_period sampling_rate = (out, Raise e) ->
  e = SystemExit 1 /\ length out = 1.
Proof.
  unfold validate_input. destruct (negb _); cbn.
  { intros H. injection H as <- <-. auto. }
  destruct (py_float float_of_str sampling_period); cbn.
  2: { intros H. injection H as <- <-. auto. }
  destruct (py_float float_of_str sampling_rate); cbn.
  2: { intros H. injection H as <- <-. auto. }
  destruct (_ <? _)%float; cbn; intros H; [ injection H as <- <-; auto | discriminate H ].
Qed.

Lemma get_input_no_output argv out input : get_input argv = (out, Ok input) -> out = [].
Proof.
  destruct argv as [ | a0 [ | a1 [ | a2 [ | a3 [ | a4 [ | a5 rest]]]]]]; cbn;
    intros H; try discriminate H; now injection H as <- _.
Qed.

Lemma validate_input_no_output float_of_str coords sampling_period sampling_rate out valid :
  validate_input float_of_str coords sampling_period sampling_rate = (out, Ok valid) ->
  out = [].
Proof.
  unfold validate_input. destruct (negb _); cbn; [ discriminate | ].
  destruct (py_float float_of_str sampling_period); cbn; [ | discriminate ].
  destruct (py_float float_of_str sampling_rate); cbn; [ | discriminate ].
  destruct (_ <? _)%float; cbn; intros H; [ discriminate H | now injection H as <- _ ].
Qed.

(** X4: arguments refused by [get_input] or [validate_input] end the run with
    one message and [sys.exit(1)]; the network and the clock play no part. *)
Theorem invalid_input_stops_before_the_network (w : world) (out : list event) (e : exn) :
  (get_input (argv w) = (out, Raise e) \/
   exists api_token coords sampling_period sampling_rate,
     get_input (argv w) = ([], Ok (api_token, coords, sampling_period, sampling_rate)) /\
     validate_input (float_of_str w) coords sampling_period sampling_rate
       = (out, Raise e)) ->
  main w = (out, Raise e) /\
  e = SystemExit 1 /\
  length out = 1 /\
  forall w', argv w' = argv w -> float_of_str w' = float_of_str w -> main w' = (out, Raise e).
Proof.
  assert (forall w0,
    (get_input (argv w0) = (out, Raise e) \/
     exists api_token coords sampling_period sampling_rate,
       get_input (argv w0) = ([], Ok (api_token, coords, sampling_period, sampling_rate)) /\
       validate_input (float_of_str w0) coords sampling_period sampling_rate
         = (out, Raise e)) -> main w0 = (out, Raise e)) as Hmain.
  { intros w0 [H | (api_token & coords & period & rate & Hinput & Hvalid)]; unfold main.
    - rewrite H. reflexivity.
    - rewrite Hinput. cbn [bind]. rewrite Hvalid. reflexivity. }
  intros H. split; [ now apply Hmain | ]. split; [ | split ].
  - destruct H as [H | (? & ? & ? & ? & _ & H)].
    + now apply get_input_raises in H.
    + now apply validate_input_raises in H.
  - destruct H as [H | (? & ? & ? & ? & _ & H)].
    + now apply get_input_raises in H.
    + now apply validate_input_raises in H.
  - intros w' Hargv Hfloat. apply Hmain. now rewrite Hargv, Hfloat.
Qed.

Lemma invalid_input_stops_before_the_network_witness :
  main {| argv := ["main.py"; "token"; "1 2 3 4"];
          float_of_str := fun _ => None; int_of_str := fun _ => None;
          discovery_get := three_stations_get; ticks_of := [half_second_tick] |}
    = ([PrintInvalidCoords], Raise (SystemExit 1)).
Proof.
  apply invalid_input_stops_before_the_network.
  right. exists "token", "1 2 3 4", (Number 5), (Number 1). split; reflexivity.
Defined.

(** ** Station discovery *)

(** X5: a bounding-box reply whose status is "error" ends discovery with
    [Exception("API error: " + data)]; no station is probed and nothing is
    printed.  A reason that is not text makes the [+] raise TypeError, a
    reply without [data] raises KeyError. *)
Theorem api_error_reply_raises
  (int_of_str : string -> option Z) (get : transport) (coords api_token iaqi : string)
  (reply : response) (d : list (string * json)) :
  get (MapBounds api_token coords) = Ok reply ->
  json_of reply = Ok (JDict d) ->
  dict_get "status" d = Some (JStr "error") ->
  get_station_requests int_of_str get coords api_token iaqi =
    ([], Raise match dict_get "data" d with
               | Some (JStr reason) => PyException (JStr ("API error: " ++ reason))
               | Some _ => TypeError
               | None => KeyError "data"
               end).
Proof.
  intros Hget Hjson Hstatus. unfold get_station_requests.
  rewrite Hget. cbn [lift bind app]. rewrite Hjson. cbn [lift bind app py_getitem].
  rewrite Hstatus. cbn [lift bind app py_eq_str].
  change (String.eqb "error" "error") with true. cbn iota.
  destruct (dict_get "data" d) as [[ | | | | reason | | ] | ]; reflexivity.
Qed.

Lemma api_error_reply_raises_witness :
  get_station_requests (fun _ => None)
    (fun _ => Ok {| json_of := Ok (JDict [("status", JStr "error");
                                          ("data", JStr "Invalid key")]) |})
    "1,2,3,4" "token" "pm25"
    = ([], Raise (PyException (JStr "API error: Invalid key"))).
Proof.
  apply (api_error_reply_raises (fun _ => None) _ "1,2,3,4" "token" "pm25"
           {| json_of := Ok (JDict [("status", JStr "error"); ("data", JStr "Invalid key")]) |}
           [("status", JStr "error"); ("data", JStr "Invalid key")]);
    reflexivity.
Defined.

Lemma mapM_ext_in {A B} (f g : A -> result B) l :
  (forall a, In a l -> f a = g a) -> mapM f l = mapM g l.
Proof.
  induction l as [ | a l IH]; intros H; simpl; [ reflexivity | ].
  rewrite (H a (or_introl eq_refl)), IH; [ reflexivity | ].
  intros a' Ha'. apply H. now right.
Qed.

Lemma feed_urls_carry_the_token api_token cities station_urls :
  mapM (fun city_dict => uid <~ py_getitem city_dict "uid" ;; Ok (Feed uid api_token)) cities
    = Ok station_urls ->
  forall u, In u station_urls -> exists uid, u = Feed uid api_token.
Proof.
  intros H. apply mapM_ok in H.
  induction H as [ | city u0 cities urls Hcity H IH]; intros u Hin; [ destruct Hin | ].
  destruct Hin as [<- | Hin]; [ | now apply IH ].
  apply rbind_ok in Hcity as (uid & _ & Hu). injection Hu as <-. eauto.
Qed.

(** X6: discovery asks for the map-bounds URL of its coordinates and token and
    for feed URLs with that token, and for nothing else: two networks that
    agree on those give the same discovery. *)
Theorem discovery_asks_only_its_own_urls
  (int_of_str : string -> option Z) (get get' : transport) (coords api_token iaqi : string) :
  get' (MapBounds api_token coords) = get (MapBounds api_token coords) ->
  (forall uid, get' (Feed uid api_token) = get (Feed uid api_token)) ->
  get_station_requests int_of_str get' coords api_token iaqi
    = get_station_requests int_of_str get coords api_token iaqi.
Proof.
  intros Hmap Hfeed. unfold get_station_requests. rewrite Hmap.
  destruct (get (MapBounds api_token coords)) as [reply | e]; [ | reflexivity ].
  cbn [lift bind app].
  destruct (json_of reply) as [response_dict | e]; [ | reflexivity ]. cbn [bind].
  destruct (py_getitem response_dict "status") as [status | e]; [ | reflexivity ]. cbn [bind].
  destruct (py_eq_str status "error"); [ reflexivity | ].
  destruct (py_getitem response_dict "data") as [data | e]; [ | reflexivity ]. cbn [bind].
  destruct (py_len data) as [n | e]; [ | reflexivity ]. cbn [bind].
  destruct (Nat.eqb n 0); [ reflexivity | ].
  destruct (py_iter data) as [cities | e]; [ | reflexivity ]. cbn [bind].
  destruct (mapM (fun city_dict => uid <~ py_getitem city_dict "uid" ;; Ok (Feed uid api_token))
              cities) as [station_urls | e] eqn:Hurls; [ | reflexivity ].
  cbn [bind].
  destruct (mapM (fun city_dict => uid <~ py_getitem city_dict "uid" ;; py_int int_of_str uid)
              cities) as [station_uids | e]; [ | reflexivity ].
  cbn [bind].
  unfold get_responses_batch.
  rewrite (mapM_ext_in get' get station_urls); [ reflexivity | ].
  intros u Hu. destruct (feed_urls_carry_the_token _ _ _ Hurls u Hu) as [uid ->]. apply Hfeed.
Qed.

Lemma discovery_asks_only_its_own_urls_witness :
  get_station_requests (fun _ => None)
      (fun u => match u with
                | Feed _ "other" => Raise (TransportError "refused")
                | _ => two_stations_get u
                end)
      "1,2,3,4" "token" "pm25"
    = get_station_requests (fun _ => None) two_stations_get "1,2,3,4" "token" "pm25".
Proof.
  apply discovery_asks_only_its_own_urls; [ reflexivity | ].
  intros uid. reflexivity.
Defined.

Lemma kept_or_dropped iaqi rows :
  Forall (fun row => exists b, reports iaqi (fst (fst row)) = Ok b) rows ->
  length (filter (kept iaqi) rows) + length (filter (dropped iaqi) rows) = length rows.
Proof.
  induction 1 as [ | row rows [b Hb] _ IH]; [ reflexivity | ].
  cbn [filter length]. unfold kept at 1, dropped at 1. rewrite Hb.
  destruct b; cbn [length]; lia.
Qed.

Lemma length_zip3 {A B C} (la : list A) (lb : list B) (lc : list C) :
  length la = length lb -> length lc = length lb -> length (zip3 la lb lc) = length lb.
Proof. intros Ha Hc. unfold zip3. rewrite !length_combine. lia. Qed.

(** X7: when discovery returns its lists, the bounding-box reply listed at
    least one station, and each station listed is either kept or announced as
    ignored: the kept ones and the notices add up to [len(data)], and nothing
    else is printed. *)
Theorem every_station_is_kept_or_announced
  (int_of_str : string -> option Z) (get : transport) (coords api_token iaqi : string)
  (out : list event) (urls : list url) (uids : list Z) :
  get_station_requests int_of_str get coords api_token iaqi
    = (out, Ok (ReturnedPair urls uids)) ->
  exists reply response_dict data n,
    get (MapBounds api_token coords) = Ok reply /\
    json_of reply = Ok response_dict /\
    py_getitem response_dict "data" = Ok data /\
    py_len data = Ok n /\
    0 < n /\
    length urls + length out = n /\
    length uids = length urls /\
    Forall (fun ev => exists uid, ev = PrintIgnoringStation uid) out.
Proof.
  unfold get_station_requests. intros H.
  lift_inv H as reply Hget.
  lift_inv H as response_dict Hjson.
  lift_inv H as status Hstatus.
  destruct (py_eq_str status "error").
  { bind_inv H as message Hmessage. discriminate H. }
  lift_inv H as data Hdata.
  lift_inv H as n Hlen.
  destruct (Nat.eqb n 0) eqn:Hn; [ discriminate H | ].
  lift_inv H as cities Hiter.
  lift_inv H as station_urls Hurls.
  lift_inv H as station_uids Huids.
  lift_inv H as response_list Hbatch.
  bind_inv H as filtered Hfilter. destruct filtered as [furls fuids].
  injection H as <- <- <-. cbn [fst snd app]. rewrite app_nil_r.
  apply filter_stations_ok in Hfilter as (Hall & -> & -> & ->). cbn [app].
  apply mapM_ok in Hurls, Huids. apply mapM_ok in Hbatch.
  pose proof (Forall2_length_eq _ _ _ Hurls) as Lu.
  pose proof (Forall2_length_eq _ _ _ Huids) as Li.
  pose proof (Forall2_length_eq _ _ _ Hbatch) as Lr.
  pose proof (py_len_iter _ _ _ Hlen Hiter) as Hcities.
  exists reply, response_dict, data, n.
  repeat split; try assumption.
  - apply Nat.eqb_neq in Hn. lia.
  - rewrite !length_map, kept_or_dropped by assumption.
    rewrite length_zip3; lia.
  - now rewrite !length_map.
  - apply Forall_forall. intros ev Hev. apply in_map_iff in Hev as (row & <- & _). eauto.
Qed.

Lemma every_station_is_kept_or_announced_witness :
  exists reply response_dict data n,
    two_stations_get (MapBounds "token" "1,2,3,4") = Ok reply /\
    json_of reply = Ok response_dict /\
    py_getitem response_dict "data" = Ok data /\
    py_len data = Ok n /\
    0 < n /\
    length [Feed (JInt 11) "token"] + length [PrintIgnoringStation 12] = n /\
    length [11%Z] = length [Feed (JInt 11) "token"] /\
    Forall (fun ev => exists uid, ev = PrintIgnoringStation uid) [PrintIgnoringStation 12].
Proof.
  apply (every_station_is_kept_or_announced
           (fun _ => None) two_stations_get "1,2,3,4" "token" "pm25").
  reflexivity.
Defined.

Lemma discovery_lists_same_length int_of_str get coords api_token iaqi out urls uids :
  get_station_requests int_of_str get coords api_token iaqi
    = (out, Ok (ReturnedPair urls uids)) ->
  length uids = length urls.
Proof.
  unfold get_station_requests. intros H.
  lift_inv H as reply Hget.
  lift_inv H as response_dict Hjson.
  lift_inv H as status Hstatus.
  destruct (py_eq_str status "error").
  { bind_inv H as message Hmessage. discriminate H. }
  lift_inv H as data Hdata.
  lift_inv H as n Hlen.
  destruct (Nat.eqb n 0); [ discriminate H | ].
  lift_inv H as cities Hiter.
  lift_inv H as station_urls Hurls.
  lift_inv H as station_uids Huids.
  lift_inv H as response_list Hbatch.
  bind_inv H as filtered Hfilter. destruct filtered as [furls fuids].
  injection H as <- <- <-. cbn [fst snd].
  apply filter_stations_ok in Hfilter as (_ & -> & -> & _). cbn [app].
  now rewrite !length_map.
Qed.

(** ** The samples of one tick *)

Lemma measurements_mapM iaqi :
  forall response_list measurement_list,
    measurements iaqi response_list measurement_list =
      (values <~ mapM (reading iaqi) response_list ;; Ok (measurement_list ++ values)).
Proof.
  induction response_list as [ | response response_list IH]; intros acc.
  - simpl. now rewrite app_nil_r.
  - cbn [measurements mapM]. unfold reading at 1.
    destruct (json_of response) as [response_dict | e]; [ | reflexivity ]. cbn [rbind].
    destruct (py_getitem response_dict "status") as [status | e]; [ | reflexivity ].
    cbn [rbind]. destruct (py_eq_str status "error").
    + destruct (py_getitem response_dict "message"); reflexivity.
    + destruct (py_getitem response_dict "data") as [data | e]; [ | reflexivity ].
      cbn [rbind]. destruct (py_getitem data "iaqi") as [indexes | e]; [ | reflexivity ].
      cbn [rbind]. destruct (py_getitem indexes iaqi) as [index | e]; [ | reflexivity ].
      cbn [rbind]. destruct (py_getitem index "v") as [v | e]; [ | reflexivity ].
      cbn [rbind]. rewrite IH.
      destruct (mapM (reading iaqi) response_list) as [values | e]; [ | reflexivity ].
      cbn [rbind]. now rewrite <- app_assoc.
Qed.

Lemma get_samples_mapM get station_urls iaqi :
  get_samples get station_urls iaqi =
    (response_list <~ get_responses_batch get station_urls ;; mapM (reading iaqi) response_list).
Proof.
  unfold get_samples. destruct (get_responses_batch get station_urls) as [rs | e]; [ | reflexivity ].
  cbn [rbind]. rewrite measurements_mapM.
  destruct (mapM (reading iaqi) rs); reflexivity.
Qed.

Lemma Forall2_compose {A B C} (R : A -> B -> Prop) (S : B -> C -> Prop) la lb lc :
  Forall2 R la lb -> Forall2 S lb lc ->
  Forall2 (fun a c => exists b, R a b /\ S b c) la lc.
Proof.
  intros H. revert lc. induction H as [ | a b la lb Hab H IH]; intros lc Hc.
  - inversion Hc. constructor.
  - inversion Hc as [ | b' c lb' lc' Hbc Hc' ]; subst. constructor; eauto.
Qed.

Lemma Forall2_split_middle {A C} (P : A -> C -> Prop) la lc :
  Forall2 P la lc -> forall (B : Type) (R : A -> B -> Prop) (S : B -> C -> Prop),
  (forall a c, P a c -> exists b, R a b /\ S b c) ->
  exists lb, Forall2 R la lb /\ Forall2 S lb lc.
Proof.
  intros H B R S HP. induction H as [ | a c la lc Hac H (lb & IH1 & IH2)].
  - exists []. split; constructor.
  - destruct (HP a c Hac) as (b & Hab & Hbc). exists (b :: lb). split; constructor; assumption.
Qed.

(** X8: [get_samples] returns exactly when every request returns and every
    payload reads; the values come in the order of the URLs. *)
Theorem get_samples_one_value_per_station
  (get : transport) (station_urls : list url) (iaqi : string) (measurement_list : list json) :
  get_samples get station_urls iaqi = Ok measurement_list <->
  Forall2 (fun url v => exists response, get url = Ok response /\ reading iaqi response = Ok v)
          station_urls measurement_list.
Proof.
  rewrite get_samples_mapM. unfold get_responses_batch. split.
  - intros H. apply rbind_ok in H as (rs & Hrs & Hvalues).
    apply mapM_ok in Hrs. apply mapM_ok in Hvalues.
    exact (Forall2_compose _ _ _ _ _ Hrs Hvalues).
  - intros H.
    destruct (Forall2_split_middle _ _ _ H response
                (fun u r => get u = Ok r) (fun r v => reading iaqi r = Ok v))
      as (rs & Hrs & Hvalues); [ auto | ].
    apply mapM_ok in Hrs. apply mapM_ok in Hvalues. rewrite Hrs. exact Hvalues.
Qed.

(** X9: what [get_samples] raises: the exception of the first request that
    fails, and only when every request returned, that of the first payload
    that does not read. *)
Theorem get_samples_raises_first_failure
  (get : transport) (station_urls : list url) (iaqi : string) (e : exn) :
  get_samples get station_urls iaqi = Raise e <->
  get_responses_batch get station_urls = Raise e \/
  exists response_list before response after values,
    get_responses_batch get station_urls = Ok response_list /\
    response_list = before ++ response :: after /\
    Forall2 (fun r v => reading iaqi r = Ok v) before values /\
    reading iaqi response = Raise e.
Proof.
  rewrite get_samples_mapM.
  destruct (get_responses_batch get station_urls) as [rs | e'] eqn:Hbatch; cbn [rbind].
  - rewrite mapM_raise. split.
    + intros (before & r & after & values & -> & Hb & Hr).
      right. exists (before ++ r :: after), before, r, after, values. auto.
    + intros [H | (rs' & before & r & after & values & Hrs & -> & Hb & Hr)]; [ discriminate | ].
      injection Hrs as ->. exists before, r, after, values. auto.
  - split.
    + intros H. left. congruence.
    + intros [H | (rs' & ? & ? & ? & ? & Hrs & _)]; [ congruence | discriminate ].
Qed.

(** X10: a payload whose status is "error" ends the call with
    [Exception(message)], or with KeyError when it holds no message. *)
Theorem error_payload_aborts_get_samples
  (get : transport) (station_urls : list url) (iaqi : string)
  (before : list response) (reply : response) (after : list response)
  (values : list json) (d : list (string * json)) :
  get_responses_batch get station_urls = Ok (before ++ reply :: after) ->
  Forall2 (fun r v => reading iaqi r = Ok v) before values ->
  json_of reply = Ok (JDict d) ->
  dict_get "status" d = Some (JStr "error") ->
  get_samples get station_urls iaqi =
    Raise match dict_get "message" d with
          | Some message => PyException message
          | None => KeyError "message"
          end.
Proof.
  intros Hbatch Hbefore Hjson Hstatus.
  rewrite get_samples_mapM, Hbatch. cbn [rbind]. apply mapM_raise.
  exists before, reply, after, values. repeat split; [ assumption | ].
  unfold reading. rewrite Hjson. cbn [rbind py_getitem]. rewrite Hstatus. cbn [rbind py_eq_str].
  change (String.eqb "error" "error") with true. cbn iota.
  destruct (dict_get "message" d); reflexivity.
Qed.

Lemma error_payload_aborts_get_samples_witness :
  get_samples
    (fun u => match u with
              | Feed (JInt 2) _ =>
                  Ok {| json_of := Ok (JDict [("status", JStr "error");
                                              ("data", JStr "Over quota")]) |}
              | _ => one_station_get u
              end)
    [Feed (JInt 1) "token"; Feed (JInt 2) "token"] "pm25"
    = Raise (KeyError "message").
Proof.
  apply (error_payload_aborts_get_samples _ _ "pm25"
           [{| json_of := Ok (JDict [("status", JStr "ok");
                 ("data", JDict [("iaqi", JDict [("pm25", JDict [("v", JFloat 10)])])])]) |}]
           {| json_of := Ok (JDict [("status", JStr "error"); ("data", JStr "Over quota")]) |}
           [] [JFloat 10] [("status", JStr "error"); ("data", JStr "Over quota")]).
  - reflexivity.
  - repeat constructor.
  - reflexivity.
  - reflexivity.
Defined.

Lemma get_samples_length get station_urls iaqi sample_list :
  get_samples get station_urls iaqi = Ok sample_list ->
  length sample_list = length station_urls.
Proof.
  rewrite get_samples_mapM. unfold get_responses_batch. intros H.
  apply rbind_ok in H as (rs & Hrs & Hvalues).
  apply mapM_ok in Hrs. apply mapM_ok in Hvalues.
  apply Forall2_length_eq in Hrs, Hvalues. congruence.
Qed.

(** ** One iteration of the loop *)

Lemma print_samples_ok sample_list : forall station_uids out,
  print_samples sample_list station_uids = (out, Ok tt) <->
  out = sample_lines sample_list station_uids /\
  Forall (fun pair => py_format_2f (fst pair) = Ok tt) (combine sample_list station_uids).
Proof.
  unfold sample_lines.
  induction sample_list as [ | sample sample_list IH]; intros station_uids out.
  { cbn. split; [ intros H; injection H as <-; auto | intros [-> _]; reflexivity ]. }
  destruct station_uids as [ | uid station_uids].
  { cbn. split; [ intros H; injection H as <-; auto | intros [-> _]; reflexivity ]. }
  cbn [print_samples combine map fst snd]. split.
  - intros H. apply bind_ok in H as (o1 & [] & o2 & Hformat & H & ->).
    apply lift_ok in Hformat as [Hformat ->].
    apply bind_ok in H as (o3 & [] & o4 & Hemit & H & ->). injection Hemit as <-.
    apply IH in H as [-> Hall]. split; [ reflexivity | ]. now constructor.
  - intros [-> Hall]. inversion Hall as [ | pair pairs Hformat Hrest ]; subst.
    cbn [fst] in Hformat. rewrite Hformat. cbn [lift bind emit app].
    rewrite (proj2 (IH station_uids _) (conj eq_refl Hrest)). reflexivity.
Qed.

Lemma print_samples_raise sample_list : forall station_uids before sample uid after e,
  combine sample_list station_uids = before ++ (sample, uid) :: after ->
  Forall (fun pair => py_format_2f (fst pair) = Ok tt) before ->
  py_format_2f sample = Raise e ->
  print_samples sample_list station_uids
    = (map (fun pair => PrintSample (snd pair) (fst pair)) before, Raise e).
Proof.
  induction sample_list as [ | s sample_list IH]; intros station_uids before sample uid after e.
  { cbn. intros H. now destruct before. }
  destruct station_uids as [ | u station_uids].
  { cbn. intros H. now destruct before. }
  cbn [combine print_samples]. intros Hzip Hbefore Hformat.
  destruct before as [ | pair before]; cbn [app] in Hzip.
  - assert (s = sample) as -> by congruence. rewrite Hformat. reflexivity.
  - assert (pair = (s, u)) as -> by congruence.
    assert (combine sample_list station_uids = before ++ (sample, uid) :: after) as Hzip'
      by congruence.
    inversion Hbefore as [ | ? ? Hs Hrest ]; subst. cbn [fst] in Hs.
    rewrite Hs. cbn [lift bind emit app map fst snd].
    rewrite (IH _ _ _ _ _ _ Hzip' Hrest Hformat). reflexivity.
Qed.

(** X11: lines 153-154 print one line per pair of [zip(sample_list,
    station_uids)], in order, as long as the samples are numbers; the first
    sample that [{:.2f}] cannot format raises, after the lines before it. *)
Theorem print_samples_one_line_per_pair (sample_list : list json) (station_uids : list Z) :
  (forall out,
     print_samples sample_list station_uids = (out, Ok tt) <->
     out = sample_lines sample_list station_uids /\
     Forall (fun pair => py_format_2f (fst pair) = Ok tt)
            (combine sample_list station_uids)) /\
  length (sample_lines sample_list station_uids)
    = Nat.min (length sample_list) (length station_uids) /\
  (forall before sample uid after e,
     combine sample_list station_uids = before ++ (sample, uid) :: after ->
     Forall (fun pair => py_format_2f (fst pair) = Ok tt) before ->
     py_format_2f sample = Raise e ->
     print_samples sample_list station_uids
       = (map (fun pair => PrintSample (snd pair) (fst pair)) before, Raise e)).
Proof.
  split; [ apply print_samples_ok | ]. split.
  - unfold sample_lines. now rewrite length_map, length_combine.
  - apply print_samples_raise.
Qed.

Lemma print_samples_one_line_per_pair_witness :
  print_samples [JFloat 10; JStr "-"; JFloat 30] [1%Z; 2%Z; 3%Z]
    = ([PrintSample 1 (JFloat 10)], Raise ValueError).
Proof.
  destruct (print_samples_one_line_per_pair [JFloat 10; JStr "-"; JFloat 30] [1%Z; 2%Z; 3%Z])
    as (_ & _ & Hraise).
  apply (Hraise [(JFloat 10, 1%Z)] (JStr "-") 2%Z [(JFloat 30, 3%Z)] ValueError).
  - reflexivity.
  - repeat constructor.
  - reflexivity.
Defined.

Lemma sum_from_numbers : forall items acc total,
  sum_from acc items = Ok total -> Forall (fun j => exists n, py_number j = Ok n) items.
Proof.
  induction items as [ | j items IH]; intros acc total H; [ constructor | ].
  cbn [sum_from] in H. apply rbind_ok in H as (n & Hn & H).
  apply rbind_ok in H as (acc' & _ & H). constructor; eauto.
Qed.

Lemma sum_from_floats_then_text : forall xs a j rest,
  py_number j = Raise TypeError ->
  sum_from (NFloat a) (map JFloat xs ++ j :: rest) = Raise TypeError.
Proof.
  induction xs as [ | x xs IH]; intros a j rest Hj; cbn [map app sum_from].
  - now rewrite Hj.
  - cbn [py_number rbind py_add py_to_float]. now apply IH.
Qed.

(** X12: the mean of line 156 exists only for a list that is not empty and
    holds numbers only: an empty list raises ZeroDivisionError, and a sample
    that is no number, after samples that are floats, raises TypeError. *)
Theorem tick_mean_needs_samples_and_numbers :
  mean [] = Raise ZeroDivisionError /\
  (forall sample_list tick_mean,
     mean sample_list = Ok tick_mean ->
     sample_list <> [] /\
     Forall (fun j => exists n, py_number j = Ok n) sample_list) /\
  (forall xs j rest,
     py_number j = Raise TypeError ->
     mean (map JFloat xs ++ j :: rest) = Raise TypeError).
Proof.
  split; [ reflexivity | ]. split.
  - intros sample_list tick_mean H. unfold mean in H.
    apply rbind_ok in H as (total & Hsum & Hdiv). split.
    + intros ->. injection Hsum as <-. discriminate Hdiv.
    + exact (sum_from_numbers _ _ _ Hsum).
  - intros xs j rest Hj. unfold mean, py_sum.
    destruct xs as [ | x xs]; cbn [map app sum_from].
    + now rewrite Hj.
    + cbn [py_number rbind py_add py_to_float].
      change (float_of_Z 0) with (Ok f0). cbn [rbind].
      now rewrite sum_from_floats_then_text.
Qed.

Lemma tick_mean_needs_samples_and_numbers_witness :
  mean [JFloat 10; JStr "-"; JFloat 30] = Raise TypeError.
Proof.
  destruct tick_mean_needs_samples_and_numbers as (_ & _ & Htext).
  apply (Htext [10%float] (JStr "-") [JFloat 30]). reflexivity.
Defined.

(** X13: with the lists discovery returned, an iteration that completes has
    one sample per eligible station and prints, between its "Collected" line
    and its sleep, one line for each of them. *)
Theorem completed_tick_prints_every_station
  (int_of_str : string -> option Z) (get : transport) (coords api_token : string)
  (notices : list event) (station_urls : list url) (station_uids : list Z)
  (sampling_rate : float) (t : tick) (st : session) (out : list event) (st' : session) :
  get_station_requests int_of_str get coords api_token "pm25"
    = (notices, Ok (ReturnedPair station_urls station_uids)) ->
  loop_body sampling_rate station_urls station_uids t st = (out, Ok st') ->
  exists sample_list,
    get_samples (tick_get t) station_urls "pm25" = Ok sample_list /\
    length sample_list = length station_urls /\
    length (sample_lines sample_list station_uids) = length station_urls /\
    map (fun pair => snd pair) (combine sample_list station_uids) = station_uids /\
    out = PrintCollected (latency t)
            :: sample_lines sample_list station_uids
            ++ [Sleep (f60 / sampling_rate - latency t)%float].
Proof.
  intros Hdiscovery Hbody.
  apply discovery_lists_same_length in Hdiscovery.
  apply loop_body_ok in Hbody
    as (sample_list & prints & tick_mean & Hsamples & Hprints & _ & _ & _ & -> & _).
  apply print_samples_ok in Hprints as [-> _].
  pose proof (get_samples_length _ _ _ _ Hsamples) as Hlength.
  exists sample_list. repeat split; try assumption.
  - unfold sample_lines. rewrite length_map, length_combine. lia.
  - assert (length sample_list = length station_uids) as Hsame by lia.
    clear - Hsame. revert station_uids Hsame.
    induction sample_list as [ | s l IH]; intros [ | u uids] Hsame; try discriminate Hsame.
    + reflexivity.
    + cbn. f_equal. apply IH. now injection Hsame.
Qed.

Lemma completed_tick_prints_every_station_witness :
  exists sample_list,
    get_samples (tick_get half_second_tick) three_station_urls "pm25" = Ok sample_list /\
    length sample_list = length three_station_urls /\
    length (sample_lines sample_list [1%Z; 2%Z; 3%Z]) = length three_station_urls /\
    map (fun pair => snd pair) (combine sample_list [1%Z; 2%Z; 3%Z]) = [1%Z; 2%Z; 3%Z] /\
    fst (loop_body 60 three_station_urls [1%Z; 2%Z; 3%Z] half_second_tick session_start)
      = PrintCollected (latency half_second_tick)
          :: sample_lines sample_list [1%Z; 2%Z; 3%Z]
          ++ [Sleep (f60 / 60 - latency half_second_tick)%float].
Proof.
  eapply (completed_tick_prints_every_station
            (fun _ => None) three_stations_get "1,2,3,4" "token" []
            three_station_urls [1%Z; 2%Z; 3%Z] 60 half_second_tick session_start).
  - vm_compute. reflexivity.
  - vm_compute. reflexivity.
Defined.

(** 60 divided by a negative rate is a number that is not above zero. *)
Lemma div_60_by_negative r :
  (r <? f0)%float = true ->
  (r =? f0)%float = false /\ not_nan (f60 / r) /\ (fv (f60 / r) <= 0)%Z.
Proof.
  intros H. apply ltb_fv in H as (Nr & _ & Hneg). change (fv f0) with 0%Z in Hneg.
  split.
  { destruct (r =? f0)%float eqn:E; [ | reflexivity ].
    apply eqb_fv in E as (_ & _ & E). change (fv f0) with 0%Z in E. lia. }
  unfold not_nan, fv in *. rewrite Prim2SF_div, Prim2SF_f60.
  pose proof (Prim2SF_valid r) as Vr.
  destruct (Prim2SF r) as [s | s | | s m e]; cbn [fixval] in Hneg; try lia.
  - destruct s; cbn in Hneg; [ | pose proof INF_pos; unfold INF in *; lia ].
    cbn. split; [ discriminate | lia ].
  - cbn [valid_binary] in Vr.
    destruct s; cbn [cond_Zopp] in Hneg; [ | lia ].
    pose proof (SFdiv_fixval false _ _ true m e bounded_60 Vr) as (_ & N & F).
    cbv zeta in N, F. split; [ exact N | ]. rewrite F. cbn [xorb cond_Zopp].
    pose proof INF_pos.
    pose proof (round_fix_nonneg (8444249301319680 * 2 ^ (-47 + K) * 2 ^ K)
                  (Z.pos m * 2 ^ (e + K))).
    lia.
Qed.

(** X14: a negative rate, which [validate_input] accepts, makes the interval of
    line 159 zero or negative: an iteration whose requests took any time at
    all ends with the "taking too long" message and [sys.exit(2)]. *)
Theorem negative_rate_ends_in_cadence_error
  (sampling_rate : float) (station_urls : list url) (station_uids : list Z)
  (t : tick) (st : session)
  (sample_list : list json) (prints : list event) (tick_mean : float) :
  (sampling_rate <? f0)%float = true ->
  (f0 <? latency t)%float = true ->
  get_samples (tick_get t) station_urls "pm25" = Ok sample_list ->
  print_samples sample_list station_uids = (prints, Ok tt) ->
  mean sample_list = Ok tick_mean ->
  loop_body sampling_rate station_urls station_uids t st
    = (PrintCollected (latency t) :: prints ++ [PrintTooSlow (latency t)],
       Raise (SystemExit 2)).
Proof.
  intros Hrate Hlatency Hsamples Hprints Hmean.
  apply div_60_by_negative in Hrate as (Hnonzero & Ninterval & Hinterval).
  assert (float_truediv f60 sampling_rate = Ok (f60 / sampling_rate)%float) as Hdiv
    by (unfold float_truediv; now rewrite Hnonzero).
  rewrite (loop_body_after_collection _ _ _ _ _ _ _ _ _ Hsamples Hprints Hmean Hdiv).
  change (f60 / sampling_rate - latency t <? f0)%float
    with (f60 / sampling_rate - latency t <? 0)%float.
  rewrite sub_negative_iff.
  apply ltb_fv in Hlatency as (_ & Nlatency & Hlatency). change (fv f0) with 0%Z in Hlatency.
  assert ((f60 / sampling_rate <? latency t)%float = true) as ->
    by (apply ltb_fv; repeat split; try assumption; lia).
  reflexivity.
Qed.

Lemma negative_rate_ends_in_cadence_error_witness :
  loop_body (-60) three_station_urls [1%Z; 2%Z; 3%Z] half_second_tick session_start
    = (PrintCollected (latency half_second_tick)
         :: [PrintSample 1 (JFloat 10); PrintSample 2 (JFloat 20); PrintSample 3 (JFloat 30)]
         ++ [PrintTooSlow (latency half_second_tick)],
       Raise (SystemExit 2)).
Proof.
  apply (negative_rate_ends_in_cadence_error (-60) three_station_urls [1%Z; 2%Z; 3%Z]
           half_second_tick session_start [JFloat 10; JFloat 20; JFloat 30] _ 20);
    reflexivity.
Defined.

(** ** The rate guard after validation *)

Lemma mul_not_nan_l x y : not_nan (x * y) -> not_nan x.
Proof.
  unfold not_nan. rewrite Prim2SF_mul. intros H E. apply H. rewrite E. reflexivity.
Qed.

(** With one station the estimate is the sixtieth of the rate times 1.0. *)
Lemma mul_one_not_above_1000 x :
  (f1000 <? x)%float = false -> (f1000 <? x * 1)%float = false.
Proof.
  intros Hx. destruct (f1000 <? x * 1)%float eqn:E; [ | reflexivity ].
  apply ltb_fv in E as (N1000 & Nm & E).
  pose proof (mul_not_nan_l _ _ Nm) as Nx.
  assert (0 < fv f1000)%Z as H1000 by (vm_compute; reflexivity).
  assert (0 < fv (x * 1))%Z as Hpos by lia.
  unfold fv in Hpos. rewrite Prim2SF_mul in Hpos.
  apply SFmul_pos_inv in Hpos as [Hxpos _]; try apply Prim2SF_valid;
    [ | vm_compute; discriminate ].
  destruct (Z.le_gt_cases (fv x) (fv f1000)) as [Hle | Hgt].
  - pose proof (SFmul_mono_l (Prim2SF x) (Prim2SF f1000) (Prim2SF 1)
                  (Prim2SF_valid _) (Prim2SF_valid _) (Prim2SF_valid _)
                  ltac:(vm_compute; reflexivity) Hxpos Hle) as (_ & _ & Hmul).
    rewrite <- (Prim2SF_mul x 1), <- (Prim2SF_mul f1000 1) in Hmul.
    change (fixval (Prim2SF (f1000 * 1))) with (fv f1000) in Hmul.
    unfold fv in *. lia.
  - assert ((f1000 <? x)%float = true) as Habs by (apply ltb_fv; repeat split; auto; lia).
    congruence.
Qed.

(** X15: a rate that passed the check of line 115 is never rejected by the
    check of line 135 when one station is eligible: it takes two stations or
    more for the second check to reject. *)
Theorem validated_rate_with_one_station_is_not_rejected
  (sampling_rate : float) (station_url : url) :
  (f1000 <? sampling_rate / f60)%float = false ->
  exists estimate,
    estimate_requests_per_sec sampling_rate 1 = Ok estimate /\
    classify estimate <> Reject /\
    snd (rate_guard sampling_rate [station_url]) = Ok tt.
Proof.
  intros Hvalid. apply mul_one_not_above_1000 in Hvalid.
  exists (sampling_rate / f60 * 1)%float.
  assert (estimate_requests_per_sec sampling_rate 1 = Ok (sampling_rate / f60 * 1)%float)
    as Hestimate by reflexivity.
  assert (classify (sampling_rate / f60 * 1) <> Reject) as Hclass.
  { unfold classify. rewrite Hvalid. destruct (f500 <? _)%float; discriminate. }
  repeat split; try assumption.
  unfold rate_guard. cbn [length]. rewrite Hestimate. cbn [lift bind].
  destruct (classify (sampling_rate / f60 * 1)); [ reflexivity | reflexivity | congruence ].
Qed.

Lemma validated_rate_with_one_station_is_not_rejected_witness :
  exists estimate,
    estimate_requests_per_sec 60000 1 = Ok estimate /\
    classify estimate <> Reject /\
    snd (rate_guard 60000 [Feed (JInt 1) "token"]) = Ok tt.
Proof.
  apply (validated_rate_with_one_station_is_not_rejected 60000 (Feed (JInt 1) "token")).
  reflexivity.
Defined.

(** An estimate for a rate that is zero or negative is above no threshold
    that is zero or more. *)
Lemma estimate_of_nonpositive_rate T r n e :
  (0 <= fv T)%Z -> (r <=? f0)%float = true ->
  estimate_requests_per_sec r n = Ok e -> (T <? e)%float = false.
Proof.
  intros HT Hr He. unfold estimate_requests_per_sec in He.
  destruct (float_of_Z (Z.of_nat n)) as [c | ] eqn:Hc; [ | discriminate ].
  cbn [rbind] in He. injection He as <-.
  pose proof (float_of_Z_nonneg _ _ (Nat2Z.is_nonneg n) Hc) as Hc0.
  apply leb_fv in Hr as (Nr & _ & Hr). change (fv f0) with 0%Z in Hr.
  pose proof (SFdiv_sign (Prim2SF r) _ _ (Prim2SF_valid r) Nr bounded_60) as (_ & _ & Hs & _).
  rewrite <- Prim2SF_f60, <- Prim2SF_div in Hs. specialize (Hs Hr).
  destruct (T <? r / f60 * c)%float eqn:E; [ | reflexivity ].
  apply ltb_fv in E as (_ & _ & E).
  assert (0 < fv (r / f60 * c))%Z as Hpos by lia.
  unfold fv in Hpos. rewrite Prim2SF_mul in Hpos.
  apply SFmul_pos_inv in Hpos as [Ha _]; try apply Prim2SF_valid; [ lia | exact Hc0 ].
Qed.

(** X16: a rate that is zero or negative passes the check of lines 134-141
    without a word, however many stations are eligible. *)
Theorem rate_at_or_below_zero_passes_the_guard
  (sampling_rate : float) (station_urls : list url) (estimate : float) :
  (sampling_rate <=? f0)%float = true ->
  estimate_requests_per_sec sampling_rate (length station_urls) = Ok estimate ->
  classify estimate = Proceed /\
  rate_guard sampling_rate station_urls = ([], Ok tt).
Proof.
  intros Hrate Hestimate.
  assert (classify estimate = Proceed) as Hclass.
  { unfold classify.
    rewrite (estimate_of_nonpositive_rate f1000 _ _ _ ltac:(vm_compute; discriminate)
               Hrate Hestimate).
    rewrite (estimate_of_nonpositive_rate f500 _ _ _ ltac:(vm_compute; discriminate)
               Hrate Hestimate).
    reflexivity. }
  split; [ exact Hclass | ].
  unfold rate_guard. rewrite Hestimate. cbn [lift bind]. rewrite Hclass. reflexivity.
Qed.

Lemma rate_at_or_below_zero_passes_the_guard_witness :
  classify (-3) = Proceed /\ rate_guard (-60) three_station_urls = ([], Ok tt).
Proof.
  apply (rate_at_or_below_zero_passes_the_guard (-60) three_station_urls (-3));
    reflexivity.
Defined.

(** An estimate for no station is a zero or not a number: it is above no
    threshold that is zero or more. *)
Lemma mul_zero_not_above T x : (0 <= fv T)%Z -> (T <? x * f0)%float = false.
Proof.
  intros HT. destruct (T <? x * f0)%float eqn:E; [ | reflexivity ].
  apply ltb_fv in E as (_ & _ & E). unfold fv in E at 2. rewrite Prim2SF_mul in E.
  change (Prim2SF f0) with (S754_zero false) in E.
  destruct (Prim2SF x); cbn in E; lia.
Qed.

Lemma rate_guard_without_stations sampling_rate : rate_guard sampling_rate [] = ([], Ok tt).
Proof.
  unfold rate_guard, estimate_requests_per_sec. cbn [length].
  change (float_of_Z (Z.of_nat 0)) with (Ok f0). cbn [rbind lift bind app].
  unfold classify.
  rewrite (mul_zero_not_above f1000), (mul_zero_not_above f500);
    [ reflexivity | vm_compute; discriminate | vm_compute; discriminate ].
Qed.

(** ** The session as a whole *)

(** A period that is not above zero, times 60, is not above zero either. *)
Lemma mul_60_not_positive p : (f0 <? p)%float = false -> (f0 <? p * f60)%float = false.
Proof.
  intros Hp. destruct (f0 <? p * f60)%float eqn:E; [ | reflexivity ].
  apply ltb_fv in E as (N0 & Nm & Hpos). change (fv f0) with 0%Z in Hpos.
  pose proof (mul_not_nan_l _ _ Nm) as Np.
  unfold fv in Hpos. rewrite Prim2SF_mul in Hpos.
  apply SFmul_pos_inv in Hpos as [Hppos _]; try apply Prim2SF_valid.
  - assert ((f0 <? p)%float = true) as Habs by (apply ltb_fv; auto). congruence.
  - vm_compute. discriminate.
Qed.

Lemma sampling_loop_not_entered sampling_period sampling_rate station_urls station_uids ticks st :
  keeps_sampling sampling_period st = false ->
  sampling_loop sampling_period sampling_rate station_urls station_uids ticks st
    = ([], Ok (Exited st)).
Proof.
  unfold keeps_sampling. intros H. destruct ticks; cbn [sampling_loop]; now rewrite H.
Qed.

(** X17: with a sampling period that is not above zero (zero, negative or not a
    number) the loop of line 147 is never entered, nothing is requested or
    printed, and line 168 divides by [num_samples = 0]. *)
Theorem period_not_above_zero_divides_by_zero
  (sampling_period sampling_rate : float) (station_urls : list url) (station_uids : list Z)
  (ticks : list tick) :
  (f0 <? sampling_period)%float = false ->
  sampling_loop sampling_period sampling_rate station_urls station_uids ticks session_start
    = ([], Ok (Exited session_start)) /\
  sampling sampling_period sampling_rate station_urls station_uids ticks
    = ([], Raise ZeroDivisionError).
Proof.
  intros Hperiod. apply mul_60_not_positive in Hperiod.
  assert (sampling_loop sampling_period sampling_rate station_urls station_uids ticks
            session_start = ([], Ok (Exited session_start))) as Hloop
    by (apply sampling_loop_not_entered; exact Hperiod).
  split; [ exact Hloop | ].
  unfold sampling. rewrite Hloop. reflexivity.
Qed.

Lemma period_not_above_zero_divides_by_zero_witness :
  sampling_loop (-5) 60 three_station_urls [1%Z; 2%Z; 3%Z] [half_second_tick] session_start
    = ([], Ok (Exited session_start)) /\
  sampling (-5) 60 three_station_urls [1%Z; 2%Z; 3%Z] [half_second_tick]
    = ([], Raise ZeroDivisionError).
Proof.
  apply (period_not_above_zero_divides_by_zero (-5) 60). reflexivity.
Defined.

(** X18: when no station is eligible the rate guard says nothing, whatever the
    rate, and with a period above zero the first iteration collects nothing
    and raises ZeroDivisionError at line 156. *)
Theorem run_without_stations_divides_by_zero
  (sampling_period sampling_rate : float) (station_uids : list Z) (t : tick)
  (ticks : list tick) :
  (f0 <? sampling_period)%float = true ->
  rate_guard sampling_rate [] = ([], Ok tt) /\
  (rate_guard sampling_rate [] ;;
   sampling sampling_period sampling_rate [] station_uids (t :: ticks))
    = ([PrintCollected (latency t)], Raise ZeroDivisionError).
Proof.
  intros Hperiod. apply mul_60_positive in Hperiod.
  split; [ apply rate_guard_without_stations | ].
  rewrite rate_guard_without_stations. cbn [bind app].
  unfold sampling. cbn [sampling_loop session_start time_elapsed].
  change (f0 <? sampling_period * f60)%float with (0 <? sampling_period * 60)%float.
  rewrite Hperiod. rewrite loop_body_without_stations. reflexivity.
Qed.

Lemma run_without_stations_divides_by_zero_witness :
  rate_guard 120 [] = ([], Ok tt) /\
  (rate_guard 120 [] ;; sampling 5 120 [] [] [half_second_tick])
    = ([PrintCollected (latency half_second_tick)], Raise ZeroDivisionError).
Proof.
  apply (run_without_stations_divides_by_zero 5 120 [] half_second_tick []). reflexivity.
Defined.

Lemma sample_lines_do_not_sleep sample_list station_uids :
  filter is_sleep (sample_lines sample_list station_uids) = [].
Proof.
  unfold sample_lines. induction (combine sample_list station_uids) as [ | pair l IH];
    [ reflexivity | exact IH ].
Qed.

Lemma iterations_sleeps sampling_rate station_urls station_uids :
  forall ticks st out st',
    iterations sampling_rate station_urls station_uids ticks st = (out, Ok st') ->
    filter is_sleep out
      = map (fun t => Sleep (f60 / sampling_rate - latency t)%float) ticks /\
    Forall (fun t => (f60 / sampling_rate - latency t <? f0)%float = false) ticks /\
    num_samples st' = num_samples st + length ticks.
Proof.
  induction ticks as [ | t ticks IH]; intros st out st' H.
  - injection H as <- <-. cbn. repeat split; [ constructor | lia ].
  - cbn [iterations] in H. bind_inv H as st1 Hbody.
    apply loop_body_ok in Hbody
      as (sample_list & prints & tick_mean & _ & Hprints & _ & _ & Hslow & -> & ->).
    apply print_samples_ok in Hprints as [-> _].
    apply IH in H as (Hsleeps & Hall & Hnum).
    rewrite filter_app. cbn [filter is_sleep]. rewrite filter_app, sample_lines_do_not_sleep.
    cbn [filter is_sleep app map]. rewrite Hsleeps.
    repeat split; [ now constructor | ]. rewrite Hnum. cbn. lia.
Qed.

(** X19: in a session that reports its average over [n] iterations, the program
    slept exactly [n] times, once per iteration and in order, each time for
    the interval less the time the requests took, and never for a negative
    time. *)
Theorem session_sleeps_once_per_tick
  (sampling_period sampling_rate : float) (station_urls : list url) (station_uids : list Z)
  (ticks : list tick) (out : list event) (n : nat) (avg : float) :
  sampling sampling_period sampling_rate station_urls station_uids ticks
    = (out, Ok (Some (n, avg))) ->
  n <= length ticks /\
  filter is_sleep out
    = map (fun t => Sleep (f60 / sampling_rate - latency t)%float) (firstn n ticks) /\
  Forall (fun t => (f60 / sampling_rate - latency t <? f0)%float = false) (firstn n ticks).
Proof.
  unfold sampling. intros H.
  bind_inv H as state Hloop. destruct state as [st | st]; [ | discriminate H ].
  bind_inv H as final Hreport. injection H as <- ->.
  unfold report in Hreport.
  lift_inv Hreport as sample_time_avg Hdiv.
  bind_inv Hreport as u Hemit. injection Hemit as <-. injection Hreport as <- <-.
  apply sampling_loop_exited in Hloop as (k & Hk & Hiter & _ & _).
  apply iterations_sleeps in Hiter as (Hsleeps & Hall & Hnum).
  rewrite length_firstn in Hnum. cbn [session_start num_samples] in Hnum.
  assert (num_samples st = k) as -> by lia.
  repeat split; try assumption.
  rewrite !filter_app, Hsleeps. cbn. now rewrite !app_nil_r.
Qed.

Lemma session_sleeps_once_per_tick_witness :
  5 <= length (repeat quick_tick 6) /\
  filter is_sleep
    (fst (sampling 0.0078125 600 [Feed (JInt 1) "token"] [1%Z] (repeat quick_tick 6)))
    = map (fun t => Sleep (f60 / 600 - latency t)%float) (firstn 5 (repeat quick_tick 6)) /\
  Forall (fun t => (f60 / 600 - latency t <? f0)%float = false)
         (firstn 5 (repeat quick_tick 6)).
Proof.
  eapply (session_sleeps_once_per_tick 0.0078125 600 [Feed (JInt 1) "token"] [1%Z]
            (repeat quick_tick 6)).
  vm_compute. reflexivity.
Defined.

Lemma report_needs_a_sample st out final :
  report st = (out, Ok final) -> num_samples st <> 0.
Proof.
  unfold report. intros H. lift_inv H as sample_time_avg Hdiv.
  intros Hzero. rewrite Hzero in Hdiv. discriminate Hdiv.
Qed.

Lemma sampling_returns sampling_period sampling_rate station_urls station_uids ticks out n avg :
  sampling sampling_period sampling_rate station_urls station_uids ticks
    = (out, Ok (Some (n, avg))) ->
  1 <= n /\ station_urls <> [] /\ (f0 <? sampling_period)%float = true.
Proof.
  intros H.
  assert ((f0 <? sampling_period)%float = true) as Hperiod.
  { destruct (f0 <? sampling_period)%float eqn:E; [ reflexivity | ].
    apply mul_60_not_positive in E.
    unfold sampling in H.
    rewrite (sampling_loop_not_entered sampling_period sampling_rate station_urls
               station_uids ticks session_start E) in H.
    discriminate H. }
  unfold sampling in H.
  bind_inv H as state Hloop. destruct state as [st | st]; [ | discriminate H ].
  bind_inv H as final Hreport. injection H as <- ->.
  pose proof (report_needs_a_sample _ _ _ Hreport) as Hnum.
  unfold report in Hreport.
  lift_inv Hreport as sample_time_avg Hdiv.
  bind_inv Hreport as u Hemit. injection Hreport as <- <-.
  apply sampling_loop_exited in Hloop as (k & Hk & Hiter & _ & _).
  destruct (firstn k ticks) as [ | t rest] eqn:Hfirst.
  { injection Hiter as _ <-. now cbn in Hnum. }
  split; [ lia | ]. split; [ | exact Hperiod ].
  intros ->. cbn [iterations] in Hiter. rewrite loop_body_without_stations in Hiter.
  discriminate Hiter.
Qed.

Lemma session_length sampling_period sampling_rate station_urls station_uids ticks out n avg :
  sampling sampling_period sampling_rate station_urls station_uids ticks
    = (out, Ok (Some (n, avg))) ->
  n <= length ticks.
Proof.
  unfold sampling. intros H.
  bind_inv H as state Hloop. destruct state as [st | st]; [ | discriminate H ].
  bind_inv H as final Hreport. injection H as <- ->.
  unfold report in Hreport.
  lift_inv Hreport as sample_time_avg Hdiv.
  bind_inv Hreport as u Hemit. injection Hreport as <- <-.
  apply sampling_loop_exited in Hloop as (k & Hk & Hiter & _ & _).
  apply iterations_sleeps in Hiter as (_ & _ & Hnum).
  rewrite length_firstn in Hnum. cbn [session_start num_samples] in Hnum. lia.
Qed.

(** X20: a run that reports an average has passed both checks of the
    arguments, found at least one eligible station, sampled for a period
    above zero and completed at least one iteration. *)
Theorem reported_average_needs_a_station_and_a_tick
  (w : world) (out : list event) (n : nat) (avg : float) :
  main w = (out, Ok (Some (n, avg))) ->
  exists api_token given_coords given_period given_rate coords sampling_period sampling_rate
         notices station_urls station_uids,
    get_input (argv w) = ([], Ok (api_token, given_coords, given_period, given_rate)) /\
    validate_input (float_of_str w) given_coords given_period given_rate
      = ([], Ok (coords, sampling_period, sampling_rate)) /\
    get_station_requests (int_of_str w) (discovery_get w) coords api_token "pm25"
      = (notices, Ok (ReturnedPair station_urls station_uids)) /\
    station_urls <> [] /\
    (f0 <? sampling_period)%float = true /\
    1 <= n <= length (ticks_of w).
Proof.
  unfold main. intros H.
  apply bind_ok in H as (o1 & input & ? & Hinput & H & ->).
  destruct input as [[[api_token coords0] period0] rate0].
  apply bind_ok in H as (o2 & valid & ? & Hvalid & H & ->).
  destruct valid as [[coords period] rate].
  apply bind_ok in H as (notices & requests & ? & Hdiscovery & H & ->).
  lift_inv H as stations Hunpack. destruct stations as [station_urls station_uids].
  bind_inv H as u Hemit.
  bind_inv H as u' Hguard.
  destruct requests as [returned | urls uids]; [ discriminate Hunpack | ].
  injection Hunpack as -> ->.
  pose proof (sampling_returns _ _ _ _ _ _ _ _ H) as (Hn & Hurls & Hperiod).
  pose proof (session_length _ _ _ _ _ _ _ _ H) as Hticks.
  apply get_input_no_output in Hinput as Ho1. subst o1.
  apply validate_input_no_output in Hvalid as Ho2. subst o2.
  exists api_token, coords0, period0, rate0, coords, period, rate,
         notices, station_urls, station_uids.
  repeat split; assumption.
Qed.

Lemma reported_average_needs_a_station_and_a_tick_witness :
  exists api_token given_coords given_period given_rate coords sampling_period sampling_rate
         notices station_urls station_uids,
    get_input (argv one_minute_world)
      = ([], Ok (api_token, given_coords, given_period, given_rate)) /\
    validate_input (float_of_str one_minute_world) given_coords given_period given_rate
      = ([], Ok (coords, sampling_period, sampling_rate)) /\
    get_station_requests (int_of_str one_minute_world) (discovery_get one_minute_world)
        coords api_token "pm25"
      = (notices, Ok (ReturnedPair station_urls station_uids)) /\
    station_urls <> [] /\
    (f0 <? sampling_period)%float = true /\
    1 <= 1 <= length (ticks_of one_minute_world).
Proof.
  eapply (reported_average_needs_a_station_and_a_tick one_minute_world).
  vm_compute. reflexivity.
Defined.

Lemma sampling_loop_runs_to_the_first_failing_test
  (sampling_period sampling_rate : float) (station_urls : list url) (station_uids : list Z) :
  forall ticks st out st',
    sampling_loop sampling_period sampling_rate station_urls station_uids ticks st
      = (out, Ok (Exited st')) ->
    exists k,
      num_samples st' = num_samples st + k /\
      time_elapsed st'
        = add_repeatedly k (f60 / sampling_rate)%float (time_elapsed st) /\
      (forall j, j < k ->
         (add_repeatedly j (f60 / sampling_rate) (time_elapsed st)
            <? sampling_period * f60)%float = true) /\
      (add_repeatedly k (f60 / sampling_rate) (time_elapsed st)
         <? sampling_period * f60)%float = false.
Proof.
  induction ticks as [ | t ticks IH]; intros st out st' H; cbn [sampling_loop] in H;
    destruct (time_elapsed st <? sampling_period * f60)%float eqn:Htest.
  - discriminate H.
  - injection H as <- <-. exists 0. cbn [add_repeatedly].
    repeat split; [ lia | intros j Hj; lia | exact Htest ].
  - bind_inv H as st1 Hbody.
    apply loop_body_ok in Hbody as (? & ? & tick_mean & _ & _ & _ & _ & _ & _ & ->).
    apply IH in H as (k & Hnum & Htime & Hbefore & Hafter).
    cbn [advance num_samples time_elapsed] in *.
    exists (S k). cbn [add_repeatedly]. repeat split; try assumption; [ lia | ].
    intros [ | j] Hj; cbn [add_repeatedly]; [ exact Htest | apply Hbefore; lia ].
  - injection H as <- <-. exists 0. cbn [add_repeatedly].
    repeat split; [ lia | intros j Hj; lia | exact Htest ].
Qed.

(** X21: the number of iterations of a session that reports its average is
    the least [n] for which 0.0 with the interval added [n] times is not below
    [sampling_period * 60.0]: the test of line 147 held after every smaller
    number of additions. *)
Theorem session_length_is_the_first_failing_test
  (sampling_period sampling_rate : float) (station_urls : list url) (station_uids : list Z)
  (ticks : list tick) (out : list event) (n : nat) (avg : float) :
  sampling sampling_period sampling_rate station_urls station_uids ticks
    = (out, Ok (Some (n, avg))) ->
  (forall j, j < n ->
     (add_repeatedly j (f60 / sampling_rate) f0 <? sampling_period * f60)%float = true) /\
  (add_repeatedly n (f60 / sampling_rate) f0 <? sampling_period * f60)%float = false.
Proof.
  unfold sampling. intros H.
  bind_inv H as state Hloop. destruct state as [st | st]; [ | discriminate H ].
  bind_inv H as final Hreport. injection H as <- ->.
  unfold report in Hreport.
  lift_inv Hreport as sample_time_avg Hdiv.
  bind_inv Hreport as u Hemit. injection Hreport as <- <-.
  apply sampling_loop_runs_to_the_first_failing_test in Hloop
    as (k & Hnum & _ & Hbefore & Hafter).
  cbn [session_start num_samples time_elapsed] in *.
  assert (k = num_samples st) as -> by lia. auto.
Qed.

Lemma session_length_is_the_first_failing_test_witness :
  (forall j, j < 5 ->
     (add_repeatedly j (f60 / 600) f0 <? 0.0078125 * f60)%float = true) /\
  (add_repeatedly 5 (f60 / 600) f0 <? 0.0078125 * f60)%float = false.
Proof.
  eapply (session_length_is_the_first_failing_test 0.0078125 600 [Feed (JInt 1) "token"]
            [1%Z] (repeat quick_tick 6)).
  vm_compute. reflexivity.
Defined.
